(** * Phishing e-mail detector: a shallow embedding of the heuristic engine

    The Python sources embedded here are
      - [utils/validators.py]  (class [URLValidator]),
      - [utils/parser.py]      (class [EmailParser]),
      - [models/patterns.py]   (class [PatternMatcher]),
      - [models/scorer.py]     (class [RiskScorer]),
      - [models/analyzer.py]   (class [GPTAnalyzer]),
      - [utils/reporter.py]    (class [ReportGenerator]),
      - [detector.py]          (class [PhishingDetector], and the reading of an
                                e-mail file in [main]).

    Conventions.
      - A Python [str] is a [string]: the sequence of its bytes in UTF-8.  A
        slice [s[:n]] counts characters ([take_chars]); a file is read with
        its line ends translated ([universal_newlines]).  The model is exact
        on ASCII text; [lower], [isdigit], [isspace] and [isupper] act on the
        ASCII range only and leave every other byte alone.
      - A Python [int] is a [Z]; a length or an edit distance is a [nat].
      - A Python [float] is a binary64 number of [SpecFloat] (precision 53,
        maximal exponent 1024, round to nearest even).
      - A raised exception is an explicit [Raise] result.
      - [list(set(xs))] keeps the first occurrence of every element, in the
        order of [xs]; Python leaves that order unspecified, and the theorems
        below speak of the elements of such a list and of their number only. *)

From Stdlib Require Import ZArith Ascii String List Lia Bool SpecFloat Sorted Permutation.
From stdpp Require Import base strings gmap.
Import ListNotations.

Open Scope string_scope.
Open Scope list_scope.
Open Scope Z_scope.

(** ** Python string primitives *)

Module PyStr.

Definition code (c : ascii) : N := N_of_ascii c.

Definition in_range (lo hi c : ascii) : bool :=
  ((code lo <=? code c) && (code c <=? code hi))%N.

(** [c.isdigit()] *)
Definition isdigit (c : ascii) : bool := in_range "0" "9" c.

Definition isupper_char (c : ascii) : bool := in_range "A" "Z" c.
Definition islower_char (c : ascii) : bool := in_range "a" "z" c.

(** Whitespace as [str.strip] and the regex class [\s] see it:
    TAB, LF, VT, FF, CR, the separators 28..31 and the space. *)
Definition isspace (c : ascii) : bool :=
  ((9 <=? code c) && (code c <=? 13) || (28 <=? code c) && (code c <=? 32))%N.

Definition lower_char (c : ascii) : ascii :=
  if isupper_char c then ascii_of_N (code c + 32) else c.

Definition upper_char (c : ascii) : ascii :=
  if islower_char c then ascii_of_N (code c - 32) else c.

(** [s.lower()] *)
Fixpoint lower (s : string) : string :=
  match s with
  | EmptyString => EmptyString
  | String c s' => String (lower_char c) (lower s')
  end.

(** [s.startswith(p)] *)
Definition startswith (p s : string) : bool := String.prefix p s.

(** [sub in s] *)
Fixpoint contains (sub s : string) : bool :=
  String.prefix sub s ||
  match s with
  | EmptyString => false
  | String _ s' => contains sub s'
  end.

(** [s.count(c)] for a one-character [c] *)
Fixpoint count (c : ascii) (s : string) : Z :=
  match s with
  | EmptyString => 0
  | String a s' => (if Ascii.eqb a c then 1 else 0) + count c s'
  end.

(** [any(p(c) for c in s)] *)
Fixpoint any_char (p : ascii -> bool) (s : string) : bool :=
  match s with
  | EmptyString => false
  | String c s' => p c || any_char p s'
  end.

(** [s.split(sep)] for a one-character [sep]; the result is never empty *)
Fixpoint split (sep : ascii) (s : string) : list string :=
  match s with
  | EmptyString => [EmptyString]
  | String c s' =>
      if Ascii.eqb c sep then EmptyString :: split sep s'
      else match split sep s' with
           | h :: t => String c h :: t
           | [] => [String c EmptyString]
           end
  end.

(** [sep.join(parts)] *)
Fixpoint join (sep : string) (parts : list string) : string :=
  match parts with
  | [] => EmptyString
  | [p] => p
  | p :: ps => p +:+ sep +:+ join sep ps
  end.

Fixpoint rev_acc (s acc : string) : string :=
  match s with
  | EmptyString => acc
  | String c s' => rev_acc s' (String c acc)
  end.

Definition rev (s : string) : string := rev_acc s EmptyString.

(** [s.endswith(suffix)] *)
Definition endswith (suffix s : string) : bool :=
  String.prefix (rev suffix) (rev s).

Fixpoint lstrip (s : string) : string :=
  match s with
  | EmptyString => EmptyString
  | String c s' => if isspace c then lstrip s' else s
  end.

(** [s.strip()] *)
Definition strip (s : string) : string := rev (lstrip (rev (lstrip s))).

(** [s[n:]] and [s[:n]] for a position [n] counted in bytes, as the
    positions of [find] and of the matcher are *)
Fixpoint drop (n : nat) (s : string) : string :=
  match n, s with
  | O, _ => s
  | S n', String _ s' => drop n' s'
  | S _, EmptyString => EmptyString
  end.

Fixpoint take (n : nat) (s : string) : string :=
  match n, s with
  | S n', String c s' => String c (take n' s')
  | _, _ => EmptyString
  end.

(** [s.replace(old, new)] for a non-empty [old]: every occurrence, found
    left to right without overlap.  [skip] counts the characters of an
    occurrence that are still to be dropped. *)
Fixpoint replace_from (old new : string) (skip : nat) (s : string) : string :=
  match s with
  | EmptyString => EmptyString
  | String c s' =>
      match skip with
      | S k => replace_from old new k s'
      | O =>
          if String.prefix old s
          then new +:+ replace_from old new (String.length old - 1) s'
          else String c (replace_from old new O s')
      end
  end.

Definition replace (old new s : string) : string := replace_from old new O s.

(** [xs[i]] with Python's negative indices; [None] is an [IndexError] *)
Definition index {A} (xs : list A) (i : Z) : option A :=
  if 0 <=? i then nth_error xs (Z.to_nat i)
  else if 0 <=? Z.of_nat (length xs) + i
       then nth_error xs (Z.to_nat (Z.of_nat (length xs) + i))
       else None.

(** [list(set(xs))] *)
Fixpoint unique (xs : list string) : list string :=
  match xs with
  | [] => []
  | x :: xs' => x :: List.filter (fun y => negb (String.eqb x y)) (unique xs')
  end.

(** [str(n)] for an integer *)
Fixpoint digits_of (fuel : nat) (n : N) (acc : string) : string :=
  match fuel with
  | O => acc
  | S fuel' =>
      let acc' := String (ascii_of_N (48 + n mod 10)) acc in
      if (n <? 10)%N then acc' else digits_of fuel' (n / 10) acc'
  end.

Definition str_of_Z (z : Z) : string :=
  let digits := digits_of (S (N.to_nat (N.log2 (Z.abs_N z)))) (Z.abs_N z) EmptyString in
  if z <? 0 then String "-" digits else digits.

(** [s.isascii()] *)
Fixpoint isascii (s : string) : bool :=
  match s with
  | EmptyString => true
  | String c s' => (code c <? 128)%N && isascii s'
  end.

(** a byte that continues a character of several bytes *)
Definition is_continuation (c : ascii) : bool :=
  ((128 <=? code c) && (code c <? 192))%N.

(** [s[:n]]: the first [n] characters, each with the bytes that continue it *)
Fixpoint take_chars (n : nat) (s : string) : string :=
  match s with
  | EmptyString => EmptyString
  | String c s' =>
      if is_continuation c then String c (take_chars n s')
      else match n with
           | O => EmptyString
           | S n' => String c (take_chars n' s')
           end
  end.

(** what [read] gives for a file opened in text mode: a carriage return,
    alone or before a line feed, is read as a line feed *)
Fixpoint universal_newlines (s : string) : string :=
  match s with
  | EmptyString => EmptyString
  | String c s' =>
      if Ascii.eqb c (ascii_of_N 13) then
        match s' with
        | String d s'' =>
            if Ascii.eqb d (ascii_of_N 10)
            then String (ascii_of_N 10) (universal_newlines s'')
            else String (ascii_of_N 10) (universal_newlines s')
        | EmptyString => String (ascii_of_N 10) EmptyString
        end
      else String c (universal_newlines s')
  end.

End PyStr.

(** ** Results of code that may raise *)

Inductive exn : Type :=
| TypeError
| AttributeError
| IndexError
| OverflowError
| ValueError
| APIError (msg : string).

Inductive result (A : Type) : Type :=
| Ok (a : A)
| Raise (e : exn).
Arguments Ok {A} a.
Arguments Raise {A} e.

#[global] Instance result_ret : MRet result := fun A a => Ok a.

#[global] Instance result_bind : MBind result := fun A B k r =>
  match r with
  | Ok a => k a
  | Raise e => Raise e
  end.

(** [str(e)] of an exception; the text of a built-in exception is
    abbreviated to the name of its class *)
Definition exn_message (e : exn) : string :=
  match e with
  | TypeError => "TypeError"
  | AttributeError => "AttributeError"
  | IndexError => "IndexError"
  | OverflowError => "OverflowError"
  | ValueError => "ValueError"
  | APIError msg => msg
  end.

(** ** Regular expressions: the fragment of Python's [re] the sources use

    A backtracking matcher with Python's priorities: alternatives are tried
    left to right and repetitions are greedy.  A continuation receives the
    rest of the subject and the text of the last capturing group.  A round of
    a repetition must consume a character, so the [S (length s)] rounds of
    fuel are never used up; no pattern below matches the empty text. *)

Module Regex.

Inductive item : Type :=
| IChar (c : ascii)          (* a character *)
| IRange (lo hi : ascii)     (* lo-hi *)
| IDigit                     (* \d *)
| ISpace.                    (* \s *)

Inductive regex : Type :=
| Eps
| Lit (c : ascii)
| Class (negated : bool) (items : list item)   (* [...] and [^...] *)
| Dot                                          (* any character but LF *)
| Cat (r1 r2 : regex)
| Alt (r1 r2 : regex)
| Rep (lo : nat) (hi : option nat) (r : regex) (* greedy r{lo,hi} *)
| Group (r : regex).                           (* ( r ) *)

Definition Star := Rep 0 None.
Definition Plus := Rep 1 None.
Definition Opt := Rep 0 (Some 1%nat).
Definition Digit := Class false [IDigit].
Definition Space := Class false [ISpace].

(** the characters of a literal text, one after the other *)
Fixpoint Str (s : string) : regex :=
  match s with
  | EmptyString => Eps
  | String c EmptyString => Lit c
  | String c s' => Cat (Lit c) (Str s')
  end.

Definition item_has (i : item) (a : ascii) : bool :=
  match i with
  | IChar c => Ascii.eqb a c
  | IRange lo hi => PyStr.in_range lo hi a
  | IDigit => PyStr.isdigit a
  | ISpace => PyStr.isspace a
  end.

(** with [re.IGNORECASE] a character matches when it or its other case does *)
Definition items_have (ignorecase : bool) (items : list item) (a : ascii) : bool :=
  existsb (fun i => item_has i a) items ||
  (ignorecase &&
   existsb (fun i => item_has i (PyStr.lower_char a) || item_has i (PyStr.upper_char a)) items).

Definition lit_matches (ignorecase : bool) (c a : ascii) : bool :=
  if ignorecase then Ascii.eqb (PyStr.lower_char a) (PyStr.lower_char c)
  else Ascii.eqb a c.

Definition newline : ascii := ascii_of_N 10.

Definition consumed (s rest : string) : string :=
  PyStr.take (String.length s - String.length rest) s.

Section Matcher.
Context {A : Type}.
Variable ignorecase : bool.

(** the rounds of a greedy repetition of [step]: one more round first, and
    the continuation [k] when no further round leads to a match *)
Fixpoint rep_loop (step : string -> option string ->
                          (string -> option string -> option A) -> option A)
         (k : string -> option string -> option A)
         (fuel lo : nat) (hi : option nat) (s : string) (cap : option string)
         {struct fuel} : option A :=
  match fuel with
  | O => None
  | S fuel' =>
      let more :=
        match hi with
        | Some O => None
        | _ =>
            step s cap (fun s1 cap1 =>
              if (String.length s1 <? String.length s)%nat
              then rep_loop step k fuel' (Nat.pred lo) (option_map Nat.pred hi) s1 cap1
              else None)
        end in
      match more with
      | Some x => Some x
      | None => match lo with O => k s cap | S _ => None end
      end
  end.

Fixpoint matchk (r : regex) (s : string) (cap : option string)
         (k : string -> option string -> option A) {struct r} : option A :=
  match r with
  | Eps => k s cap
  | Lit c =>
      match s with
      | String a s' => if lit_matches ignorecase c a then k s' cap else None
      | EmptyString => None
      end
  | Class negated items =>
      match s with
      | String a s' =>
          if xorb negated (items_have ignorecase items a) then k s' cap else None
      | EmptyString => None
      end
  | Dot =>
      match s with
      | String a s' => if Ascii.eqb a newline then None else k s' cap
      | EmptyString => None
      end
  | Cat r1 r2 => matchk r1 s cap (fun s1 cap1 => matchk r2 s1 cap1 k)
  | Alt r1 r2 =>
      match matchk r1 s cap k with
      | Some x => Some x
      | None => matchk r2 s cap k
      end
  | Group r1 => matchk r1 s cap (fun s1 _ => k s1 (Some (consumed s s1)))
  | Rep lo hi r1 => rep_loop (matchk r1) k (S (String.length s)) lo hi s cap
  end.
End Matcher.

(** [re.match]: the rest of the subject and the group of the first match
    that starts at the head of [s] *)
Definition match_here (ignorecase : bool) (r : regex) (s : string)
  : option (string * option string) :=
  matchk ignorecase r s None (fun rest cap => Some (rest, cap)).

(** [re.search(r, s)] as a truth value *)
Fixpoint search (ignorecase : bool) (r : regex) (s : string) : bool :=
  match match_here ignorecase r s with
  | Some _ => true
  | None =>
      match s with
      | EmptyString => false
      | String _ s' => search ignorecase r s'
      end
  end.

(** the matches of [re.finditer]: the text and the group of each, left to
    right without overlap *)
Fixpoint matches_from (fuel : nat) (ignorecase : bool) (r : regex) (s : string)
  : list (string * option string) :=
  match fuel with
  | O => []
  | S fuel' =>
      let step :=
        match s with
        | EmptyString => []
        | String _ s' => matches_from fuel' ignorecase r s'
        end in
      match match_here ignorecase r s with
      | Some (rest, cap) =>
          (consumed s rest, cap) ::
          (if (String.length rest <? String.length s)%nat
           then matches_from fuel' ignorecase r rest
           else step)
      | None => step
      end
  end.

Definition matches (ignorecase : bool) (r : regex) (s : string) :=
  matches_from (S (String.length s)) ignorecase r s.

(** [re.findall] of a pattern without a group: the matched texts *)
Definition findall (ignorecase : bool) (r : regex) (s : string) : list string :=
  map fst (matches ignorecase r s).

(** [re.findall] of a pattern with one group: the texts of the group *)
Definition findall_group (ignorecase : bool) (r : regex) (s : string) : list string :=
  map (fun m => default EmptyString (snd m)) (matches ignorecase r s).

End Regex.

(** ** Library functions used by the validator: [urllib.parse], [ipaddress]

    [unquote] and [urlparse] as in Python 3.11.  [urlparse] raises the
    [ValueError] of an unbalanced bracket in the network location; the
    validation of a host between brackets and the normalisation check of a
    non-ASCII host are outside the model. *)

Module UrlLib.

Definition hexval (c : ascii) : option N :=
  if PyStr.isdigit c then Some (PyStr.code c - 48)%N
  else if PyStr.in_range "a" "f" c then Some (PyStr.code c - 87)%N
  else if PyStr.in_range "A" "F" c then Some (PyStr.code c - 55)%N
  else None.

(** [urllib.parse.unquote]: every [%XX] becomes the byte [XX] *)
Fixpoint unquote (s : string) : string :=
  match s with
  | EmptyString => EmptyString
  | String c s' =>
      if Ascii.eqb c "%" then
        match s' with
        | String h1 (String h2 rest) =>
            match hexval h1, hexval h2 with
            | Some a, Some b => String (ascii_of_N (16 * a + b)) (unquote rest)
            | _, _ => String c (unquote s')
            end
        | _ => String c (unquote s')
        end
      else String c (unquote s')
  end.

Record ParseResult : Type := {
  scheme : string;
  netloc : string;
  path : string;
  params : string;
  query : string;
  fragment : string
}.

(** the text before the first character satisfying [p], and the text from it on *)
Fixpoint break (p : ascii -> bool) (s : string) : string * string :=
  match s with
  | EmptyString => (EmptyString, EmptyString)
  | String c s' =>
      if p c then (EmptyString, s)
      else let (a, b) := break p s' in (String c a, b)
  end.

Fixpoint remove_chars (p : ascii -> bool) (s : string) : string :=
  match s with
  | EmptyString => EmptyString
  | String c s' => if p c then remove_chars p s' else String c (remove_chars p s')
  end.

Fixpoint lstrip_chars (p : ascii -> bool) (s : string) : string :=
  match s with
  | EmptyString => EmptyString
  | String c s' => if p c then lstrip_chars p s' else s
  end.

Definition is_alpha (c : ascii) : bool :=
  PyStr.isupper_char c || PyStr.islower_char c.

Definition scheme_char (c : ascii) : bool :=
  is_alpha c || PyStr.isdigit c || Ascii.eqb c "+" || Ascii.eqb c "-" || Ascii.eqb c ".".

Fixpoint all_chars (p : ascii -> bool) (s : string) : bool :=
  match s with
  | EmptyString => true
  | String c s' => p c && all_chars p s'
  end.

Definition uses_params : list string :=
  [""; "ftp"; "hdl"; "prospero"; "http"; "imap"; "https"; "shttp"; "rtsp";
   "rtsps"; "rtspu"; "sip"; "sips"; "mms"; "sftp"; "tel"].

(** [s.partition(c)] without the separator: [None] when [c] is absent *)
Definition cut (c : ascii) (s : string) : option (string * string) :=
  match break (Ascii.eqb c) s with
  | (a, String _ b) => Some (a, b)
  | (_, EmptyString) => None
  end.

(** [_splitparams]: the parameters follow the first [;] of the last segment *)
Definition splitparams (url : string) : string * string :=
  let segments := PyStr.split "/" url in
  let last_segment := List.last segments EmptyString in
  match cut ";" last_segment with
  | Some (a, b) =>
      (PyStr.take (String.length url - String.length last_segment) url +:+ a, b)
  | None => (url, EmptyString)
  end.

Definition urlparse (url0 : string) : result ParseResult :=
  let url := lstrip_chars (fun c => (PyStr.code c <=? 32)%N) url0 in
  let url := remove_chars
               (fun c => Ascii.eqb c (ascii_of_N 9) || Ascii.eqb c (ascii_of_N 10)
                         || Ascii.eqb c (ascii_of_N 13)) url in
  let '(scheme, url) :=
    match cut ":" url with
    | Some (String c0 s0, rest) =>
        if is_alpha c0 && all_chars scheme_char s0
        then (PyStr.lower (String c0 s0), rest)
        else (EmptyString, url)
    | _ => (EmptyString, url)
    end in
  let '(netloc, url) :=
    if String.prefix "//" url
    then break (fun c => Ascii.eqb c "/" || Ascii.eqb c "?" || Ascii.eqb c "#")
               (PyStr.drop 2 url)
    else (EmptyString, url) in
  if xorb (PyStr.contains "[" netloc) (PyStr.contains "]" netloc)
  then Raise ValueError
  else
    let '(url, fragment) :=
      match cut "#" url with Some p => p | None => (url, EmptyString) end in
    let '(url, query) :=
      match cut "?" url with Some p => p | None => (url, EmptyString) end in
    let '(url, params) :=
      if existsb (String.eqb scheme) uses_params && PyStr.contains ";" url
      then splitparams url
      else (url, EmptyString) in
    Ok {| scheme := scheme; netloc := netloc; path := url;
          params := params; query := query; fragment := fragment |}.

Fixpoint decimal_value (s : string) (acc : N) : N :=
  match s with
  | EmptyString => acc
  | String c s' => decimal_value s' (10 * acc + (PyStr.code c - 48))%N
  end.

Definition ipv4_octet (s : string) : bool :=
  negb (String.eqb s EmptyString)
  && all_chars PyStr.isdigit s
  && (String.length s <=? 3)%nat
  && negb (String.prefix "0" s && negb (String.eqb s "0"))
  && (decimal_value s 0 <=? 255)%N.

(** [ipaddress.ip_address(s)] succeeds.  An IPv6 text needs a colon, and
    the validator only passes texts without one, so dotted IPv4 is the
    only form that can succeed. *)
Definition ip_address_ok (s : string) : bool :=
  let octets := PyStr.split "." s in
  (length octets =? 4)%nat && forallb ipv4_octet octets.

End UrlLib.

(** the dictionary returned by [URLValidator.get_domain_info] *)
Module DomainInfo.
Record t : Type := {
  domain : string;
  is_https : bool;
  has_port : bool;
  path_depth : nat;
  has_query : bool;
  is_shortened : bool;
  is_ip : bool
}.
End DomainInfo.

(** ** [utils/validators.py] *)

Module URLValidator.
Import Regex.

Definition url_shorteners : list string :=
  ["bit.ly"; "tinyurl.com"; "goo.gl"; "ow.ly";
   "short.link"; "rebrand.ly"; "t.co"; "buff.ly";
   "is.gd"; "adf.ly"; "bl.ink"; "lnkd.in"].

Definition suspicious_tlds : list string :=
  [".tk"; ".ml"; ".ga"; ".cf"; ".click"; ".download";
   ".review"; ".country"; ".kim"; ".science"; ".work"].

(** the dictionary [legitimate_domains], in insertion order *)
Definition legitimate_domains : list (string * list string) :=
  [("amazon", ["amazon.com"; "amazon.co.uk"; "amazon.de"]);
   ("paypal", ["paypal.com"; "paypal.me"]);
   ("microsoft", ["microsoft.com"; "outlook.com"; "live.com"]);
   ("google", ["google.com"; "gmail.com"; "googleapis.com"]);
   ("apple", ["apple.com"; "icloud.com"]);
   ("facebook", ["facebook.com"; "fb.com"]);
   ("twitter", ["twitter.com"; "x.com"]);
   ("linkedin", ["linkedin.com"; "lnkd.in"]);
   ("netflix", ["netflix.com"]);
   ("ebay", ["ebay.com"])].

Definition _is_url_shortener (domain : string) : bool :=
  existsb (fun shortener => PyStr.contains shortener domain) url_shorteners.

Definition _has_suspicious_tld (domain : string) : bool :=
  existsb (fun tld => PyStr.endswith tld domain) suspicious_tlds.

Definition _is_ip_address (domain : string) : bool :=
  let domain := hd EmptyString (PyStr.split ":" domain) in
  UrlLib.ip_address_ok domain.

(** one row of the dynamic programme: [previous_row] is read from column
    [j] on and [left] is [current_row[j]] *)
Fixpoint levenshtein_row (c1 : ascii) (s2 : string) (previous_row : list nat)
         (left : nat) : list nat :=
  match s2, previous_row with
  | String c2 s2', p_j :: ((p_j1 :: _) as previous_rest) =>
      let insertions := (p_j1 + 1)%nat in
      let deletions := (left + 1)%nat in
      let substitutions := (p_j + (if Ascii.eqb c1 c2 then 0 else 1))%nat in
      let cell := Nat.min insertions (Nat.min deletions substitutions) in
      cell :: levenshtein_row c1 s2' previous_rest cell
  | _, _ => []
  end.

Fixpoint levenshtein_rows (s1 : string) (i : nat) (s2 : string)
         (previous_row : list nat) : list nat :=
  match s1 with
  | EmptyString => previous_row
  | String c1 s1' =>
      let current_row := (i + 1)%nat :: levenshtein_row c1 s2 previous_row (i + 1) in
      levenshtein_rows s1' (i + 1) s2 current_row
  end.

Definition _levenshtein_distance (s1 s2 : string) : nat :=
  let '(s1, s2) :=
    if (String.length s1 <? String.length s2)%nat then (s2, s1) else (s1, s2) in
  if (String.length s2 =? 0)%nat then String.length s1
  else List.last (levenshtein_rows s1 0 s2 (seq 0 (String.length s2 + 1))) 0%nat.

Definition substitutions : list (string * string) :=
  [("0", "o"); ("o", "0");
   ("1", "l"); ("l", "1"); ("1", "i");
   ("rn", "m"); ("vv", "w")].

(** [parts[-2]], read only where [len(parts) >= 2] *)
Definition second_last (parts : list string) : string :=
  nth (length parts - 2) parts EmptyString.

Definition _is_similar_domain (domain legitimate : string)
           (substitutions : list (string * string)) : bool :=
  if String.eqb domain legitimate then false
  else
    let domain_parts := PyStr.split "." domain in
    let legit_parts := PyStr.split "." legitimate in
    if (2 <=? length domain_parts)%nat && (2 <=? length legit_parts)%nat then
      let domain_main := second_last domain_parts in
      let legit_main := second_last legit_parts in
      if existsb (fun '(old, new) =>
                    String.eqb (PyStr.replace old new domain_main) legit_main)
                 substitutions
      then true
      else if (_levenshtein_distance domain_main legit_main =? 1)%nat then true
      else false
    else false.

Definition _has_homograph_attack (domain : string) : bool :=
  existsb (fun '(company, legit_domains) =>
             existsb (fun legit => _is_similar_domain domain legit substitutions)
                     legit_domains)
          legitimate_domains.

Definition _has_subdomain_spoofing (domain : string) : bool :=
  let parts := PyStr.split "." domain in
  if (2 <? length parts)%nat then
    let subdomains := PyStr.join "." (firstn (length parts - 2) parts) in
    existsb (fun '(company, legit_domains) =>
               PyStr.contains company subdomains &&
               let main_domain := PyStr.join "." (skipn (length parts - 2) parts) in
               negb (existsb (String.eqb main_domain) legit_domains))
            legitimate_domains
  else false.

Definition hex_lower : regex := Class false [IRange "a" "f"; IRange "0" "9"].
Definition alnum_lower : regex := Class false [IRange "a" "z"; IRange "0" "9"].
Definition alpha_lower : regex := Class false [IRange "a" "z"].

Definition suspicious_patterns : list regex :=
  [ (* /[a-f0-9]{32} *)
    Cat (Lit "/") (Rep 32 (Some 32%nat) hex_lower);
    (* /verify/[a-z0-9]+/account *)
    Cat (Str "/verify/") (Cat (Plus alnum_lower) (Str "/account"));
    (* /security/[a-z0-9]+/update *)
    Cat (Str "/security/") (Cat (Plus alnum_lower) (Str "/update"));
    (* \.php\?[a-z]+=[a-z0-9]+(&[a-z]+=[a-z0-9]+){2,} *)
    Cat (Str ".php?")
      (Cat (Plus alpha_lower)
         (Cat (Lit "=")
            (Cat (Plus alnum_lower)
               (Rep 2 None
                  (Group (Cat (Lit "&")
                            (Cat (Plus alpha_lower)
                               (Cat (Lit "=") (Plus alnum_lower)))))))));
    (* /\.\./\.\. *)
    Str "/../.." ].

Definition _has_suspicious_path (path : string) : bool :=
  existsb (fun pattern => search false pattern (PyStr.lower path)) suspicious_patterns.

Definition redirect_params : list string :=
  ["url="; "redirect="; "goto="; "dest="; "target="].

Definition _has_multiple_redirects (url : string) : bool :=
  let count :=
    fold_left (fun acc param =>
                 if PyStr.contains param (PyStr.lower url) then acc + 1 else acc)
              redirect_params 0 in
  2 <=? count.

(** [any(checks)] *)
Definition any (checks : list bool) : bool := existsb (fun b => b) checks.

Definition is_suspicious (url : string) : bool :=
  let url := UrlLib.unquote url in
  match UrlLib.urlparse (PyStr.lower url) with
  | Ok parsed =>
      let checks :=
        [ _is_url_shortener (UrlLib.netloc parsed);
          _has_suspicious_tld (UrlLib.netloc parsed);
          _is_ip_address (UrlLib.netloc parsed);
          _has_homograph_attack (UrlLib.netloc parsed);
          _has_subdomain_spoofing (UrlLib.netloc parsed);
          _has_suspicious_path (UrlLib.path parsed);
          _has_multiple_redirects url ] in
      any checks
  | Raise _ => true   (* error parsing = suspicious *)
  end.


End URLValidator.

(** ** Python floats: binary64, round to nearest even *)

Module PyFloat.

Definition prec : Z := 53.
Definition emax : Z := 1024.

Definition zero : spec_float := S754_zero false.

Definition fadd : spec_float -> spec_float -> spec_float := SFadd prec emax.
Definition fmul : spec_float -> spec_float -> spec_float := SFmul prec emax.

(** the binary64 number nearest to the integer [z]; may be an infinity *)
Definition nearest (z : Z) : spec_float := binary_normalize prec emax z 0 false.

(** the literal [n/d] written in decimal, as the float nearest to it *)
Definition literal (n d : Z) : spec_float := SFdiv prec emax (nearest n) (nearest d).

(** [float(z)]: an integer too large for a float raises *)
Definition of_int (z : Z) : result spec_float :=
  match nearest z with
  | S754_infinity _ => Raise OverflowError
  | f => Ok f
  end.

(** the integer part of a finite float, towards zero *)
Definition truncate (s : bool) (m : positive) (e : Z) : Z :=
  cond_Zopp s (if 0 <=? e then Z.pos m * 2 ^ e else Z.pos m / 2 ^ (- e)).

(** [int(x)] *)
Definition to_int (x : spec_float) : result Z :=
  match x with
  | S754_zero _ => Ok 0
  | S754_finite s m e => Ok (truncate s m e)
  | S754_infinity _ => Raise OverflowError
  | S754_nan => Raise ValueError
  end.

(** [round(x)]: the nearest integer, a tie going to the even one *)
Definition round_half_even (s : bool) (m : positive) (e : Z) : Z :=
  if 0 <=? e then cond_Zopp s (Z.pos m * 2 ^ e)
  else
    let q := Z.pos m / 2 ^ (- e) in
    let twice_rest := 2 * (Z.pos m mod 2 ^ (- e)) in
    let up :=
      if 2 ^ (- e) <? twice_rest then true
      else if twice_rest <? 2 ^ (- e) then false
      else Z.odd q in
    cond_Zopp s (if up then q + 1 else q).

Definition round (x : spec_float) : result Z :=
  match x with
  | S754_zero _ => Ok 0
  | S754_finite s m e => Ok (round_half_even s m e)
  | S754_infinity _ => Raise OverflowError
  | S754_nan => Raise ValueError
  end.

(** the number of binary digits of a positive integer *)
Definition digits (m : positive) : Z := Z.pos (digits2_pos m).

(** [x] is zero, or finite with magnitude below [2 ^ k] *)
Definition below (k : Z) (x : spec_float) : Prop :=
  match x with
  | S754_zero _ => True
  | S754_finite _ m e => digits m + e <= k
  | S754_infinity _ | S754_nan => False
  end.

(** the non-negative mantissa [m] at exponent [e] is zero or below [2 ^ k] *)
Definition fits (m e k : Z) : Prop := m = 0 \/ Zdigits2 m + e <= k.

(** [z * w] and [x + z] with an integer operand: the integer becomes a float first *)
Definition int_times (z : Z) (w : spec_float) : result spec_float :=
  f ← of_int z; Ok (fmul f w).

Definition plus_int (x : spec_float) (z : Z) : result spec_float :=
  f ← of_int z; Ok (fadd x f).

(** [sum(values)]: the additions run left to right from the integer 0, as
    CPython does up to 3.11 (the compensated summation of 3.12 is not modelled) *)
Definition sum (values : list spec_float) : spec_float :=
  fold_left fadd values zero.

(** [a / b] on integers, for a divisor that is not zero: the float nearest
    to the quotient; a quotient too large for a float raises *)
Definition true_div (a b : Z) : result spec_float :=
  let exact z :=
    match z with
    | Z0 => zero
    | Zpos m => S754_finite false m 0
    | Zneg m => S754_finite true m 0
    end in
  match SFdiv prec emax (exact a) (exact b) with
  | S754_infinity _ => Raise OverflowError
  | f => Ok f
  end.

(** [x * z] with an integer on the right *)
Definition times_int (x : spec_float) (z : Z) : result spec_float :=
  f ← of_int z; Ok (fmul x f).

(** [format(x, '.1f')]: the decimal with one digit after the point that is
    nearest to [x], a tie going to the even digit *)
Definition format_1f (x : spec_float) : string :=
  match x with
  | S754_zero s => (if s then "-" else EmptyString) +:+ "0.0"
  | S754_finite s m e =>
      let tenths := Z.abs (round_half_even s (m * 10) e) in
      (if s then "-" else EmptyString)
      +:+ PyStr.str_of_Z (tenths / 10) +:+ "." +:+ PyStr.str_of_Z (tenths mod 10)
  | S754_infinity s => if s then "-inf" else "inf"
  | S754_nan => "nan"
  end.

End PyFloat.

(** ** The dictionaries passed between the components *)

(** the keys [_parse_headers] adds, present only when headers were given *)
Record HeaderInfo : Type := {
  return_path : string;
  received_spf : string;
  dkim_signature : string;
  message_id : string;
  spf_pass : bool;
  dkim_pass : bool;
  dmarc_pass : bool
}.

Module Parsed.

(** The dictionary built by [EmailParser.parse].  An optional field is a key
    that the parser sets on some inputs only.  The consumers read every key
    with [.get(key, default)]: a dictionary without a key behaves as this
    record with the default in that field. *)
Record ParsedEmail : Type := {
  sender : string;
  subject : string;
  body : string;
  headers : list (string * string);
  urls : list string;
  attachments : list string;
  timestamp : string;
  sender_display : string;
  sender_email : string;
  sender_spoofed : option bool;
  sender_domain : option string;
  header_info : option HeaderInfo;
  urgency_detected : bool;
  sent_at_odd_hour : bool;
  reply_to_mismatch : bool;
  external_images_count : Z
}.

End Parsed.
Export Parsed.

(** ** [models/scorer.py] *)

Module RiskScorer.

(** the weight table *)
Definition weight_gpt_score : spec_float := PyFloat.literal 4 10.         (* 0.4  *)
Definition weight_pattern_matches : spec_float := PyFloat.literal 25 100. (* 0.25 *)
Definition weight_url_suspicious : spec_float := PyFloat.literal 2 10.    (* 0.2  *)
Definition weight_sender_trust : spec_float := PyFloat.literal 15 100.    (* 0.15 *)

Definition trusted_domains : list string :=
  ["gmail.com"; "outlook.com"; "yahoo.com";
   "amazon.com"; "microsoft.com"; "google.com";
   "apple.com"; "paypal.com"; "ebay.com"].

Definition suspicious_keywords : list string :=
  ["security"; "alert"; "verify"; "suspend"].

(** the loop over [trusted_domains] reaches [return 0] *)
Definition trusted (sender_lower : string) : bool :=
  existsb (fun domain =>
             PyStr.contains ("@" +:+ domain) sender_lower
             && (PyStr.count "@" sender_lower =? 1))
          trusted_domains.

Definition _calculate_sender_trust (sender : string) : Z :=
  let sender_lower := PyStr.lower sender in
  if trusted sender_lower then 0
  else
    let suspicious_score := 0 in
    (* no domain *)
    let suspicious_score :=
      if negb (PyStr.contains "@" sender) then suspicious_score + 50
      else suspicious_score in
    (* multiple @ symbols *)
    let suspicious_score :=
      if 1 <? PyStr.count "@" sender then suspicious_score + 30
      else suspicious_score in
    (* numbers in domain *)
    let suspicious_score :=
      if PyStr.contains "@" sender then
        let domain := List.last (PyStr.split "@" sender) EmptyString in
        if PyStr.any_char PyStr.isdigit (hd EmptyString (PyStr.split "." domain))
        then suspicious_score + 20
        else suspicious_score
      else suspicious_score in
    (* suspicious keywords *)
    let suspicious_score :=
      fold_left (fun score keyword =>
                   if PyStr.contains keyword sender_lower then score + 15 else score)
                suspicious_keywords suspicious_score in
    Z.min suspicious_score 100.

Definition dangerous_extensions : list string :=
  [".exe"; ".zip"; ".scr"; ".vbs"; ".js"].

Definition dangerous (attachment : string) : bool :=
  existsb (fun ext => PyStr.endswith ext (PyStr.lower attachment)) dangerous_extensions.

Definition _calculate_bonus_factors (parsed_data : ParsedEmail) : Z :=
  let bonus := 0 in
  (* attachment check *)
  let bonus :=
    fold_left (fun bonus attachment =>
                 if dangerous attachment then bonus + 20 else bonus)
              (attachments parsed_data) bonus in
  (* time factors *)
  let bonus := if sent_at_odd_hour parsed_data then bonus + 5 else bonus in
  (* reply-to mismatch *)
  let bonus := if reply_to_mismatch parsed_data then bonus + 15 else bonus in
  (* external images *)
  let bonus := if 3 <? external_images_count parsed_data then bonus + 10 else bonus in
  bonus.

(** [sum(scores.values()) + bonus], before the conversion to an integer *)
Definition final_score (gpt_score pattern_matches suspicious_urls : Z)
           (parsed_data : ParsedEmail) : result spec_float :=
  (* gpt component *)
  gpt ← PyFloat.int_times gpt_score weight_gpt_score;
  (* pattern component (max 100) *)
  let pattern_score := Z.min (pattern_matches * 15) 100 in
  patterns ← PyFloat.int_times pattern_score weight_pattern_matches;
  (* url component *)
  let url_score := Z.min (suspicious_urls * 30) 100 in
  urls ← PyFloat.int_times url_score weight_url_suspicious;
  (* sender trust component *)
  let sender_score := _calculate_sender_trust (sender parsed_data) in
  sender ← PyFloat.int_times sender_score weight_sender_trust;
  (* additional factors *)
  let bonus := _calculate_bonus_factors parsed_data in
  PyFloat.plus_int (PyFloat.sum [gpt; patterns; urls; sender]) bonus.

Definition calculate (gpt_score pattern_matches suspicious_urls : Z)
           (parsed_data : ParsedEmail) : result Z :=
  final ← final_score gpt_score pattern_matches suspicious_urls parsed_data;
  (* ensure 0-100 range *)
  n ← PyFloat.to_int final;
  Ok (Z.max 0 (Z.min 100 n)).

(** [suspicious_urls] is the truth value of [parsed_data.get('suspicious_urls')],
    a key that [EmailParser.parse] never sets *)
Definition get_risk_factors (score : Z) (suspicious_urls : bool)
           (parsed_data : ParsedEmail) : list string :=
  let factors := [] in
  let factors :=
    if 80 <? score then factors ++ ["Very high phishing probability"]
    else if 60 <? score then factors ++ ["High phishing probability"]
    else if 40 <? score then factors ++ ["Moderate phishing risk"]
    else factors ++ ["Low phishing risk"] in
  (* specific factors *)
  let factors :=
    if suspicious_urls then factors ++ ["Contains suspicious URLs"] else factors in
  let factors :=
    if default false (sender_spoofed parsed_data)
    then factors ++ ["Sender appears spoofed"] else factors in
  let factors :=
    if urgency_detected parsed_data
    then factors ++ ["Uses urgency tactics"] else factors in
  factors.

End RiskScorer.

(** ** The collaborators outside the repository, and the state of a detector *)

(** the dictionary returned by the language model, as the engine reads it:
    [.get('score', 0)], [.get('threats', [])] *)
Module GptResult.
Record t : Type := {
  score : option Z;
  threats : option (list string);
  confidence : option spec_float
}.
End GptResult.

Record Thresholds : Type := { low : Z; medium : Z; high : Z }.

Record Config : Type := {
  model : string;
  temperature : spec_float;
  max_tokens : Z;
  risk_thresholds : Thresholds
}.

(** What the engine calls and does not define: the clock, the date parser of
    [email.utils], [str] of a dictionary, the string hash of the process, the
    JSON reader and the chat completion service.  [None] and [Raise] stand
    for a raised exception. *)
Record Env : Type := {
  now_isoformat : nat -> string;
  parsedate_hour : string -> option Z;
  dict_str : list (string * string) -> string;
  hash_str : string -> Z;
  json_loads : string -> option GptResult.t;
  chat_completion :
    nat -> string -> spec_float -> Z -> string -> string -> result string
}.

(** the mutable state: the response cache of [GPTAnalyzer], the number of
    clock readings and of service calls so far, and the lines printed *)
Record State : Type := {
  cache : gmap string GptResult.t;
  clock : nat;
  calls : nat;
  stdout : list string
}.

(** a computation that reads and writes the state and may raise; the state
    it leaves is kept when it raises *)
Definition M (A : Type) : Type := State -> result A * State.

#[global] Instance M_ret : MRet M := fun A a st => (Ok a, st).

#[global] Instance M_bind : MBind M := fun A B k m st =>
  match m st with
  | (Ok a, st') => k a st'
  | (Raise e, st') => (Raise e, st')
  end.

Definition lift {A} (r : result A) : M A := fun st => (r, st).

(** [try: m except Exception as e: handler(e)] *)
Definition try_except {A} (m : M A) (handler : exn -> M A) : M A := fun st =>
  match m st with
  | (Ok a, st') => (Ok a, st')
  | (Raise e, st') => handler e st'
  end.

(** the state after one reading of the clock *)
Definition tick (st : State) : State :=
  {| cache := cache st; clock := S (clock st); calls := calls st; stdout := stdout st |}.

(** [datetime.now().isoformat()] *)
Definition now (env : Env) : M string := fun st =>
  (Ok (now_isoformat env (clock st)), tick st).

Definition print (line : string) : M unit := fun st =>
  (Ok tt,
   {| cache := cache st; clock := clock st; calls := calls st;
      stdout := stdout st ++ [line] |}).

(** [d.get(key, '')] on a dictionary of strings *)
Fixpoint dict_get (key : string) (d : list (string * string)) : string :=
  match d with
  | [] => EmptyString
  | (k, v) :: d' => if String.eqb k key then v else dict_get key d'
  end.

(** [xs[i]] in code that may raise *)
Definition getitem {A} (xs : list A) (i : Z) : result A :=
  match PyStr.index xs i with
  | Some x => Ok x
  | None => Raise IndexError
  end.

Definition dquote : ascii := ascii_of_N 34.
Definition squote : ascii := ascii_of_N 39.

(** ** [utils/parser.py] *)

Module EmailParser.
Import Regex.

(** https?://[^\s<>\x22{}|\\^`\[\]]+   (\x22 is the double quote) *)
Definition url_pattern : regex :=
  Cat (Str "http")
    (Cat (Opt (Lit "s"))
       (Cat (Str "://")
          (Plus (Class true
                   [ISpace; IChar "<"; IChar ">"; IChar dquote; IChar "{"; IChar "}";
                    IChar "|"; IChar "\"; IChar "^"; IChar "`"; IChar "["; IChar "]"])))).

Definition quote : regex := Class false [IChar dquote; IChar squote].
Definition not_quote : regex := Class true [IChar dquote; IChar squote].

(** href=[\x22\']([^\x22\']+)[\x22\'] *)
Definition href_pattern : regex :=
  Cat (Str "href=") (Cat quote (Cat (Group (Plus not_quote)) quote)).

Record SenderParts : Type := {
  sp_display : string;
  sp_email : string;
  sp_spoofed : option bool;
  sp_domain : option string
}.

Definition _parse_sender (sender : string) : result SenderParts :=
  '(display, email, spoofed) ←
    (if PyStr.contains "<" sender && PyStr.contains ">" sender then
       before ← getitem (PyStr.split "<" sender) 0;
       let display_name := PyStr.strip before in
       after ← getitem (PyStr.split "<" sender) 1;
       inside ← getitem (PyStr.split ">" after) 0;
       let email_addr := PyStr.strip inside in
       (* check for spoofing *)
       Ok (display_name, email_addr,
           if PyStr.contains "@" display_name then Some true else None)
     else Ok (EmptyString, PyStr.strip sender, None));
  (* extract domain *)
  domain ←
    (if PyStr.contains "@" email
     then d ← getitem (PyStr.split "@" email) (-1); Ok (Some d)
     else Ok None);
  Ok {| sp_display := display; sp_email := email;
        sp_spoofed := spoofed; sp_domain := domain |}.

Definition _parse_headers (headers : list (string * string)) : HeaderInfo :=
  let auth_results := dict_get "Authentication-Results" headers in
  {| return_path := dict_get "Return-Path" headers;
     received_spf := dict_get "Received-SPF" headers;
     dkim_signature := dict_get "DKIM-Signature" headers;
     message_id := dict_get "Message-ID" headers;
     spf_pass := PyStr.contains "pass" (PyStr.lower auth_results);
     dkim_pass := PyStr.contains "dkim=pass" (PyStr.lower auth_results);
     dmarc_pass := PyStr.contains "dmarc=pass" (PyStr.lower auth_results) |}.

Definition _extract_urls (body : string) : list string :=
  (* standard urls *)
  let urls := findall false url_pattern body in
  (* href urls *)
  let hrefs := findall_group true href_pattern body in
  let urls := urls ++ List.filter (fun url => PyStr.startswith "http" url) hrefs in
  (* unique urls *)
  PyStr.unique urls.

Definition urgency_patterns : list regex :=
  [ Str "urgent"; Str "immediate"; Str "expire"; Str "suspend";
    Str "act now";
    (* limit.*time *)
    Cat (Str "limit") (Cat (Star Dot) (Str "time"));
    Str "deadline"; Str "asap";
    (* within \d+ (hours?|days?) *)
    Cat (Str "within ")
      (Cat (Plus Digit)
         (Cat (Lit " ")
            (Group (Alt (Cat (Str "hour") (Opt (Lit "s")))
                        (Cat (Str "day") (Opt (Lit "s")))))));
    (* account.*lock *)
    Cat (Str "account") (Cat (Star Dot) (Str "lock")) ].

Definition _detect_urgency (text : string) : bool :=
  let text_lower := PyStr.lower text in
  let urgency_count :=
    fold_left (fun count pattern =>
                 if search false pattern text_lower then count + 1 else count)
              urgency_patterns 0 in
  2 <=? urgency_count.

Definition not_dquote : regex := Class true [IChar dquote].

(** filename=\x22([^\x22]+)\x22 and name=\x22([^\x22]+)\x22 *)
Definition attachment_patterns : list regex :=
  [ Cat (Str "filename=") (Cat (Lit dquote) (Cat (Group (Plus not_dquote)) (Lit dquote)));
    Cat (Str "name=") (Cat (Lit dquote) (Cat (Group (Plus not_dquote)) (Lit dquote))) ].

Definition letter : list item := [IRange "a" "z"; IRange "A" "Z"].

(** ([a-zA-Z0-9_-]+\.[a-zA-Z]{2,4}) *)
Definition file_pattern : regex :=
  Group (Cat (Plus (Class false (letter ++ [IRange "0" "9"; IChar "_"; IChar "-"])))
           (Cat (Lit ".") (Rep 2 (Some 4%nat) (Class false letter)))).

(** [if headers:] holds for a dictionary that is given and not empty *)
Definition given (headers : option (list (string * string)))
  : option (list (string * string)) :=
  match headers with
  | Some (entry :: rest) => Some (entry :: rest)
  | _ => None
  end.

Definition _extract_attachments (env : Env) (body : string)
           (headers : option (list (string * string))) : list string :=
  let attachments := [] in
  (* check content-type for attachments *)
  let attachments :=
    match given headers with
    | Some h =>
        let content_type := dict_get "Content-Type" h in
        if PyStr.contains "multipart" content_type then
          fold_left (fun found pattern =>
                       found ++ findall_group false pattern (dict_str env h))
                    attachment_patterns attachments
        else attachments
    | None => attachments
    end in
  (* check body for attachment references *)
  let attachments :=
    if PyStr.contains "attachment" (PyStr.lower body) then
      let files := findall_group false file_pattern body in
      attachments ++ firstn 5 files   (* limit to 5 *)
    else attachments in
  PyStr.unique attachments.

Definition _check_odd_hour (env : Env) (headers : option (list (string * string)))
  : bool :=
  match given headers with
  | None => false
  | Some h =>
      let date_header := dict_get "Date" h in
      if negb (String.eqb date_header EmptyString) then
        match parsedate_hour env date_header with
        | Some hour => (0 <=? hour) && (hour <? 6)   (* midnight to 6am *)
        | None => false
        end
      else false
  end.

Definition _check_reply_to (headers : option (list (string * string)))
           (sender : string) : bool :=
  match given headers with
  | None => false
  | Some h =>
      let reply_to := PyStr.lower (dict_get "Reply-To" h) in
      if negb (String.eqb reply_to EmptyString)
         && PyStr.contains "@" reply_to && PyStr.contains "@" sender then
        let sender_domain := PyStr.lower (List.last (PyStr.split "@" sender) EmptyString) in
        let reply_domain := List.last (PyStr.split "@" reply_to) EmptyString in
        negb (String.eqb sender_domain reply_domain)
      else false
  end.

(** <img[^>]+src=[\x22\']https?://[^\x22\']+[\x22\'] *)
Definition img_pattern : regex :=
  Cat (Str "<img")
    (Cat (Plus (Class true [IChar ">"]))
       (Cat (Str "src=")
          (Cat quote
             (Cat (Str "http")
                (Cat (Opt (Lit "s"))
                   (Cat (Str "://") (Cat (Plus not_quote) quote))))))).

Definition _count_external_images (body : string) : Z :=
  Z.of_nat (length (findall true img_pattern body)).

Definition parse (env : Env) (sender subject body : string)
           (headers : option (list (string * string))) : M ParsedEmail :=
  let urls := _extract_urls body in
  stamp ← now env;
  (* extract sender components *)
  parts ← lift (_parse_sender sender);
  (* extract metadata *)
  let info := option_map _parse_headers (given headers) in
  mret
    {| sender := sender;
       subject := subject;
       body := body;
       headers := default [] headers;
       urls := urls;
       attachments := _extract_attachments env body headers;
       timestamp := stamp;
       sender_display := sp_display parts;
       sender_email := sp_email parts;
       sender_spoofed := sp_spoofed parts;
       sender_domain := sp_domain parts;
       header_info := info;
       urgency_detected := _detect_urgency (subject +:+ " " +:+ body);
       sent_at_odd_hour := _check_odd_hour env headers;
       reply_to_mismatch := _check_reply_to headers sender;
       external_images_count := _count_external_images body |}.

End EmailParser.

(** ** [models/patterns.py] *)

Module PatternMatcher.
Import Regex.

Definition urgency_words : list string :=
  ["urgent"; "immediate"; "expire"; "suspend"; "limit";
   "act now"; "verify now"; "confirm now"; "deadline"].

Definition financial_words : list string :=
  ["invoice"; "payment"; "refund"; "tax"; "irs"; "bank";
   "credit card"; "account"; "billing"; "charge"].

Definition credential_words : list string :=
  ["password"; "username"; "login"; "verify"; "confirm";
   "update"; "secure"; "authentication"; "credentials"].

Definition suspicious_phrases : list string :=
  ["click here immediately";
   "verify your account";
   "suspicious activity";
   "your account will be";
   "confirm your identity";
   "you have won";
   "congratulations you";
   "claim your prize";
   "limited time offer"].

(** \d{1,3}\.\d{1,3}\.\d{1,3}\.\d{1,3} *)
Definition ip_pattern : regex :=
  let octet := Rep 1 (Some 3%nat) Digit in
  Cat octet (Cat (Lit ".") (Cat octet (Cat (Lit ".") (Cat octet (Cat (Lit ".") octet))))).

Definition suspicious_domains : list regex :=
  [ Str "bit.ly"; Str "tinyurl"; Str "short.link";
    ip_pattern;
    (* [0-9]+-[a-z]+\.com *)
    Cat (Plus (Class false [IRange "0" "9"]))
      (Cat (Lit "-") (Cat (Plus (Class false [IRange "a" "z"])) (Str ".com"))) ].

Definition one_of (c1 c2 : ascii) : regex := Class false [IChar c1; IChar c2].

Definition spoofed_patterns : list (regex * string) :=
  [ (* amaz[o0]n *)
    (Cat (Str "amaz") (Cat (one_of "o" "0") (Lit "n")), "Amazon");
    (* micr[o0]s[o0]ft *)
    (Cat (Str "micr") (Cat (one_of "o" "0") (Cat (Lit "s") (Cat (one_of "o" "0") (Str "ft")))),
     "Microsoft");
    (* g[o0][o0]gle *)
    (Cat (Lit "g") (Cat (one_of "o" "0") (Cat (one_of "o" "0") (Str "gle"))), "Google");
    (* payp[a@]l *)
    (Cat (Str "payp") (Cat (one_of "a" "@") (Lit "l")), "PayPal");
    (* app[l1]e *)
    (Cat (Str "app") (Cat (one_of "l" "1") (Lit "e")), "Apple") ].

(** [sum(1 for word in words if word in text)] *)
Definition count_present (words : list string) (text : string) : Z :=
  fold_left (fun n word => if PyStr.contains word text then n + 1 else n) words 0.

Definition _check_sender (sender : string) : result (list string) :=
  let threats := [] in
  let sender_lower := PyStr.lower sender in
  (* check for spoofed domains *)
  let threats :=
    fold_left (fun threats '(pattern, company) =>
                 if search false pattern sender_lower then
                   if negb (PyStr.contains (PyStr.lower company) sender_lower)
                   then threats ++ ["⚠️ Possible " +:+ company +:+ " spoofing detected"]
                   else threats
                 else threats)
              spoofed_patterns threats in
  (* check for no-reply suspicious *)
  let threats :=
    if PyStr.contains "no-reply" sender_lower
       && existsb (fun word => PyStr.contains word sender_lower)
                  ["security"; "alert"; "verify"]
    then threats ++ ["Suspicious no-reply address"]
    else threats in
  (* check display name tricks *)
  if PyStr.contains "<" sender && PyStr.contains ">" sender then
    before ← getitem (PyStr.split "<" sender) 0;
    let display := PyStr.strip before in
    after ← getitem (PyStr.split "<" sender) 1;
    actual ← getitem (PyStr.split ">" after) 0;
    Ok (if PyStr.contains "@" display
        then threats ++ ["Misleading display name"]
        else threats)
  else Ok threats.

(** [s.isupper()]: some cased character, and none of them lower case *)
Definition isupper (s : string) : bool :=
  PyStr.any_char PyStr.isupper_char s && negb (PyStr.any_char PyStr.islower_char s).

Definition _check_subject (subject : string) : list string :=
  let threats := [] in
  let subject_lower := PyStr.lower subject in
  (* urgency check *)
  let urgency_count := count_present urgency_words subject_lower in
  let threats :=
    if 2 <=? urgency_count
    then threats ++ ["Multiple urgency indicators in subject"] else threats in
  (* all caps check *)
  let threats :=
    if isupper subject && (10 <? String.length subject)%nat
    then threats ++ ["Excessive capitalization"] else threats in
  (* special chars *)
  let threats :=
    if (2 <? PyStr.count "!" subject) || (1 <? PyStr.count "$" subject)
    then threats ++ ["Excessive special characters"] else threats in
  threats.

(** the patterns of [_check_grammar]: \s{2,}   [a-z]\s+[A-Z]   \.\s*[a-z] *)
Definition mistakes : list regex :=
  [ Rep 2 None Space;
    Cat (Class false [IRange "a" "z"]) (Cat (Plus Space) (Class false [IRange "A" "Z"]));
    Cat (Lit ".") (Cat (Star Space) (Class false [IRange "a" "z"])) ].

Definition _check_grammar (text : string) : Z :=
  let errors :=
    fold_left (fun errors pattern =>
                 errors + Z.of_nat (length (findall false pattern text)))
              mistakes 0 in
  Z.min errors 10.   (* cap at 10 *)

Definition _check_body (body : string) : list string :=
  let threats := [] in
  let body_lower := PyStr.lower body in
  (* suspicious phrases *)
  let threats :=
    fold_left (fun threats phrase =>
                 if PyStr.contains phrase body_lower
                 then threats ++ ["Suspicious phrase: '" +:+ phrase +:+ "'"]
                 else threats)
              suspicious_phrases threats in
  (* credential harvesting *)
  let cred_count := count_present credential_words body_lower in
  let threats :=
    if 3 <=? cred_count
    then threats ++ ["Potential credential harvesting attempt"] else threats in
  (* financial scam *)
  let fin_count := count_present financial_words body_lower in
  let threats :=
    if (3 <=? fin_count) && PyStr.contains "urgent" body_lower
    then threats ++ ["Potential financial scam"] else threats in
  (* grammar check (simple) *)
  let typos := _check_grammar body in
  let threats :=
    if 3 <? typos then threats ++ ["Multiple grammar/spelling errors"] else threats in
  threats.

Definition suspicious_tlds : list string :=
  [".tk"; ".ml"; ".ga"; ".cf"; ".click"; ".download"].

Definition _check_url (url : string) : list string :=
  let threats := [] in
  let url_lower := PyStr.lower url in
  (* url shorteners: the first pattern found ends the loop *)
  let threats :=
    if existsb (fun pattern => search false pattern url_lower) (firstn 3 suspicious_domains)
    then threats ++ ["URL shortener detected: " +:+ PyStr.take_chars 30 url +:+ "..."]
    else threats in
  (* ip addresses *)
  let threats :=
    if search false ip_pattern url then threats ++ ["Direct IP address URL"] else threats in
  (* homograph attack *)
  let threats :=
    fold_left (fun threats '(pattern, company) =>
                 if search false pattern url_lower
                 then threats ++ ["Possible " +:+ company +:+ " URL spoofing"]
                 else threats)
              spoofed_patterns threats in
  (* suspicious tld *)
  let threats :=
    if existsb (fun tld => PyStr.contains tld url_lower) suspicious_tlds
    then threats ++ ["Suspicious domain extension"] else threats in
  threats.

Definition _check_urls (urls : list string) : list string :=
  fold_left (fun threats url => threats ++ _check_url url) urls [].

Definition check (parsed_email : ParsedEmail) : result (list string) :=
  let threats := [] in
  sender_threats ← _check_sender (sender parsed_email);
  let threats := threats ++ sender_threats in
  let subject_threats := _check_subject (subject parsed_email) in
  let threats := threats ++ subject_threats in
  let body_threats := _check_body (body parsed_email) in
  let threats := threats ++ body_threats in
  let url_threats := _check_urls (urls parsed_email) in
  let threats := threats ++ url_threats in
  Ok threats.

End PatternMatcher.

(** ** [models/analyzer.py] *)

Module GPTAnalyzer.

Definition nl : string := String (ascii_of_N 10) EmptyString.

Definition _get_system_prompt : string :=
  "You are an expert email security analyst. Analyze emails for phishing indicators." +:+ nl +:+
  "        " +:+ nl +:+
  "        Return JSON with:" +:+ nl +:+
  "        - score: 0-100 phishing likelihood" +:+ nl +:+
  "        - threats: list of specific threats found" +:+ nl +:+
  "        - indicators: suspicious patterns detected" +:+ nl +:+
  "        - confidence: your confidence level 0-1" +:+ nl +:+
  "        " +:+ nl +:+
  "        Look for:" +:+ nl +:+
  "        - Spoofed sender addresses" +:+ nl +:+
  "        - Urgency/fear tactics" +:+ nl +:+
  "        - Suspicious URLs" +:+ nl +:+
  "        - Grammar/spelling errors" +:+ nl +:+
  "        - Requests for sensitive info" +:+ nl +:+
  "        - Too good to be true offers".

Definition _build_prompt (sender subject body : string) : string :=
  "Analyze this email for phishing:" +:+ nl +:+
  "        " +:+ nl +:+
  "From: " +:+ sender +:+ nl +:+
  "Subject: " +:+ subject +:+ nl +:+
  nl +:+
  "Body:" +:+ nl +:+
  PyStr.take_chars 1500 body +:+ "  " +:+ nl +:+
  nl +:+
  "Provide detailed phishing analysis in JSON format.".

(** [s.find(c)]: the first position of [c], or -1 *)
Fixpoint find (c : ascii) (s : string) : Z :=
  match s with
  | EmptyString => -1
  | String a s' =>
      if Ascii.eqb a c then 0
      else let i := find c s' in if i <? 0 then -1 else i + 1
  end.

(** [s.rfind(c)]: the last position of [c], or -1 *)
Fixpoint rfind (c : ascii) (s : string) : Z :=
  match s with
  | EmptyString => -1
  | String a s' =>
      let i := rfind c s' in
      if 0 <=? i then i + 1
      else if Ascii.eqb a c then 0 else -1
  end.

(** [s[start:stop]] for [0 <= start] *)
Definition slice (s : string) (start stop : Z) : string :=
  PyStr.take (Z.to_nat (stop - start)) (PyStr.drop (Z.to_nat start) s).

(** the text analysis that [_parse_response] falls back to *)
Definition fallback_parsing (response : string) : GptResult.t :=
  let threats := [] in
  let score := 50 in
  (* extract threats from text *)
  let threats :=
    if PyStr.contains "suspicious" (PyStr.lower response)
    then threats ++ ["Suspicious content detected"] else threats in
  let score :=
    if PyStr.contains "phishing" (PyStr.lower response) then 75 else score in
  let threats :=
    if PyStr.contains "urgent" (PyStr.lower response)
    then threats ++ ["Urgency tactics detected"] else threats in
  {| GptResult.score := Some score;
     GptResult.threats := Some threats;
     GptResult.confidence := Some (PyFloat.literal 7 10) |}.

Definition _parse_response (env : Env) (response : string) : GptResult.t :=
  (* extract json *)
  let start := find "{" response in
  let stop := rfind "}" response + 1 in
  if (0 <=? start) && (start <? stop) then
    let json_str := slice response start stop in
    match json_loads env json_str with
    | Some parsed => parsed
    | None => fallback_parsing response
    end
  else fallback_parsing response.

Definition _get_cache_key (env : Env) (sender subject body : string) : string :=
  let content := sender +:+ ":" +:+ subject +:+ ":" +:+ PyStr.take_chars 200 body in
  PyStr.str_of_Z (hash_str env content).

(** [self.client.chat.completions.create(...)] and the text of its first choice *)
Definition create_completion (env : Env) (config : Config) (prompt : string)
  : M string := fun st =>
  (chat_completion env (calls st) (model config) (temperature config)
     (max_tokens config) _get_system_prompt prompt,
   {| cache := cache st; clock := clock st; calls := S (calls st);
      stdout := stdout st |}).

Definition cache_store (key : string) (value : GptResult.t) : M unit := fun st =>
  (Ok tt,
   {| cache := <[key := value]> (cache st); clock := clock st; calls := calls st;
      stdout := stdout st |}).

(** the dictionary returned on an error of the service *)
Definition error_result (e : exn) : GptResult.t :=
  {| GptResult.score := Some 50;
     GptResult.threats := Some ["Analysis error: " +:+ exn_message e];
     GptResult.confidence := Some (PyFloat.literal 5 10) |}.

Definition analyze (env : Env) (sender subject body : string) (config : Config)
  : M GptResult.t := fun st =>
  (* check cache *)
  let cache_key := _get_cache_key env sender subject body in
  match cache st !! cache_key with
  | Some cached => (Ok cached, st)
  | None =>
      (* build prompt *)
      let prompt := _build_prompt sender subject body in
      try_except
        (response ← create_completion env config prompt;
         (* parse response *)
         let result := _parse_response env response in
         (* cache result *)
         _ ← cache_store cache_key result;
         mret result)
        (fun e => mret (error_result e))   (* fallback on error *)
        st
  end.

End GPTAnalyzer.

(** ** [detector.py] *)

Inductive RiskLevel : Type := LOW | MEDIUM | HIGH | CRITICAL.

Module DetectionResult.
Record t : Type := {
  score : Z;
  risk_level : RiskLevel;
  threats : list string;
  suspicious_urls : list string;
  analysis : GptResult.t;
  timestamp : string;
  recommendations : list string
}.
End DetectionResult.

(** ** [utils/reporter.py] *)

(** [html.escape(s)] of the Python library, with [quote=True] *)
Module Html.

Definition escape (s : string) : string :=
  let s := PyStr.replace "&" "&amp;" s in   (* must be done first *)
  let s := PyStr.replace "<" "&lt;" s in
  let s := PyStr.replace ">" "&gt;" s in
  let s := PyStr.replace (String dquote EmptyString) "&quot;" s in
  let s := PyStr.replace (String squote EmptyString) "&#x27;" s in
  s.

End Html.

(** [json.dumps(value, indent=2)] on the two dictionaries the reports print *)
Record Json : Type := {
  dumps_report : DetectionResult.t -> string;
  dumps_analysis : GptResult.t -> string
}.

Module ReportGenerator.

Definition nl : string := GPTAnalyzer.nl.
Definition q : string := String dquote EmptyString.

(** the text of a risk level *)
Definition risk_name (level : RiskLevel) : string :=
  match level with
  | LOW => "LOW"
  | MEDIUM => "MEDIUM"
  | HIGH => "HIGH"
  | CRITICAL => "CRITICAL"
  end.

(** [s * n] *)
Fixpoint times (s : string) (n : nat) : string :=
  match n with
  | O => EmptyString
  | S n' => s +:+ times s n'
  end.

(** [d.get(key, fallback)] *)
Fixpoint get_or (key : string) (d : list (string * string)) (fallback : string) : string :=
  match d with
  | [] => fallback
  | (k, v) :: d' => if String.eqb k key then v else get_or key d' fallback
  end.

Definition _generate_json (json : Json) (result : DetectionResult.t) : string :=
  dumps_report json result.

Definition color_map : list (string * string) :=
  [("LOW", "#28a745");
   ("MEDIUM", "#ffc107");
   ("HIGH", "#fd7e14");
   ("CRITICAL", "#dc3545")].

(** the three lists of the HTML report, every element escaped *)
Definition threats_html (threats : list string) : string :=
  match threats with
  | _ :: _ =>
      PyStr.join EmptyString
        (map (fun threat =>
                "<div class=" +:+ q +:+ "threat" +:+ q +:+ ">" +:+ Html.escape threat +:+ "</div>")
             threats)
  | [] => "<p>No specific threats identified</p>"
  end.

Definition urls_html (suspicious_urls : list string) : string :=
  match suspicious_urls with
  | _ :: _ =>
      PyStr.join EmptyString
        (map (fun url =>
                "<div class=" +:+ q +:+ "url" +:+ q +:+ ">" +:+ Html.escape url +:+ "</div>")
             suspicious_urls)
  | [] => "<p>No suspicious URLs found</p>"
  end.

Definition recommendations_html (recommendations : list string) : string :=
  PyStr.join EmptyString
    (map (fun rec =>
            "<div class=" +:+ q +:+ "recommendation" +:+ q +:+ ">" +:+ Html.escape rec +:+ "</div>")
         recommendations).

Definition _generate_html (json : Json) (result : DetectionResult.t) : string :=
  let color := get_or (risk_name (DetectionResult.risk_level result)) color_map "#6c757d" in
  nl +:+
  "<!DOCTYPE html>" +:+ nl +:+
  "<html>" +:+ nl +:+
  "<head>" +:+ nl +:+
  "    <title>Phishing Detection Report</title>" +:+ nl +:+
  "    <style>" +:+ nl +:+
  "        body { font-family: Arial, sans-serif; max-width: 800px; margin: 0 auto; padding: 20px; }" +:+ nl +:+
  "        .header { background: linear-gradient(135deg, #667eea 0%, #764ba2 100%); color: white; padding: 20px; border-radius: 10px; }" +:+ nl +:+
  "        .score { font-size: 48px; font-weight: bold; }" +:+ nl +:+
  "        .risk-level { background: " +:+ color +:+ "; color: white; padding: 10px 20px; border-radius: 5px; display: inline-block; margin: 10px 0; }" +:+ nl +:+
  "        .section { margin: 20px 0; padding: 15px; background: #f8f9fa; border-radius: 5px; }" +:+ nl +:+
  "        .threat { background: #fff3cd; padding: 10px; margin: 5px 0; border-left: 4px solid #ffc107; }" +:+ nl +:+
  "        .recommendation { background: #d1ecf1; padding: 10px; margin: 5px 0; border-left: 4px solid #17a2b8; }" +:+ nl +:+
  "        .url { background: #f8d7da; padding: 10px; margin: 5px 0; border-left: 4px solid #dc3545; word-break: break-all; }" +:+ nl +:+
  "    </style>" +:+ nl +:+
  "</head>" +:+ nl +:+
  "<body>" +:+ nl +:+
  "    <div class=" +:+ q +:+ "header" +:+ q +:+ ">" +:+ nl +:+
  "        <h1>🛡️ Phishing Detection Report</h1>" +:+ nl +:+
  "        <div class=" +:+ q +:+ "score" +:+ q +:+ ">" +:+ (PyStr.str_of_Z (DetectionResult.score result)) +:+ "/100</div>" +:+ nl +:+
  "        <div class=" +:+ q +:+ "risk-level" +:+ q +:+ ">" +:+ (risk_name (DetectionResult.risk_level result)) +:+ " RISK</div>" +:+ nl +:+
  "        <p>Generated: " +:+ (DetectionResult.timestamp result) +:+ "</p>" +:+ nl +:+
  "    </div>" +:+ nl +:+
  "    " +:+ nl +:+
  "    <div class=" +:+ q +:+ "section" +:+ q +:+ ">" +:+ nl +:+
  "        <h2>⚠️ Threats Detected (" +:+ (PyStr.str_of_Z (Z.of_nat (length (DetectionResult.threats result)))) +:+ ")</h2>" +:+ nl +:+
  "        " +:+ (threats_html (DetectionResult.threats result)) +:+ nl +:+
  "    </div>" +:+ nl +:+
  "    " +:+ nl +:+
  "    <div class=" +:+ q +:+ "section" +:+ q +:+ ">" +:+ nl +:+
  "        <h2>🔗 Suspicious URLs (" +:+ (PyStr.str_of_Z (Z.of_nat (length (DetectionResult.suspicious_urls result)))) +:+ ")</h2>" +:+ nl +:+
  "        " +:+ (urls_html (DetectionResult.suspicious_urls result)) +:+ nl +:+
  "    </div>" +:+ nl +:+
  "    " +:+ nl +:+
  "    <div class=" +:+ q +:+ "section" +:+ q +:+ ">" +:+ nl +:+
  "        <h2>💡 Recommendations</h2>" +:+ nl +:+
  "        " +:+ (recommendations_html (DetectionResult.recommendations result)) +:+ nl +:+
  "    </div>" +:+ nl +:+
  "    " +:+ nl +:+
  "    <div class=" +:+ q +:+ "section" +:+ q +:+ ">" +:+ nl +:+
  "        <h2>📊 AI Analysis</h2>" +:+ nl +:+
  "        <pre>" +:+ (dumps_analysis json (DetectionResult.analysis result)) +:+ "</pre>" +:+ nl +:+
  "    </div>" +:+ nl +:+
  "</body>" +:+ nl +:+
  "</html>" +:+ nl.

Definition _generate_text (json : Json) (result : DetectionResult.t) : string :=
  let lines := [] in
  let lines := lines ++ [times "=" 60] in
  let lines := lines ++ ["PHISHING DETECTION REPORT"] in
  let lines := lines ++ [times "=" 60] in
  let lines := lines ++ ["Timestamp: " +:+ DetectionResult.timestamp result] in
  let lines :=
    lines ++ ["Risk Score: " +:+ PyStr.str_of_Z (DetectionResult.score result) +:+ "/100"] in
  let lines :=
    lines ++ ["Risk Level: " +:+ risk_name (DetectionResult.risk_level result)] in
  let lines := lines ++ [EmptyString] in
  let lines := lines ++ ["THREATS DETECTED:"] in
  let lines := lines ++ [times "-" 40] in
  let lines :=
    match DetectionResult.threats result with
    | _ :: _ =>
        fold_left (fun lines threat => lines ++ ["• " +:+ threat])
                  (DetectionResult.threats result) lines
    | [] => lines ++ ["No specific threats identified"]
    end in
  let lines := lines ++ [EmptyString] in
  let lines := lines ++ ["SUSPICIOUS URLS:"] in
  let lines := lines ++ [times "-" 40] in
  let lines :=
    match DetectionResult.suspicious_urls result with
    | _ :: _ =>
        fold_left (fun lines url => lines ++ ["• " +:+ url])
                  (DetectionResult.suspicious_urls result) lines
    | [] => lines ++ ["No suspicious URLs found"]
    end in
  let lines := lines ++ [EmptyString] in
  let lines := lines ++ ["RECOMMENDATIONS:"] in
  let lines := lines ++ [times "-" 40] in
  let lines :=
    fold_left (fun lines rec => lines ++ ["→ " +:+ rec])
              (DetectionResult.recommendations result) lines in
  let lines := lines ++ [EmptyString] in
  let lines := lines ++ ["AI ANALYSIS:"] in
  let lines := lines ++ [times "-" 40] in
  let lines := lines ++ [dumps_analysis json (DetectionResult.analysis result)] in
  let lines := lines ++ [times "=" 60] in
  PyStr.join nl lines.

Definition generate (json : Json) (result : DetectionResult.t) (format : string) : string :=
  if String.eqb format "json" then _generate_json json result
  else if String.eqb format "html" then _generate_html json result
  else if String.eqb format "text" then _generate_text json result
  else _generate_json json result.

Definition level_eqb (a b : RiskLevel) : bool :=
  match a, b with
  | LOW, LOW | MEDIUM, MEDIUM | HIGH, HIGH | CRITICAL, CRITICAL => true
  | _, _ => false
  end.

(** [sum(1 for r in results if r.risk_level == level)] *)
Definition count_level (level : RiskLevel) (results : list DetectionResult.t) : Z :=
  fold_left (fun n r => if level_eqb (DetectionResult.risk_level r) level then n + 1 else n)
            results 0.

(** [threat_count[threat_type] = threat_count.get(threat_type, 0) + 1] on a
    dictionary in insertion order *)
Fixpoint bump (threat_type : string) (threat_count : list (string * Z))
  : list (string * Z) :=
  match threat_count with
  | [] => [(threat_type, 1)]
  | (k, n) :: rest =>
      if String.eqb k threat_type then (k, n + 1) :: rest
      else (k, n) :: bump threat_type rest
  end.

(** count threat frequency *)
Definition count_threats (results : list DetectionResult.t) : list (string * Z) :=
  fold_left
    (fun threat_count result =>
       fold_left (fun threat_count threat =>
                    let threat_type := hd EmptyString (PyStr.split ":" threat) in
                    bump threat_type threat_count)
                 (DetectionResult.threats result) threat_count)
    results [].

(** [sorted(items, key=lambda x: x[1], reverse=True)]: the larger count
    first, items of equal count in their former order *)
Fixpoint insert_sorted (item : string * Z) (sorted : list (string * Z))
  : list (string * Z) :=
  match sorted with
  | [] => [item]
  | other :: rest =>
      if snd item <? snd other then other :: insert_sorted item rest
      else item :: sorted
  end.

Definition sorted_by_count (items : list (string * Z)) : list (string * Z) :=
  fold_right insert_sorted [] items.

Definition top_threats (results : list DetectionResult.t) : list (string * Z) :=
  firstn 5 (sorted_by_count (count_threats results)).

(** [count/total*100] *)
Definition percent (count total : Z) : result spec_float :=
  ratio ← PyFloat.true_div count total;
  PyFloat.times_int ratio 100.

Definition distribution_line (name : string) (count total : Z) : result string :=
  share ← percent count total;
  Ok ("• " +:+ name +:+ ": " +:+ PyStr.str_of_Z count
      +:+ " (" +:+ PyFloat.format_1f share +:+ "%)" +:+ nl).

Definition generate_summary (results : list DetectionResult.t) : result string :=
  let total := Z.of_nat (length results) in
  if total =? 0 then Ok "No emails analyzed"
  else
    (* calculate stats *)
    let critical := count_level CRITICAL results in
    let high := count_level HIGH results in
    let medium := count_level MEDIUM results in
    let low := count_level LOW results in
    avg_score ←
      PyFloat.true_div
        (fold_left (fun sum r => sum + DetectionResult.score r) results 0) total;
    critical_line ← distribution_line "CRITICAL" critical total;
    high_line ← distribution_line "HIGH" high total;
    medium_line ← distribution_line "MEDIUM" medium total;
    low_line ← distribution_line "LOW" low total;
    let summary :=
      nl +:+
      "BATCH ANALYSIS SUMMARY" +:+ nl +:+
      times "=" 40 +:+ nl +:+
      "Total Emails Analyzed: " +:+ PyStr.str_of_Z total +:+ nl +:+
      "Average Risk Score: " +:+ PyFloat.format_1f avg_score +:+ "/100" +:+ nl +:+
      nl +:+
      "Risk Distribution:" +:+ nl +:+
      critical_line +:+ high_line +:+ medium_line +:+ low_line +:+
      nl +:+
      "Top Threats:" +:+ nl in
    (* top threats *)
    Ok (fold_left
          (fun summary '(threat, count) =>
             summary +:+ "• " +:+ threat +:+ ": " +:+ PyStr.str_of_Z count
             +:+ " occurrences" +:+ nl)
          (top_threats results) summary).

End ReportGenerator.

(** a value read from a JSON document where a string is expected *)
Inductive field : Type :=
| FStr (s : string)
| FOther.                 (* null, a number, a list, ... *)

(** a value read where the headers are expected *)
Inductive headers_field : Type :=
| HNone                                   (* None, or any other false value *)
| HDict (d : list (string * string))
| HOther.                                 (* a true value that is no dictionary *)

(** an element of the list given to [batch_analyze] *)
Inductive entry : Type :=
| Email (sender subject body : option field) (headers : option headers_field)
| NotADict.

Module PhishingDetector.

Definition _default_config : Config :=
  {| model := "gpt-4";
     temperature := PyFloat.literal 3 10;
     max_tokens := 500;
     risk_thresholds := {| low := 30; medium := 60; high := 85 |} |}.

Definition _extract_urls (text : string) : list string :=
  Regex.findall false EmailParser.url_pattern text.

Definition _get_risk_level (config : Config) (score : Z) : RiskLevel :=
  let thresholds := risk_thresholds config in
  if score <? low thresholds then LOW
  else if score <? medium thresholds then MEDIUM
  else if score <? high thresholds then HIGH
  else CRITICAL.

Definition _generate_recommendations (score : Z) (threats urls : list string)
  : list string :=
  let recommendations := [] in
  let recommendations :=
    if 60 <? score
    then recommendations ++ ["Do not click any links in this email";
                             "Verify sender through official channels"]
    else recommendations in
  let recommendations :=
    match urls with
    | _ :: _ => recommendations ++ ["Hover over links to verify destinations"]
    | [] => recommendations
    end in
  let recommendations :=
    if 80 <? score
    then recommendations ++ ["Report this email to your security team";
                             "Delete this email immediately"]
    else recommendations in
  let recommendations :=
    match recommendations with
    | [] => recommendations ++ ["Email appears safe but remain vigilant"]
    | _ :: _ => recommendations
    end in
  recommendations.

Definition analyze_email (env : Env) (config : Config)
           (sender subject body : string)
           (headers : option (list (string * string))) : M DetectionResult.t :=
  (* parse email components *)
  parsed ← EmailParser.parse env sender subject body headers;
  (* extract urls *)
  let urls := _extract_urls body in
  (* validate urls *)
  let suspicious_urls := List.filter URLValidator.is_suspicious urls in
  (* pattern matching *)
  pattern_threats ← lift (PatternMatcher.check parsed);
  (* gpt analysis *)
  gpt_result ← GPTAnalyzer.analyze env sender subject body config;
  (* combine signals *)
  let all_threats := pattern_threats ++ default [] (GptResult.threats gpt_result) in
  (* add url threats *)
  let all_threats :=
    match suspicious_urls with
    | _ :: _ =>
        all_threats ++
        ["⚠️ Suspicious URL detected: "
         +:+ PyStr.str_of_Z (Z.of_nat (length suspicious_urls)) +:+ " found"]
    | [] => all_threats
    end in
  (* calculate risk score *)
  score ← lift (RiskScorer.calculate
                  (default 0 (GptResult.score gpt_result))
                  (Z.of_nat (length pattern_threats))
                  (Z.of_nat (length suspicious_urls))
                  parsed);
  (* determine risk level *)
  let risk_level := _get_risk_level config score in
  (* generate recommendations *)
  let recommendations := _generate_recommendations score all_threats suspicious_urls in
  stamp ← now env;
  mret {| DetectionResult.score := score;
          DetectionResult.risk_level := risk_level;
          DetectionResult.threats := all_threats;
          DetectionResult.suspicious_urls := suspicious_urls;
          DetectionResult.analysis := gpt_result;
          DetectionResult.timestamp := stamp;
          DetectionResult.recommendations := recommendations |}.

(** [analyze_email] on values that need not be strings: the first
    operation on a value of the wrong type raises *)
Definition analyze_email_values (env : Env) (config : Config)
           (sender subject body : field) (headers : headers_field)
  : M DetectionResult.t :=
  match body with
  | FOther => lift (Raise TypeError)          (* re.findall(url_pattern, body) *)
  | FStr body =>
      match sender, headers, subject with
      | FStr sender, HNone, FStr subject =>
          analyze_email env config sender subject body None
      | FStr sender, HDict d, FStr subject =>
          analyze_email env config sender subject body (Some d)
      | FOther, _, _ =>
          _ ← now env; lift (Raise TypeError)          (* '<' in sender *)
      | FStr _, HOther, _ =>
          _ ← now env; lift (Raise AttributeError)     (* headers.get *)
      | FStr _, _, FOther =>
          _ ← now env; lift (Raise TypeError)          (* subject + ' ' *)
      end
  end.

(** the body of the [try] in [batch_analyze] *)
Definition analyze_entry (env : Env) (config : Config) (email : entry)
  : M DetectionResult.t :=
  match email with
  | NotADict => lift (Raise AttributeError)             (* email.get *)
  | Email sender subject body headers =>
      analyze_email_values env config
        (default (FStr EmptyString) sender)
        (default (FStr EmptyString) subject)
        (default (FStr EmptyString) body)
        (default HNone headers)
  end.

Fixpoint batch_loop (env : Env) (config : Config) (email_list : list entry)
         (results : list DetectionResult.t) : M (list DetectionResult.t) :=
  match email_list with
  | [] => mret results
  | email :: rest =>
      results ←
        try_except
          (result ← analyze_entry env config email;
           mret (results ++ [result]))
          (fun e =>
             (* log error but continue *)
             _ ← print ("Error analyzing email: " +:+ exn_message e);
             mret results);
      batch_loop env config rest results
  end.

Definition batch_analyze (env : Env) (config : Config) (email_list : list entry)
  : M (list DetectionResult.t) :=
  batch_loop env config email_list [].

Definition generate_report (json : Json) (result : DetectionResult.t) (format : string)
  : string :=
  ReportGenerator.generate json result format.

(** the reading of an e-mail file in [main]: [file] is the text that the
    file holds, which [open(path, 'r')] reads with its line ends translated;
    the first line is the sender, the second the subject, the rest the body *)
Definition read_email (file : string) : string * string * string :=
  let content := PyStr.universal_newlines file in
  let lines := PyStr.split Regex.newline content in
  let sender := match lines with line :: _ => line | [] => EmptyString end in
  let subject := if (1 <? length lines)%nat then nth 1 lines EmptyString else EmptyString in
  let body :=
    if (2 <? length lines)%nat then PyStr.join GPTAnalyzer.nl (skipn 2 lines)
    else EmptyString in
  (sender, subject, body).

End PhishingDetector.

(** ** The vocabulary of the specification *)

Module Spec.

(** the order LOW < MEDIUM < HIGH < CRITICAL *)
Definition rank (level : RiskLevel) : Z :=
  match level with
  | LOW => 0
  | MEDIUM => 1
  | HIGH => 2
  | CRITICAL => 3
  end.

(** the address matches a trusted-domain allowlist entry and contains
    exactly one at sign *)
Definition on_allowlist (sender : string) : bool :=
  existsb (fun domain => PyStr.contains ("@" +:+ domain) (PyStr.lower sender))
          RiskScorer.trusted_domains
  && (PyStr.count "@" sender =? 1).

(** the first label of the domain: after the last at sign, before the first dot *)
Definition first_label (sender : string) : string :=
  hd EmptyString (PyStr.split "." (List.last (PyStr.split "@" sender) EmptyString)).

(** how many of the words occur in the text *)
Definition present (words : list string) (text : string) : Z :=
  Z.of_nat (length (List.filter (fun word => PyStr.contains word text) words)).

(** the penalties of an address, before the cap *)
Definition penalties (sender : string) : Z :=
  (if PyStr.contains "@" sender then 0 else 50)
  + (if 1 <? PyStr.count "@" sender then 30 else 0)
  + (if PyStr.contains "@" sender && PyStr.any_char PyStr.isdigit (first_label sender)
     then 20 else 0)
  + 15 * present RiskScorer.suspicious_keywords (PyStr.lower sender).

(** the bonus of the specification: 20 when a dangerous attachment is
    present, 5 for an odd hour, 15 for a reply-to mismatch, 10 for more
    than three external images *)
Definition bonus_once (parsed_data : ParsedEmail) : Z :=
  (if existsb RiskScorer.dangerous (attachments parsed_data) then 20 else 0)
  + (if sent_at_odd_hour parsed_data then 5 else 0)
  + (if reply_to_mismatch parsed_data then 15 else 0)
  + (if 3 <? external_images_count parsed_data then 10 else 0).


(** the bonus of the code: 20 for each dangerous attachment *)
Definition bonus_each (parsed_data : ParsedEmail) : Z :=
  20 * Z.of_nat (length (List.filter RiskScorer.dangerous (attachments parsed_data)))
  + (if sent_at_odd_hour parsed_data then 5 else 0)
  + (if reply_to_mismatch parsed_data then 15 else 0)
  + (if 3 <? external_images_count parsed_data then 10 else 0).

(** the weighted sum of the four components, as floats *)
Definition weighted_sum (gpt_score pattern_matches suspicious_urls : Z)
           (parsed_data : ParsedEmail) : spec_float :=
  PyFloat.sum
    [ PyFloat.fmul (PyFloat.nearest gpt_score) RiskScorer.weight_gpt_score;
      PyFloat.fmul (PyFloat.nearest (Z.min (pattern_matches * 15) 100))
                   RiskScorer.weight_pattern_matches;
      PyFloat.fmul (PyFloat.nearest (Z.min (suspicious_urls * 30) 100))
                   RiskScorer.weight_url_suspicious;
      PyFloat.fmul (PyFloat.nearest
                      (RiskScorer._calculate_sender_trust (sender parsed_data)))
                   RiskScorer.weight_sender_trust ].

Definition clamp (n : Z) : Z := Z.max 0 (Z.min 100 n).

(** the score of the specification: round(weighted_sum + bonus), clamped *)
Definition rounded_score (gpt_score pattern_matches suspicious_urls : Z)
           (parsed_data : ParsedEmail) : result Z :=
  n ← PyFloat.round
        (PyFloat.fadd (weighted_sum gpt_score pattern_matches suspicious_urls parsed_data)
                      (PyFloat.nearest (bonus_once parsed_data)));
  Ok (clamp n).

(** a parsed e-mail with nothing in it but a sender and attachments *)
Definition bare (sender : string) (attachments : list string) : ParsedEmail :=
  {| sender := sender; subject := EmptyString; body := EmptyString; headers := [];
     urls := []; attachments := attachments; timestamp := EmptyString;
     sender_display := EmptyString; sender_email := sender;
     sender_spoofed := None; sender_domain := None; header_info := None;
     urgency_detected := false; sent_at_odd_hour := false;
     reply_to_mismatch := false; external_images_count := 0 |}.

(** the threats of a detection: the pattern findings, the threats of the
    language model, and a note when some URL is suspicious *)
Definition merged_threats (found : list string) (answer : GptResult.t)
           (suspicious : list string) : list string :=
  found ++ default [] (GptResult.threats answer)
  ++ match suspicious with
     | _ :: _ =>
         ["⚠️ Suspicious URL detected: "
          +:+ PyStr.str_of_Z (Z.of_nat (length suspicious)) +:+ " found"]
     | [] => []
     end.

(** the texts that [n] single-character edits of a text give: an alignment
    of the two texts, read left to right, in which a character is kept, or
    one is substituted, deleted or inserted at the cost of one edit *)
Inductive edits : nat -> list ascii -> list ascii -> Prop :=
| edits_done : edits 0 [] []
| edits_keep c a b n : edits n a b -> edits n (c :: a) (c :: b)
| edits_substitute c d a b n : edits n a b -> edits (S n) (c :: a) (d :: b)
| edits_delete c a b n : edits n a b -> edits (S n) (c :: a) b
| edits_insert d a b n : edits n a b -> edits (S n) a (d :: b).

(** the recurrence of the edit distance *)
Fixpoint distance (a : list ascii) : list ascii -> nat :=
  fix inner (b : list ascii) : nat :=
    match a, b with
    | [], _ => length b
    | _, [] => length a
    | c :: a', d :: b' =>
        Nat.min (distance a' b + 1)
                (Nat.min (inner b' + 1)
                         (distance a' b' + (if Ascii.eqb c d then 0 else 1)))
    end.

(** an entry of a batch that is no dictionary of strings *)
Definition malformed (email : entry) : bool :=
  match email with
  | NotADict => true
  | Email sender subject body headers =>
      match sender, subject, body, headers with
      | Some FOther, _, _, _ | _, Some FOther, _, _
      | _, _, Some FOther, _ | _, _, _, Some HOther => true
      | _, _, _, _ => false
      end
  end.

(** an environment whose language-model service always times out *)
Definition offline : Env :=
  {| now_isoformat := fun n => "2024-01-01T00:00:0" +:+ PyStr.str_of_Z (Z.of_nat n);
     parsedate_hour := fun _ => None;
     dict_str := fun _ => EmptyString;
     hash_str := fun content => Z.of_nat (String.length content);
     json_loads := fun _ => None;
     chat_completion := fun _ _ _ _ _ _ => Raise (APIError "Request timed out.") |}.

(** a detector that has analysed nothing yet *)
Definition fresh : State := {| cache := ∅; clock := 0; calls := 0; stdout := [] |}.

(** *** Notions that the properties of the code are stated with *)

(** the row of the dynamic programme: the distances from the text whose
    reversal is [ra] to the prefixes of a second text, from the prefix whose
    reversal is [rq] on; [r] is the rest of the second text *)
Fixpoint row (ra rq : list ascii) (r : string) : list nat :=
  distance ra rq ::
  match r with
  | EmptyString => []
  | String c r' => row ra (c :: rq) r'
  end.

(** a character of a plain host name: none of those that end the network
    location of a URL, that the URL parser removes or reads as a bracket, or
    that starts an escape *)
Definition host_char (c : ascii) : bool :=
  negb (existsb (Ascii.eqb c)
          ["/"; "?"; "#"; "["; "]"; "%"; ascii_of_N 9; ascii_of_N 10; ascii_of_N 13]%char).

Definition plain_host (host : string) : bool := UrlLib.all_chars host_char host.

(** what follows the host in a URL: nothing, or a path, a query or a fragment *)
Definition url_tail (tail : string) : bool :=
  match tail with
  | EmptyString => true
  | String c _ => existsb (Ascii.eqb c) ["/"; "?"; "#"]%char
  end.

(** the rules of [is_suspicious] that read the network location *)
Definition domain_rules (domain : string) : bool :=
  URLValidator._is_url_shortener domain
  || URLValidator._has_suspicious_tld domain
  || URLValidator._is_ip_address domain
  || URLValidator._has_homograph_attack domain
  || URLValidator._has_subdomain_spoofing domain.

(** [rest] is what is left of [s] after some first characters *)
Definition suffix (rest s : string) : Prop := exists pre, s = pre +:+ rest.

(** the group of a match in [s]: none, or a piece of [s] *)
Definition piece (cap : option string) (s : string) : Prop :=
  match cap with
  | None => True
  | Some t => PyStr.contains t s = true
  end.

(** a continuation is only ever given a suffix of the subject, and a group
    that is the one it started with or a piece of the subject *)
Definition hands_on {A : Type}
           (step : string -> option string ->
                   (string -> option string -> option A) -> option A) : Prop :=
  forall s cap k x,
    step s cap k = Some x ->
    exists s1 cap1,
      k s1 cap1 = Some x /\ suffix s1 s
      /\ (cap1 = cap \/ piece cap1 s).

(** the finding of [_check_sender] for a brand *)
Definition spoofing_line (company : string) : string :=
  "⚠️ Possible " +:+ company +:+ " spoofing detected".
(** an environment whose language-model service answers every request
    with the same text, which holds no JSON object *)
Definition talkative : Env :=
  {| now_isoformat := fun n => "2024-01-01T00:00:0" +:+ PyStr.str_of_Z (Z.of_nat n);
     parsedate_hour := fun _ => None;
     dict_str := fun _ => EmptyString;
     hash_str := fun content => Z.of_nat (String.length content);
     json_loads := fun _ => None;
     chat_completion := fun _ _ _ _ _ _ => Ok "This looks like a phishing attempt." |}.
(** [json.dumps(value, indent=2)] on the dictionaries that the engine
    builds itself: the analysis that replaces a failed call or an answer
    without JSON, and the report of a detection with such an analysis.  The
    texts are printed between quotes as they are, which is right when none
    of them needs an escape, and the confidence with one decimal, which is
    right for 0.5 and 0.7; [indent] is the indentation of the line on which
    the value starts. *)
Definition json_text (s : string) : string :=
  ReportGenerator.q +:+ s +:+ ReportGenerator.q.

Definition json_list (indent : string) (xs : list string) : string :=
  match xs with
  | [] => "[]"
  | _ :: _ =>
      "[" +:+ ReportGenerator.nl
      +:+ PyStr.join ("," +:+ ReportGenerator.nl)
            (map (fun x => indent +:+ "  " +:+ json_text x) xs)
      +:+ ReportGenerator.nl +:+ indent +:+ "]"
  end.

Definition json_dict (indent : string) (entries : list (string * string)) : string :=
  match entries with
  | [] => "{}"
  | _ :: _ =>
      "{" +:+ ReportGenerator.nl
      +:+ PyStr.join ("," +:+ ReportGenerator.nl)
            (map (fun '(key, value) => indent +:+ "  " +:+ json_text key +:+ ": " +:+ value)
                 entries)
      +:+ ReportGenerator.nl +:+ indent +:+ "}"
  end.

Definition json_analysis (indent : string) (analysis : GptResult.t) : string :=
  json_dict indent
    (match GptResult.score analysis with
     | Some score => [("score", PyStr.str_of_Z score)]
     | None => []
     end
     ++ match GptResult.threats analysis with
        | Some threats => [("threats", json_list (indent +:+ "  ") threats)]
        | None => []
        end
     ++ match GptResult.confidence analysis with
        | Some confidence => [("confidence", PyFloat.format_1f confidence)]
        | None => []
        end).

Definition json_report (result : DetectionResult.t) : string :=
  json_dict EmptyString
    [ ("timestamp", json_text (DetectionResult.timestamp result));
      ("score", PyStr.str_of_Z (DetectionResult.score result));
      ("risk_level",
       json_text (ReportGenerator.risk_name (DetectionResult.risk_level result)));
      ("threats", json_list "  " (DetectionResult.threats result));
      ("suspicious_urls", json_list "  " (DetectionResult.suspicious_urls result));
      ("recommendations", json_list "  " (DetectionResult.recommendations result));
      ("analysis", json_analysis "  " (DetectionResult.analysis result)) ].

Definition fallback_json : Json :=
  {| dumps_report := json_report; dumps_analysis := json_analysis EmptyString |}.

(** a detection with two threats of one type, made while the service timed
    out *)
Definition sample_detection : DetectionResult.t :=
  {| DetectionResult.score := 70;
     DetectionResult.risk_level := HIGH;
     DetectionResult.threats :=
       ["Suspicious phrase: 'you have won'"; "Misleading display name";
        "Suspicious phrase: 'claim your prize'"];
     DetectionResult.suspicious_urls := [];
     DetectionResult.analysis := GPTAnalyzer.error_result (APIError "Request timed out.");
     DetectionResult.timestamp := "2024-01-01T00:00:00";
     DetectionResult.recommendations :=
       ["Do not click any links in this email"; "Report to IT security team"] |}.

(** the type of a threat: its text before the first colon *)
Definition threat_type (threat : string) : string :=
  hd EmptyString (PyStr.split ":" threat).

(** how many threats of the detections have the type *)
Definition occurrences (type : string) (results : list DetectionResult.t) : Z :=
  Z.of_nat (length (List.filter (fun threat => String.eqb (threat_type threat) type)
                                (flat_map DetectionResult.threats results))).

(** the count that a dictionary holds for a key, 0 without the key *)
Fixpoint counted (key : string) (threat_count : list (string * Z)) : Z :=
  match threat_count with
  | [] => 0
  | (k, n) :: rest => if String.eqb k key then n else counted key rest
  end.

(** the larger count first *)
Definition descending (a b : string * Z) : Prop := snd b <= snd a.

(** the line of a threat type in the summary *)
Definition summary_line (entry : string * Z) : string :=
  "• " +:+ fst entry +:+ ": " +:+ PyStr.str_of_Z (snd entry) +:+ " occurrences"
  +:+ ReportGenerator.nl.

(** a character of a plain path: none of those that end the path of a URL,
    that the URL parser removes, or that starts an escape *)
Definition path_char (c : ascii) : bool :=
  negb (existsb (Ascii.eqb c)
          ["?"; "#"; ";"; "%"; ascii_of_N 9; ascii_of_N 10; ascii_of_N 13]%char).

Definition plain_path (path : string) : bool :=
  PyStr.startswith "/" path && UrlLib.all_chars path_char path.

(** the urgency patterns that are plain words *)
Definition urgency_keywords : list string :=
  ["urgent"; "immediate"; "expire"; "suspend"; "act now"; "deadline"; "asap"].

End Spec.

(** * Properties *)

(** ** Counting with a loop *)

Section Loops.
Context {A : Type}.

Lemma fold_left_add (p : A -> bool) (c : Z) (xs : list A) (start : Z) :
  fold_left (fun acc x => if p x then acc + c else acc) xs start
  = start + c * Z.of_nat (length (List.filter p xs)).
Proof.
  revert start. induction xs as [|x xs IH]; intros start; simpl.
  - lia.
  - rewrite IH. destruct (p x); simpl length; lia.
Qed.

Lemma filter_length_le (p : A -> bool) (xs : list A) :
  (length (List.filter p xs) <= length xs)%nat.
Proof.
  induction xs as [|x xs IH]; simpl; [lia|].
  destruct (p x); simpl; lia.
Qed.
End Loops.

(** ** The fuel of a repetition and of the scan for matches is never used up *)

Section Fuel.
Context {A : Type}.
Variable step : string -> option string ->
                (string -> option string -> option A) -> option A.

(** [step] gives the same result with continuations that are equal pointwise *)
Hypothesis step_ext :
  forall s cap k1 k2,
    (forall s1 cap1, k1 s1 cap1 = k2 s1 cap1) -> step s cap k1 = step s cap k2.

Lemma rep_loop_ext (k1 k2 : string -> option string -> option A) (fuel lo : nat)
      (hi : option nat) (s : string) (cap : option string) :
  (forall s1 cap1, k1 s1 cap1 = k2 s1 cap1) ->
  Regex.rep_loop step k1 fuel lo hi s cap = Regex.rep_loop step k2 fuel lo hi s cap.
Proof.
  intros Hk. revert lo hi s cap.
  induction fuel as [|fuel IH]; intros lo hi s cap; [reflexivity|].
  cbn [Regex.rep_loop].
  assert (forall s1 cap1,
             (if (String.length s1 <? String.length s)%nat
              then Regex.rep_loop step k1 fuel (Nat.pred lo) (option_map Nat.pred hi) s1 cap1
              else None)
             = (if (String.length s1 <? String.length s)%nat
                then Regex.rep_loop step k2 fuel (Nat.pred lo) (option_map Nat.pred hi) s1 cap1
                else None)) as Hround
    by (intros s1 cap1; rewrite IH; reflexivity).
  rewrite (step_ext s cap _ _ Hround), Hk. reflexivity.
Qed.

Lemma rep_loop_fuel (k : string -> option string -> option A) (fuel fuel' lo : nat)
      (hi : option nat) (s : string) (cap : option string) :
  (String.length s < fuel)%nat -> (String.length s < fuel')%nat ->
  Regex.rep_loop step k fuel lo hi s cap = Regex.rep_loop step k fuel' lo hi s cap.
Proof.
  revert fuel' lo hi s cap.
  induction fuel as [|fuel IH]; intros fuel' lo hi s cap Hfuel Hfuel'; [lia|].
  destruct fuel' as [|fuel']; [lia|]. cbn [Regex.rep_loop].
  assert (forall s1 cap1,
             (if (String.length s1 <? String.length s)%nat
              then Regex.rep_loop step k fuel (Nat.pred lo) (option_map Nat.pred hi) s1 cap1
              else None)
             = (if (String.length s1 <? String.length s)%nat
                then Regex.rep_loop step k fuel' (Nat.pred lo) (option_map Nat.pred hi) s1 cap1
                else None)) as Hround.
  { intros s1 cap1.
    destruct (Nat.ltb_spec (String.length s1) (String.length s)); [|reflexivity].
    apply IH; lia. }
  rewrite (step_ext s cap _ _ Hround). reflexivity.
Qed.
End Fuel.

Lemma matchk_ext {A : Type} (ignorecase : bool) (r : Regex.regex) :
  forall (s : string) (cap : option string)
         (k1 k2 : string -> option string -> option A),
    (forall s1 cap1, k1 s1 cap1 = k2 s1 cap1) ->
    Regex.matchk ignorecase r s cap k1 = Regex.matchk ignorecase r s cap k2.
Proof.
  induction r as [|c|negated items| |r1 IH1 r2 IH2|r1 IH1 r2 IH2|lo hi r1 IH1|r1 IH1];
    intros s cap k1 k2 Hk; cbn [Regex.matchk].
  - apply Hk.
  - destruct s as [|a s']; [reflexivity|]. rewrite Hk. reflexivity.
  - destruct s as [|a s']; [reflexivity|]. rewrite Hk. reflexivity.
  - destruct s as [|a s']; [reflexivity|]. rewrite Hk. reflexivity.
  - apply IH1. intros s1 cap1. apply IH2. exact Hk.
  - rewrite (IH1 s cap k1 k2 Hk), (IH2 s cap k1 k2 Hk). reflexivity.
  - apply rep_loop_ext; [exact IH1 | exact Hk].
  - apply IH1. intros s1 cap1. apply Hk.
Qed.

(** a repetition with any fuel above the length of the subject is the repetition *)
Lemma repetition_fuel {A : Type} (ignorecase : bool) (r : Regex.regex) (lo fuel : nat)
      (hi : option nat) (s : string) (cap : option string)
      (k : string -> option string -> option A) :
  (String.length s < fuel)%nat ->
  Regex.rep_loop (Regex.matchk ignorecase r) k fuel lo hi s cap
  = Regex.matchk ignorecase (Regex.Rep lo hi r) s cap k.
Proof.
  intros Hfuel. cbn [Regex.matchk].
  apply rep_loop_fuel; [apply matchk_ext | exact Hfuel | lia].
Qed.


Lemma matches_from_fuel (ignorecase : bool) (r : Regex.regex) (fuel fuel' : nat)
      (s : string) :
  (String.length s < fuel)%nat -> (String.length s < fuel')%nat ->
  Regex.matches_from fuel ignorecase r s = Regex.matches_from fuel' ignorecase r s.
Proof.
  revert fuel' s. induction fuel as [|fuel IH]; intros fuel' s Hfuel Hfuel'; [lia|].
  destruct fuel' as [|fuel']; [lia|]. cbn [Regex.matches_from].
  assert (match s with
          | EmptyString => []
          | String _ s' => Regex.matches_from fuel ignorecase r s'
          end
          = match s with
            | EmptyString => []
            | String _ s' => Regex.matches_from fuel' ignorecase r s'
            end) as Hstep.
  { destruct s as [|c s']; [reflexivity|]. apply IH; simpl in *; lia. }
  rewrite Hstep.
  destruct (Regex.match_here ignorecase r s) as [[rest cap]|]; [|reflexivity].
  f_equal.
  destruct (Nat.ltb_spec (String.length rest) (String.length s)); [|reflexivity].
  apply IH; lia.
Qed.

(** ** Sender trust *)

Lemma count_lower (c : ascii) (s : string) :
  PyStr.lower_char c = c ->
  (forall a, PyStr.lower_char a = c -> a = c) ->
  PyStr.count c (PyStr.lower s) = PyStr.count c s.
Proof.
  intros Hc Hinj. induction s as [|a s IH]; simpl; [reflexivity|].
  rewrite IH. f_equal.
  destruct (Ascii.eqb_spec a c) as [->|Hne].
  - rewrite Hc, Ascii.eqb_refl. reflexivity.
  - destruct (Ascii.eqb_spec (PyStr.lower_char a) c) as [Heq|]; [|reflexivity].
    apply Hinj in Heq. contradiction.
Qed.

Lemma lower_char_at (a : ascii) : PyStr.lower_char a = "@"%char -> a = "@"%char.
Proof.
  destruct a as [[] [] [] [] [] [] [] []]; vm_compute; intros H;
    first [reflexivity | discriminate H].
Qed.

Lemma count_at_lower (s : string) :
  PyStr.count "@" (PyStr.lower s) = PyStr.count "@" s.
Proof. apply count_lower; [reflexivity | apply lower_char_at]. Qed.

Lemma existsb_and_const {A : Type} (f : A -> bool) (b : bool) (xs : list A) :
  existsb (fun x => f x && b) xs = existsb f xs && b.
Proof.
  induction xs as [|x xs IH]; simpl; [reflexivity|].
  rewrite IH. destruct (f x), b, (existsb f xs); reflexivity.
Qed.

Lemma trusted_on_allowlist (sender : string) :
  RiskScorer.trusted (PyStr.lower sender) = Spec.on_allowlist sender.
Proof.
  unfold RiskScorer.trusted, Spec.on_allowlist.
  rewrite count_at_lower. apply existsb_and_const.
Qed.

Lemma sender_trust_unfold (sender : string) :
  RiskScorer._calculate_sender_trust sender
  = if Spec.on_allowlist sender then 0 else Z.min (Spec.penalties sender) 100.
Proof.
  unfold RiskScorer._calculate_sender_trust.
  rewrite trusted_on_allowlist.
  destruct (Spec.on_allowlist sender); [reflexivity|].
  rewrite fold_left_add. unfold Spec.penalties, Spec.present, Spec.first_label.
  f_equal.
  destruct (PyStr.contains "@" sender); simpl negb; cbv iota;
    destruct (1 <? PyStr.count "@" sender); simpl andb; cbv iota;
    try destruct (PyStr.any_char _ _); lia.
Qed.

Lemma present_nonneg (words : list string) (text : string) : 0 <= Spec.present words text.
Proof. unfold Spec.present. lia. Qed.

Lemma penalties_nonneg (sender : string) : 0 <= Spec.penalties sender.
Proof.
  unfold Spec.penalties.
  pose proof (present_nonneg RiskScorer.suspicious_keywords (PyStr.lower sender)).
  destruct (PyStr.contains "@" sender); simpl andb;
    destruct (1 <? PyStr.count "@" sender);
    try destruct (PyStr.any_char _ _); lia.
Qed.

Lemma sender_trust_range (sender : string) :
  0 <= RiskScorer._calculate_sender_trust sender <= 100.
Proof.
  rewrite sender_trust_unfold. pose proof (penalties_nonneg sender).
  destruct (Spec.on_allowlist sender); lia.
Qed.

(** C4, as the code has it, for an address of ASCII characters (on which
    [str.lower] and [str.isdigit] are the operations of the model): an
    address on the allowlist with exactly one at sign scores 0; every other
    address scores the sum of its penalties (50 without an at sign, 30 with
    more than one, 20 for a digit in the first label of the domain, 15 for
    each suspicious keyword), capped at 100; so the score is 0 exactly for an
    allowlisted address or one without any penalty. *)
Theorem sender_trust_penalties (sender : string) :
  PyStr.isascii sender = true ->
  (Spec.on_allowlist sender = true -> RiskScorer._calculate_sender_trust sender = 0)
  /\ (Spec.on_allowlist sender = false ->
      RiskScorer._calculate_sender_trust sender = Z.min (Spec.penalties sender) 100)
  /\ (RiskScorer._calculate_sender_trust sender = 0 <->
      Spec.on_allowlist sender = true \/ Spec.penalties sender = 0)
  /\ RiskScorer._calculate_sender_trust "support@amazon.com" = 0
  /\ 0 < RiskScorer._calculate_sender_trust "alert@amaz0n-security.com".
Proof.
  intros _.
  rewrite sender_trust_unfold. pose proof (penalties_nonneg sender) as Hp.
  split; [|split; [|split; [|split]]].
  - intros ->. reflexivity.
  - intros ->. reflexivity.
  - split.
    + destruct (Spec.on_allowlist sender); [auto|]. intros. right. lia.
    + destruct (Spec.on_allowlist sender); [reflexivity|].
      intros [H|H]; [discriminate H|]. lia.
  - vm_compute. reflexivity.
  - vm_compute. reflexivity.
Qed.

Lemma sender_trust_penalties_witness :
  PyStr.isascii "a@b@gmail.com" = true
  /\ Spec.on_allowlist "a@b@gmail.com" = false
  /\ RiskScorer._calculate_sender_trust "a@b@gmail.com" = 30.
Proof.
  split; [reflexivity|]. split; [reflexivity|].
  destruct (sender_trust_penalties "a@b@gmail.com" eq_refl) as (_ & H & _).
  rewrite H; reflexivity.
Defined.

(** C4 as stated fails: an address that is not on the allowlist and triggers
    no penalty also scores 0. *)
Lemma sender_trust_zero_not_allowlisted :
  RiskScorer._calculate_sender_trust "bob@example.com" = 0
  /\ Spec.on_allowlist "bob@example.com" = false
  /\ ~ (RiskScorer._calculate_sender_trust "bob@example.com" = 0 <->
        Spec.on_allowlist "bob@example.com" = true).
Proof.
  split; [reflexivity|]. split; [reflexivity|].
  intros [H _]. specialize (H eq_refl). discriminate H.
Qed.

(** C10: the trust check is a substring test.  Whenever the lower-cased
    address contains an at sign followed by a trusted domain anywhere, and the
    address has exactly one at sign, the score is 0 whatever follows the
    domain; so it is for user@amazon.com.attacker.net. *)
Theorem sender_trust_substring_bypass (sender domain : string) :
  In domain RiskScorer.trusted_domains ->
  PyStr.count "@" sender = 1 ->
  PyStr.contains ("@" +:+ domain) (PyStr.lower sender) = true ->
  RiskScorer._calculate_sender_trust sender = 0.
Proof.
  intros Hin Hcount Hsub.
  rewrite sender_trust_unfold.
  assert (Spec.on_allowlist sender = true) as ->; [|reflexivity].
  unfold Spec.on_allowlist. rewrite Hcount. simpl (1 =? 1). rewrite andb_true_r.
  apply existsb_exists. exists domain. split; assumption.
Qed.

Lemma sender_trust_substring_bypass_witness :
  RiskScorer._calculate_sender_trust "user@amazon.com.attacker.net" = 0.
Proof.
  apply (sender_trust_substring_bypass "user@amazon.com.attacker.net" "amazon.com").
  - vm_compute. auto 10.
  - reflexivity.
  - reflexivity.
Defined.

(** ** Risk tiers *)

(** C3: with the default thresholds 30, 60 and 85 the tier of a score in
    0..100 is LOW below 30, MEDIUM from 30 and below 60, HIGH from 60 and below
    85, CRITICAL from 85 on; the boundary score 30 is MEDIUM; and a larger
    score never has a smaller tier. *)
Theorem risk_level_tiers (score score' : Z) :
  0 <= score <= 100 -> 0 <= score' <= 100 ->
  let tier := PhishingDetector._get_risk_level PhishingDetector._default_config in
  (tier score = LOW <-> score < 30)
  /\ (tier score = MEDIUM <-> 30 <= score < 60)
  /\ (tier score = HIGH <-> 60 <= score < 85)
  /\ (tier score = CRITICAL <-> 85 <= score)
  /\ tier 30 = MEDIUM
  /\ (score <= score' -> Spec.rank (tier score) <= Spec.rank (tier score')).
Proof.
  intros _ _ tier. subst tier.
  unfold PhishingDetector._get_risk_level. simpl risk_thresholds. simpl low.
  simpl medium. simpl high.
  destruct (Z.ltb_spec score 30), (Z.ltb_spec score 60), (Z.ltb_spec score 85),
           (Z.ltb_spec score' 30), (Z.ltb_spec score' 60), (Z.ltb_spec score' 85);
    simpl Spec.rank;
    repeat split; intros; try lia; try discriminate; try reflexivity.
Qed.

Lemma risk_level_tiers_witness :
  PhishingDetector._get_risk_level PhishingDetector._default_config 30 = MEDIUM
  /\ Spec.rank (PhishingDetector._get_risk_level PhishingDetector._default_config 30)
     <= Spec.rank (PhishingDetector._get_risk_level PhishingDetector._default_config 85).
Proof.
  destruct (risk_level_tiers 30 85 ltac:(lia) ltac:(lia)) as (_ & _ & _ & _ & H30 & Hmono).
  split; [exact H30 | apply Hmono; lia].
Defined.

(** ** Recommendations *)

Lemma recommendations_ladder (score : Z) (threats urls : list string) :
  let recs := PhishingDetector._generate_recommendations score threats urls in
  recs <> []
  /\ (In "Do not click any links in this email" recs <-> 60 < score)
  /\ (In "Verify sender through official channels" recs <-> 60 < score)
  /\ (In "Hover over links to verify destinations" recs <-> urls <> [])
  /\ (In "Report this email to your security team" recs <-> 80 < score)
  /\ (In "Delete this email immediately" recs <-> 80 < score)
  /\ (In "Email appears safe but remain vigilant" recs <-> score <= 60 /\ urls = [])
  /\ (score <= 60 -> urls = [] -> recs = ["Email appears safe but remain vigilant"]).
Proof.
  unfold PhishingDetector._generate_recommendations.
  destruct (Z.ltb_spec 60 score), (Z.ltb_spec 80 score), urls as [|u urls];
    simpl; repeat split; intros;
    repeat match goal with
           | H : _ \/ _ |- _ => destruct H
           | H : _ /\ _ |- _ => destruct H
           | H : False |- _ => destruct H
           end;
    try lia; try discriminate; try congruence; auto 10.
Qed.

(** ** Indexing the parts of a split never fails where the code reads them *)

Lemma split_nonempty (sep : ascii) (s : string) :
  exists part parts, PyStr.split sep s = part :: parts.
Proof.
  induction s as [|c s (part & parts & IH)]; simpl; [eauto|].
  destruct (Ascii.eqb c sep); [eauto|]. rewrite IH. eauto.
Qed.

Lemma prefix_char (c a : ascii) (s : string) :
  String.prefix (String c EmptyString) (String a s) = Ascii.eqb a c.
Proof.
  simpl. destruct (ascii_dec c a) as [->|Hne].
  - rewrite Ascii.eqb_refl. destruct s; reflexivity.
  - symmetry. apply Ascii.eqb_neq. congruence.
Qed.

Lemma split_two (sep : ascii) (s : string) :
  PyStr.contains (String sep EmptyString) s = true ->
  exists first second parts, PyStr.split sep s = first :: second :: parts.
Proof.
  induction s as [|c s IH]; [discriminate|].
  cbn [PyStr.contains]. rewrite prefix_char. cbn [PyStr.split].
  destruct (Ascii.eqb c sep); simpl orb.
  - intros _. destruct (split_nonempty sep s) as (part & parts & ->). eauto.
  - intros H. destruct (IH H) as (first & second & parts & ->). eauto.
Qed.

Lemma getitem_first {A : Type} (x : A) (xs : list A) : getitem (x :: xs) 0 = Ok x.
Proof. reflexivity. Qed.

Lemma getitem_second {A : Type} (x y : A) (xs : list A) : getitem (x :: y :: xs) 1 = Ok y.
Proof. reflexivity. Qed.

Lemma getitem_last {A : Type} (x : A) (xs : list A) (d : A) :
  getitem (x :: xs) (-1) = Ok (List.last (x :: xs) d).
Proof.
  unfold getitem, PyStr.index.
  replace (0 <=? -1) with false by reflexivity.
  replace (0 <=? Z.of_nat (length (x :: xs)) + -1) with true
    by (symmetry; apply Z.leb_le; simpl length; lia).
  replace (Z.to_nat (Z.of_nat (length (x :: xs)) + -1)) with (length xs)
    by (simpl length; lia).
  revert x. induction xs as [|y ys IH]; intros x; [reflexivity|].
  change (nth_error (x :: y :: ys) (length (y :: ys))) with (nth_error (y :: ys) (length ys)).
  change (List.last (x :: y :: ys) d) with (List.last (y :: ys) d).
  apply IH.
Qed.

Lemma parse_sender_total (sender : string) :
  exists parts, EmailParser._parse_sender sender = Ok parts
    /\ (PyStr.contains "<" sender && PyStr.contains ">" sender = false ->
        EmailParser.sp_display parts = EmptyString
        /\ EmailParser.sp_email parts = PyStr.strip sender
        /\ EmailParser.sp_spoofed parts = None)
    /\ (PyStr.contains "@" (EmailParser.sp_email parts) = false ->
        EmailParser.sp_domain parts = None).
Proof.
  unfold EmailParser._parse_sender.
  destruct (PyStr.contains "<" sender) eqn:Hlt; simpl andb.
  - destruct (PyStr.contains ">" sender) eqn:Hgt.
    + destruct (split_two "<" sender Hlt) as (first & second & parts & ->).
      rewrite getitem_first, getitem_second. cbn [mbind result_bind].
      destruct (split_nonempty ">" second) as (inside & rest & ->).
      rewrite getitem_first. cbn [mbind result_bind].
      destruct (PyStr.contains "@" (PyStr.strip inside)) eqn:Hat.
      * destruct (split_nonempty "@" (PyStr.strip inside)) as (p & ps & ->).
        rewrite (getitem_last p ps EmptyString). cbn [mbind result_bind].
        eexists. split; [reflexivity|]. split; [discriminate|].
        simpl. congruence.
      * cbn [mbind result_bind]. eexists. split; [reflexivity|].
        split; [discriminate|]. reflexivity.
    + cbn [mbind result_bind].
      destruct (PyStr.contains "@" (PyStr.strip sender)) eqn:Hat.
      * destruct (split_nonempty "@" (PyStr.strip sender)) as (p & ps & ->).
        rewrite (getitem_last p ps EmptyString). cbn [mbind result_bind].
        eexists. split; [reflexivity|]. split; [auto|]. simpl. congruence.
      * cbn [mbind result_bind]. eexists. split; [reflexivity|]. auto.
  - cbn [mbind result_bind].
    destruct (PyStr.contains "@" (PyStr.strip sender)) eqn:Hat.
    + destruct (split_nonempty "@" (PyStr.strip sender)) as (p & ps & ->).
      rewrite (getitem_last p ps EmptyString). cbn [mbind result_bind].
      eexists. split; [reflexivity|]. split; [auto|]. simpl. congruence.
    + cbn [mbind result_bind]. eexists. split; [reflexivity|]. auto.
Qed.

Lemma check_sender_total (sender : string) :
  exists found, PatternMatcher._check_sender sender = Ok found.
Proof.
  unfold PatternMatcher._check_sender.
  destruct (PyStr.contains "<" sender) eqn:Hlt; simpl andb; [|eauto].
  destruct (PyStr.contains ">" sender) eqn:Hgt; [|eauto].
  destruct (split_two "<" sender Hlt) as (first & second & parts & ->).
  rewrite getitem_first, getitem_second. cbn [mbind result_bind].
  destruct (split_nonempty ">" second) as (inside & rest & ->).
  rewrite getitem_first. cbn [mbind result_bind]. eauto.
Qed.

Lemma check_total (parsed : ParsedEmail) :
  exists found, PatternMatcher.check parsed = Ok found.
Proof.
  unfold PatternMatcher.check.
  destruct (check_sender_total (sender parsed)) as (found & ->).
  cbn [mbind result_bind]. eauto.
Qed.

(** ** The parser *)

(** the record that [parse] builds, read off the code *)
Lemma parse_total (env : Env) (sender subject body : string)
      (headers : option (list (string * string))) (st : State) :
  exists parsed,
    EmailParser.parse env sender subject body headers st = (Ok parsed, tick st)
    /\ Parsed.sender parsed = sender
    /\ Parsed.subject parsed = subject
    /\ Parsed.body parsed = body
    /\ Parsed.headers parsed = default [] headers
    /\ urls parsed = EmailParser._extract_urls body
    /\ attachments parsed = EmailParser._extract_attachments env body headers
    /\ header_info parsed = option_map EmailParser._parse_headers (EmailParser.given headers)
    /\ sent_at_odd_hour parsed = EmailParser._check_odd_hour env headers
    /\ reply_to_mismatch parsed = EmailParser._check_reply_to headers sender
    /\ EmailParser._parse_sender sender
       = Ok {| EmailParser.sp_display := sender_display parsed;
               EmailParser.sp_email := sender_email parsed;
               EmailParser.sp_spoofed := sender_spoofed parsed;
               EmailParser.sp_domain := sender_domain parsed |}.
Proof.
  destruct (parse_sender_total sender) as (parts & Hparts & _).
  unfold EmailParser.parse, mbind, M_bind, now, lift, mret, M_ret.
  rewrite Hparts. eexists. split; [reflexivity|].
  cbn. destruct parts; repeat split; reflexivity.
Qed.

(** ** The language-model collaborator *)

Lemma analyze_returns (env : Env) (sender subject body : string) (config : Config)
      (st : State) :
  exists answer st',
    GPTAnalyzer.analyze env sender subject body config st = (Ok answer, st')
    /\ stdout st' = stdout st /\ clock st' = clock st.
Proof.
  unfold GPTAnalyzer.analyze.
  destruct (cache st !! GPTAnalyzer._get_cache_key env sender subject body) as [cached|].
  - eauto.
  - unfold try_except, mbind, M_bind, GPTAnalyzer.create_completion,
      GPTAnalyzer.cache_store, mret, M_ret.
    destruct (chat_completion env _ _ _ _ _ _); eauto.
Qed.

(** ** Floats stay finite

    A float operation on operands of bounded magnitude gives zero or a finite
    float, never an infinity or a NaN; the magnitude of the result grows by
    one binary digit at most. *)

Section FloatBounds.

Lemma digits_log2 (m : positive) : PyFloat.digits m = Z.log2 (Z.pos m) + 1.
Proof.
  unfold PyFloat.digits.
  assert (forall p, digits2_pos p = Pos.size p) as Hsize
    by (induction p; simpl; congruence).
  rewrite Hsize. destruct m; simpl; lia.
Qed.

Lemma Zdigits2_log2 (m : Z) : 0 < m -> Zdigits2 m = Z.log2 m + 1.
Proof. destruct m; try lia. intros _. apply digits_log2. Qed.

Lemma shr_1_div2 (mrs : shr_record) :
  0 <= shr_m mrs -> shr_m (shr_1 mrs) = Z.shiftr (shr_m mrs) 1.
Proof.
  rewrite <- Z.div2_spec.
  destruct mrs as [[|[p|p|]|p] r s]; simpl; try reflexivity; lia.
Qed.

Lemma iter_shr_1 (p : positive) (mrs : shr_record) :
  0 <= shr_m mrs ->
  shr_m (SpecFloat.iter_pos shr_1 p mrs) = Z.shiftr (shr_m mrs) (Z.pos p).
Proof.
  revert mrs. induction p as [p IH|p IH|]; intros mrs Hm; simpl SpecFloat.iter_pos.
  - assert (0 <= shr_m (shr_1 mrs)) as H1
      by (rewrite shr_1_div2 by lia; apply Z.shiftr_nonneg; lia).
    assert (0 <= shr_m (SpecFloat.iter_pos shr_1 p (shr_1 mrs))) as H2
      by (rewrite IH by lia; apply Z.shiftr_nonneg; lia).
    rewrite IH, IH, shr_1_div2 by lia.
    rewrite !Z.shiftr_shiftr by lia. f_equal. lia.
  - assert (0 <= shr_m (SpecFloat.iter_pos shr_1 p mrs)) as H1
      by (rewrite IH by lia; apply Z.shiftr_nonneg; lia).
    rewrite IH, IH by lia.
    rewrite !Z.shiftr_shiftr by lia. f_equal. lia.
  - apply shr_1_div2. lia.
Qed.

(** the exponent function of binary64 *)
Lemma fexp_64 (e : Z) : fexp PyFloat.prec PyFloat.emax e = Z.max (e - 53) (-1074).
Proof. reflexivity. Qed.

Lemma shr_record_of_loc_m (m : Z) (l : location) : shr_m (shr_record_of_loc m l) = m.
Proof. destruct l as [|[]]; reflexivity. Qed.

Lemma shr_fexp_spec (m e : Z) (l : location) :
  0 <= m ->
  snd (shr_fexp PyFloat.prec PyFloat.emax m e l)
  = Z.max e (fexp PyFloat.prec PyFloat.emax (Zdigits2 m + e))
  /\ shr_m (fst (shr_fexp PyFloat.prec PyFloat.emax m e l))
     = Z.shiftr m (snd (shr_fexp PyFloat.prec PyFloat.emax m e l) - e).
Proof.
  intros Hm. unfold shr_fexp, shr.
  destruct (fexp PyFloat.prec PyFloat.emax (Zdigits2 m + e) - e) as [|p|p] eqn:Hn;
    cbn [fst snd].
  - rewrite Z.sub_diag, Z.shiftr_0_r.
    split; [lia | apply shr_record_of_loc_m].
  - rewrite iter_shr_1, shr_record_of_loc_m by (rewrite shr_record_of_loc_m; lia).
    split; [lia | f_equal; lia].
  - rewrite Z.sub_diag, Z.shiftr_0_r.
    split; [lia | apply shr_record_of_loc_m].
Qed.

Lemma fits_shiftr (m e k n : Z) :
  0 <= m -> 0 <= n -> PyFloat.fits m e k -> PyFloat.fits (Z.shiftr m n) (e + n) k.
Proof.
  intros Hm Hn [->|Hfit]; [left; apply Z.shiftr_0_l|].
  destruct (Z.eq_dec (Z.shiftr m n) 0) as [Hz|Hnz]; [left; exact Hz|right].
  assert (0 <= Z.shiftr m n) by (apply Z.shiftr_nonneg; lia).
  assert (0 < m) by (destruct (Z.eq_dec m 0) as [->|]; [rewrite Z.shiftr_0_l in Hnz|]; lia).
  assert (~ Z.log2 m < n) as Hlog.
  { intros Hlt. apply Hnz. apply Z.shiftr_eq_0_iff. right. split; lia. }
  rewrite Zdigits2_log2 in Hfit by lia.
  rewrite Zdigits2_log2, Z.log2_shiftr by lia. lia.
Qed.

Lemma round_nearest_even_cases (m : Z) (l : location) :
  round_nearest_even m l = m \/ round_nearest_even m l = m + 1.
Proof. destruct l as [|[]]; simpl; auto. destruct (Z.even m); auto. Qed.

Lemma Zdigits2_succ (m : Z) : 0 <= m -> Zdigits2 (m + 1) <= Zdigits2 m + 1.
Proof.
  intros Hm. destruct (Z.eq_dec m 0) as [->|]; [simpl; lia|].
  rewrite !Zdigits2_log2 by lia.
  pose proof (Z.log2_succ_le m). unfold Z.succ in *. lia.
Qed.

Lemma fits_round (m e d : Z) (l : location) :
  0 <= m -> PyFloat.fits m e d -> e + 1 <= d + 1 ->
  PyFloat.fits (round_nearest_even m l) e (d + 1).
Proof.
  intros Hm Hfit He.
  destruct (round_nearest_even_cases m l) as [->| ->].
  - destruct Hfit as [Hz|Hfit]; [left; exact Hz | right; lia].
  - right. destruct Hfit as [->|Hfit]; [simpl; lia|].
    pose proof (Zdigits2_succ m Hm). lia.
Qed.

Lemma round_aux_below (s : bool) (mx : positive) (ex k : Z) :
  PyFloat.digits mx + ex <= k -> -1074 <= k -> k <= 972 ->
  PyFloat.below (k + 1)
    (binary_round_aux PyFloat.prec PyFloat.emax s (Z.pos mx) ex loc_Exact).
Proof.
  intros Hd Hlo Hhi. unfold binary_round_aux.
  assert (1 <= PyFloat.digits mx) as Hpos by (unfold PyFloat.digits; lia).
  destruct (shr_fexp_spec (Z.pos mx) ex loc_Exact ltac:(lia)) as [He1 Hm1].
  destruct (shr_fexp PyFloat.prec PyFloat.emax (Z.pos mx) ex loc_Exact) as [mrs1 e1].
  cbn [fst snd] in He1, Hm1. rewrite fexp_64 in He1.
  change (Zdigits2 (Z.pos mx)) with (PyFloat.digits mx) in He1.
  assert (0 <= shr_m mrs1) as Hnn1 by (rewrite Hm1; apply Z.shiftr_nonneg; lia).
  assert (PyFloat.fits (shr_m mrs1) e1 (Z.max (PyFloat.digits mx + ex) (-1074))) as Hfit1.
  { rewrite Hm1. replace e1 with (ex + (e1 - ex)) at 2 by lia.
    apply fits_shiftr; [lia | lia | right].
    change (Zdigits2 (Z.pos mx)) with (PyFloat.digits mx). lia. }
  set (m2 := round_nearest_even (shr_m mrs1) (loc_of_shr_record mrs1)).
  assert (PyFloat.fits m2 e1 (Z.max (PyFloat.digits mx + ex) (-1074) + 1)) as Hfit2
    by (apply fits_round; [exact Hnn1 | exact Hfit1 | lia]).
  assert (0 <= m2) as Hnn2.
  { subst m2. destruct (round_nearest_even_cases (shr_m mrs1) (loc_of_shr_record mrs1))
      as [->| ->]; lia. }
  destruct (shr_fexp_spec m2 e1 loc_Exact Hnn2) as [He2 Hm2].
  destruct (shr_fexp PyFloat.prec PyFloat.emax m2 e1 loc_Exact) as [mrs2 e2].
  cbn [fst snd] in He2, Hm2. rewrite fexp_64 in He2.
  assert (PyFloat.fits (shr_m mrs2) e2 (Z.max (PyFloat.digits mx + ex) (-1074) + 1)) as Hfit3.
  { rewrite Hm2. replace e2 with (e1 + (e2 - e1)) at 2 by lia.
    apply fits_shiftr; [lia | lia | exact Hfit2]. }
  destruct (shr_m mrs2) as [|m|m] eqn:Hres.
  - exact I.
  - destruct Hfit3 as [Hz|Hfit3]; [discriminate Hz|].
    assert (m2 <> 0) as Hnz by (intros Hz; rewrite Hz, Z.shiftr_0_l in Hm2; discriminate Hm2).
    destruct Hfit2 as [Hz|Hfit2]; [contradiction|].
    replace (e2 <=? PyFloat.emax - PyFloat.prec) with true
      by (symmetry; apply Z.leb_le; unfold PyFloat.emax, PyFloat.prec; lia).
    change (Zdigits2 (Z.pos m)) with (PyFloat.digits m) in Hfit3.
    unfold PyFloat.below. lia.
  - assert (0 <= Z.neg m) by (rewrite Hm2; apply Z.shiftr_nonneg; lia). lia.
Qed.

Lemma below_mono (k k' : Z) (x : spec_float) :
  k <= k' -> PyFloat.below k x -> PyFloat.below k' x.
Proof. destruct x; simpl; auto. lia. Qed.

Lemma digits_shift (m : positive) (d : positive) :
  PyFloat.digits (Pos.iter xO m d) = PyFloat.digits m + Z.pos d.
Proof.
  unfold PyFloat.digits. induction d as [|d IH] using Pos.peano_ind.
  - simpl. lia.
  - rewrite Pos.iter_succ. simpl digits2_pos. lia.
Qed.

Lemma shl_align_digits (m : positive) (e e' : Z) :
  PyFloat.digits (fst (shl_align m e e')) + snd (shl_align m e e')
  = PyFloat.digits m + e
  /\ snd (shl_align m e e') = Z.min e e'.
Proof.
  unfold shl_align. destruct (e' - e) as [|d|d] eqn:Hd; cbn [fst snd];
    rewrite ?digits_shift; lia.
Qed.

Lemma round_below (s : bool) (m : positive) (e k : Z) :
  PyFloat.digits m + e <= k -> -1074 <= k -> k <= 972 ->
  PyFloat.below (k + 1) (binary_round PyFloat.prec PyFloat.emax s m e).
Proof.
  intros Hd Hlo Hhi. unfold binary_round.
  destruct (shl_align_digits m e
              (fexp PyFloat.prec PyFloat.emax (Z.pos (digits2_pos m) + e))) as [Hsame _].
  destruct (shl_align m e _) as [mz ez]. cbn [fst snd] in Hsame.
  apply round_aux_below; lia.
Qed.

Lemma digits_le (m : positive) (k : Z) :
  0 <= k -> Z.pos m < 2 ^ k -> PyFloat.digits m <= k.
Proof.
  intros Hk Hlt. rewrite digits_log2.
  assert (Z.log2 (Z.pos m) < k) by (apply Z.log2_lt_pow2; lia). lia.
Qed.

Lemma digits_spec (m : positive) : Z.pos m < 2 ^ PyFloat.digits m.
Proof.
  rewrite digits_log2.
  pose proof (Z.log2_spec (Z.pos m) ltac:(lia)). unfold Z.succ in *. lia.
Qed.

Lemma normalize_below (z e k : Z) (szero : bool) :
  0 <= k - e -> Z.abs z < 2 ^ (k - e) -> -1074 <= k -> k <= 972 ->
  PyFloat.below (k + 1) (binary_normalize PyFloat.prec PyFloat.emax z e szero).
Proof.
  intros Hk Hz Hlo Hhi. destruct z as [|m|m]; [exact I| |];
    apply round_below; try lia;
    pose proof (digits_le m (k - e) Hk ltac:(lia)); lia.
Qed.

Lemma nearest_below (z k : Z) :
  0 <= k <= 972 -> Z.abs z < 2 ^ k -> PyFloat.below (k + 1) (PyFloat.nearest z).
Proof.
  intros Hk Hz. apply normalize_below; rewrite ?Z.sub_0_r; lia.
Qed.

Lemma of_int_below (z k : Z) :
  0 <= k <= 972 -> Z.abs z < 2 ^ k ->
  PyFloat.of_int z = Ok (PyFloat.nearest z) /\ PyFloat.below (k + 1) (PyFloat.nearest z).
Proof.
  intros Hk Hz. pose proof (nearest_below z k Hk Hz) as Hb.
  split; [|exact Hb]. unfold PyFloat.of_int.
  destruct (PyFloat.nearest z); try reflexivity. destruct Hb.
Qed.

Lemma fmul_below (a b : Z) (x y : spec_float) :
  PyFloat.below a x -> PyFloat.below b y -> -1074 <= a + b -> a + b <= 972 ->
  PyFloat.below (a + b + 1) (PyFloat.fmul x y).
Proof.
  intros Hx Hy Hlo Hhi.
  destruct x as [sx|sx| |sx mx ex], y as [sy|sy| |sy my ey];
    simpl in Hx, Hy; try contradiction; try exact I.
  unfold PyFloat.fmul, SFmul. apply round_aux_below; try lia.
  assert (PyFloat.digits (mx * my) <= PyFloat.digits mx + PyFloat.digits my).
  { rewrite !digits_log2. rewrite Pos2Z.inj_mul.
    pose proof (Z.log2_mul_above (Z.pos mx) (Z.pos my) ltac:(lia) ltac:(lia)). lia. }
  lia.
Qed.

Lemma aligned_bound (m : positive) (e ez a : Z) :
  PyFloat.digits m + e <= a -> ez <= e ->
  Z.pos (fst (shl_align m e ez)) < 2 ^ (a - ez).
Proof.
  intros Ha Hle.
  destruct (shl_align_digits m e ez) as [Hsame Hmin].
  pose proof (digits_spec (fst (shl_align m e ez))) as Hlt.
  assert (1 <= PyFloat.digits (fst (shl_align m e ez))) by (unfold PyFloat.digits; lia).
  eapply Z.lt_le_trans; [exact Hlt|]. apply Z.pow_le_mono_r; lia.
Qed.

Lemma fadd_below (a b : Z) (x y : spec_float) :
  PyFloat.below a x -> PyFloat.below b y ->
  -1075 <= Z.max a b -> Z.max a b <= 971 ->
  PyFloat.below (Z.max a b + 2) (PyFloat.fadd x y).
Proof.
  intros Hx Hy Hlo Hhi.
  destruct x as [sx|sx| |sx mx ex], y as [sy|sy| |sy my ey];
    simpl in Hx, Hy; try contradiction.
  - destruct sx, sy; exact I.
  - simpl. lia.
  - simpl. lia.
  - unfold PyFloat.fadd, SFadd.
    set (ez := Z.min ex ey).
    assert (1 <= PyFloat.digits mx /\ 1 <= PyFloat.digits my) as [Hdx Hdy]
      by (unfold PyFloat.digits; lia).
    pose proof (aligned_bound mx ex ez (Z.max a b) ltac:(lia) ltac:(lia)) as Hbx.
    pose proof (aligned_bound my ey ez (Z.max a b) ltac:(lia) ltac:(lia)) as Hby.
    replace (Z.max a b + 2) with ((Z.max a b + 1) + 1) by lia.
    apply normalize_below; try lia.
    replace (Z.max a b + 1 - ez) with (Z.succ (Z.max a b - ez)) by lia.
    rewrite Z.pow_succ_r by lia.
    destruct sx, sy; simpl cond_Zopp; lia.
Qed.
End FloatBounds.

(** ** The risk score *)

Lemma bonus_factors_each (parsed_data : ParsedEmail) :
  RiskScorer._calculate_bonus_factors parsed_data = Spec.bonus_each parsed_data.
Proof.
  unfold RiskScorer._calculate_bonus_factors, Spec.bonus_each.
  rewrite fold_left_add.
  destruct (sent_at_odd_hour parsed_data), (reply_to_mismatch parsed_data),
           (3 <? external_images_count parsed_data); lia.
Qed.

Lemma bonus_each_bounds (parsed_data : ParsedEmail) :
  0 <= Spec.bonus_each parsed_data
       <= 20 * Z.of_nat (length (attachments parsed_data)) + 30.
Proof.
  unfold Spec.bonus_each.
  pose proof (filter_length_le RiskScorer.dangerous (attachments parsed_data)).
  destruct (sent_at_odd_hour parsed_data), (reply_to_mismatch parsed_data),
           (3 <? external_images_count parsed_data); lia.
Qed.

Lemma weights_below :
  PyFloat.below (-1) RiskScorer.weight_gpt_score
  /\ PyFloat.below (-1) RiskScorer.weight_pattern_matches
  /\ PyFloat.below (-1) RiskScorer.weight_url_suspicious
  /\ PyFloat.below (-1) RiskScorer.weight_sender_trust.
Proof. repeat split; vm_compute; discriminate. Qed.

(** a component: an integer below [2 ^ k] in magnitude times a weight below 1/2 *)
Lemma component_below (z k : Z) (w : spec_float) :
  0 <= k <= 972 -> Z.abs z < 2 ^ k -> PyFloat.below (-1) w ->
  PyFloat.int_times z w = Ok (PyFloat.fmul (PyFloat.nearest z) w)
  /\ PyFloat.below (k + 1) (PyFloat.fmul (PyFloat.nearest z) w).
Proof.
  intros Hk Hz Hw. destruct (of_int_below z k Hk Hz) as [Hconv Hb].
  unfold PyFloat.int_times. rewrite Hconv. split; [reflexivity|].
  replace (k + 1) with ((k + 1) + (-1) + 1) by lia.
  apply fmul_below; try assumption; lia.
Qed.

Lemma scaled_count_bound (count factor : Z) :
  - 2 ^ 900 < count -> 0 < factor <= 32 ->
  Z.abs (Z.min (count * factor) 100) < 2 ^ 905.
Proof.
  intros Hc Hf. change (2 ^ 905) with (32 * 2 ^ 900).
  assert (128 <= 2 ^ 900) by (change 128 with (2 ^ 7); apply Z.pow_le_mono_r; lia).
  nia.
Qed.

Lemma final_score_finite (gpt_score pattern_matches suspicious_urls : Z)
      (parsed_data : ParsedEmail) :
  Z.abs gpt_score < 2 ^ 900 -> - 2 ^ 900 < pattern_matches ->
  - 2 ^ 900 < suspicious_urls ->
  Z.of_nat (length (attachments parsed_data)) < 2 ^ 64 ->
  let total :=
    PyFloat.fadd (Spec.weighted_sum gpt_score pattern_matches suspicious_urls parsed_data)
                 (PyFloat.nearest (Spec.bonus_each parsed_data)) in
  RiskScorer.final_score gpt_score pattern_matches suspicious_urls parsed_data = Ok total
  /\ PyFloat.below 915 total.
Proof.
  intros Hg Hp Hu Hatt total.
  destruct weights_below as (Hw1 & Hw2 & Hw3 & Hw4).
  pose proof (sender_trust_range (sender parsed_data)) as Hs.
  pose proof (bonus_each_bounds parsed_data) as Hb.
  destruct (component_below gpt_score 900 _ ltac:(lia) Hg Hw1) as [E1 B1].
  destruct (component_below (Z.min (pattern_matches * 15) 100) 905 _ ltac:(lia)
              (scaled_count_bound _ 15 Hp ltac:(lia)) Hw2) as [E2 B2].
  destruct (component_below (Z.min (suspicious_urls * 30) 100) 905 _ ltac:(lia)
              (scaled_count_bound _ 30 Hu ltac:(lia)) Hw3) as [E3 B3].
  destruct (component_below (RiskScorer._calculate_sender_trust (sender parsed_data)) 7 _
              ltac:(lia) ltac:(change (2 ^ 7) with 128; lia) Hw4) as [E4 B4].
  assert (Z.abs (Spec.bonus_each parsed_data) < 2 ^ 70) as Hb70.
  { change (2 ^ 70) with (2 ^ 64 * 64). change (2 ^ 64) with 18446744073709551616 in *. lia. }
  destruct (of_int_below _ 70 ltac:(lia) Hb70) as [E5 B5].
  unfold RiskScorer.final_score.
  rewrite E1. cbn [mbind result_bind]. rewrite E2. cbn [mbind result_bind].
  rewrite E3. cbn [mbind result_bind]. rewrite E4. cbn [mbind result_bind].
  rewrite bonus_factors_each. unfold PyFloat.plus_int. rewrite E5.
  cbn [mbind result_bind]. split; [reflexivity|].
  subst total. unfold Spec.weighted_sum, PyFloat.sum. cbn [fold_left].
  pose proof (fadd_below 0 901 PyFloat.zero _ I B1 ltac:(lia) ltac:(lia)) as S1.
  pose proof (fadd_below _ 906 _ _ S1 B2 ltac:(lia) ltac:(lia)) as S2.
  pose proof (fadd_below _ 906 _ _ S2 B3 ltac:(lia) ltac:(lia)) as S3.
  pose proof (fadd_below _ 8 _ _ S3 B4 ltac:(lia) ltac:(lia)) as S4.
  pose proof (fadd_below _ 71 _ _ S4 B5 ltac:(lia) ltac:(lia)) as S5.
  eapply below_mono; [|exact S5]. lia.
Qed.

Lemma to_int_below (k : Z) (x : spec_float) :
  PyFloat.below k x -> exists n, PyFloat.to_int x = Ok n.
Proof. destruct x; simpl; intros H; try contradiction; eauto. Qed.

(** [int(x)] is the integer part: it has the sign of [x] and leaves less than
    one unit of magnitude behind *)
Lemma truncate_towards_zero (s : bool) (m : positive) (e : Z) :
  let n := PyFloat.truncate s m e in
  (if s then n <= 0 else 0 <= n)
  /\ (0 <= e -> Z.abs n = Z.pos m * 2 ^ e)
  /\ (e < 0 -> Z.abs n * 2 ^ (- e) <= Z.pos m < (Z.abs n + 1) * 2 ^ (- e)).
Proof.
  intros n. subst n. unfold PyFloat.truncate.
  destruct (Z.leb_spec 0 e) as [He|He].
  - assert (0 < 2 ^ e) by (apply Z.pow_pos_nonneg; lia).
    destruct s; simpl cond_Zopp; repeat split; intros; try lia; nia.
  - assert (0 < 2 ^ (- e)) as Hq by (apply Z.pow_pos_nonneg; lia).
    pose proof (Z.div_pos (Z.pos m) (2 ^ (- e)) ltac:(lia) Hq) as Hnn.
    pose proof (Z.mul_div_le (Z.pos m) (2 ^ (- e)) Hq) as Hlo.
    pose proof (Z.mul_succ_div_gt (Z.pos m) (2 ^ (- e)) Hq) as Hhi.
    unfold Z.succ in Hhi.
    destruct s; simpl cond_Zopp; repeat split; intros; try lia;
      rewrite ?Z.abs_opp, Z.abs_eq by lia; lia.
Qed.

(** whatever [calculate] returns lies in 0..100 *)
Lemma calculate_range (gpt_score pattern_matches suspicious_urls : Z)
      (parsed_data : ParsedEmail) (score : Z) :
  RiskScorer.calculate gpt_score pattern_matches suspicious_urls parsed_data = Ok score ->
  0 <= score <= 100.
Proof.
  unfold RiskScorer.calculate.
  destruct (RiskScorer.final_score _ _ _ _) as [final|]; cbn [mbind result_bind];
    [|discriminate].
  destruct (PyFloat.to_int final) as [n|]; cbn [mbind result_bind]; [|discriminate].
  intros [= <-]. lia.
Qed.

(** within the bounds the score is the clamped integer part of the float sum *)
Lemma calculate_returns (gpt_score pattern_matches suspicious_urls : Z)
      (parsed_data : ParsedEmail) :
  Z.abs gpt_score < 2 ^ 900 -> - 2 ^ 900 < pattern_matches ->
  - 2 ^ 900 < suspicious_urls ->
  Z.of_nat (length (attachments parsed_data)) < 2 ^ 64 ->
  exists n,
    PyFloat.to_int
      (PyFloat.fadd
         (Spec.weighted_sum gpt_score pattern_matches suspicious_urls parsed_data)
         (PyFloat.nearest (Spec.bonus_each parsed_data))) = Ok n
    /\ RiskScorer.calculate gpt_score pattern_matches suspicious_urls parsed_data
       = Ok (Spec.clamp n).
Proof.
  intros Hg Hp Hu Hatt.
  destruct (final_score_finite gpt_score pattern_matches suspicious_urls parsed_data
              Hg Hp Hu Hatt) as [Hfinal Hbelow].
  destruct (to_int_below _ _ Hbelow) as (n & Hn).
  exists n. split; [exact Hn|].
  unfold RiskScorer.calculate. rewrite Hfinal. cbn [mbind result_bind].
  rewrite Hn. reflexivity.
Qed.

(** C2, as the code has it: whatever [calculate] returns lies in 0..100; the
    bonus is 20 for each dangerous attachment, 5 for an odd hour, 15 for a
    reply-to mismatch and 10 for more than three external images; and for
    an LLM score below 2^900 in magnitude, counts above -2^900 and fewer than
    2^64 attachments [calculate] returns the integer part (towards zero, not
    the nearest integer) of the weighted sum plus the bonus, clamped to
    0..100. *)
Theorem calculate_truncates_and_clamps
        (gpt_score pattern_matches suspicious_urls : Z) (parsed_data : ParsedEmail) :
  (forall score,
      RiskScorer.calculate gpt_score pattern_matches suspicious_urls parsed_data
      = Ok score -> 0 <= score <= 100)
  /\ RiskScorer._calculate_bonus_factors parsed_data
     = 20 * Z.of_nat (length (List.filter RiskScorer.dangerous (attachments parsed_data)))
       + (if sent_at_odd_hour parsed_data then 5 else 0)
       + (if reply_to_mismatch parsed_data then 15 else 0)
       + (if 3 <? external_images_count parsed_data then 10 else 0)
  /\ (Z.abs gpt_score < 2 ^ 900 -> - 2 ^ 900 < pattern_matches ->
      - 2 ^ 900 < suspicious_urls ->
      Z.of_nat (length (attachments parsed_data)) < 2 ^ 64 ->
      exists n,
        PyFloat.to_int
          (PyFloat.fadd
             (Spec.weighted_sum gpt_score pattern_matches suspicious_urls parsed_data)
             (PyFloat.nearest (RiskScorer._calculate_bonus_factors parsed_data))) = Ok n
        /\ RiskScorer.calculate gpt_score pattern_matches suspicious_urls parsed_data
           = Ok (Z.max 0 (Z.min 100 n))).
Proof.
  split; [intros score; apply calculate_range|].
  split; [apply bonus_factors_each|].
  rewrite bonus_factors_each. apply calculate_returns.
Qed.

Lemma calculate_truncates_and_clamps_witness :
  RiskScorer.calculate 70 3 2 (Spec.bare "test@suspicious.com" ["invoice.exe"; "a.zip"])
  = Ok 91.
Proof.
  destruct (calculate_truncates_and_clamps 70 3 2
              (Spec.bare "test@suspicious.com" ["invoice.exe"; "a.zip"]))
    as (_ & _ & Hreturns).
  destruct Hreturns as (n & Hn & Hcalc).
  - vm_compute. reflexivity.
  - vm_compute. reflexivity.
  - vm_compute. reflexivity.
  - vm_compute. reflexivity.
  - rewrite Hcalc. f_equal. vm_compute in Hn. injection Hn as <-. reflexivity.
Defined.

(** C2 as stated fails: the score is cut off, not rounded (1.6 gives 1, the
    rounding of the specification gives 2), and every dangerous attachment
    adds 20 (two of them give 40, not 20). *)
Lemma calculate_does_not_round :
  RiskScorer.calculate 4 0 0 (Spec.bare "a@gmail.com" []) = Ok 1
  /\ Spec.rounded_score 4 0 0 (Spec.bare "a@gmail.com" []) = Ok 2
  /\ RiskScorer.calculate 0 0 0 (Spec.bare "a@gmail.com" ["a.exe"; "b.zip"]) = Ok 40
  /\ Spec.rounded_score 0 0 0 (Spec.bare "a@gmail.com" ["a.exe"; "b.zip"]) = Ok 20.
Proof. repeat split; vm_compute; reflexivity. Qed.

(** ** The detection engine *)

(** [analyze_email] step by step: the parser, the pattern matcher and the
    language model always answer; only the score can raise *)
Lemma analyze_email_steps (env : Env) (config : Config) (sender subject body : string)
      (headers : option (list (string * string))) (st : State) :
  exists parsed found answer st2,
    EmailParser.parse env sender subject body headers st = (Ok parsed, tick st)
    /\ PatternMatcher.check parsed = Ok found
    /\ GPTAnalyzer.analyze env sender subject body config (tick st) = (Ok answer, st2)
    /\ stdout st2 = stdout st
    /\ attachments parsed = EmailParser._extract_attachments env body headers
    /\ let suspicious :=
         List.filter URLValidator.is_suspicious (PhishingDetector._extract_urls body) in
       let all_threats := Spec.merged_threats found answer suspicious in
       PhishingDetector.analyze_email env config sender subject body headers st
       = match RiskScorer.calculate (default 0 (GptResult.score answer))
                 (Z.of_nat (length found)) (Z.of_nat (length suspicious)) parsed with
         | Ok score =>
             (Ok {| DetectionResult.score := score;
                    DetectionResult.risk_level :=
                      PhishingDetector._get_risk_level config score;
                    DetectionResult.threats := all_threats;
                    DetectionResult.suspicious_urls := suspicious;
                    DetectionResult.analysis := answer;
                    DetectionResult.timestamp := now_isoformat env (clock st2);
                    DetectionResult.recommendations :=
                      PhishingDetector._generate_recommendations
                        score all_threats suspicious |},
              tick st2)
         | Raise e => (Raise e, st2)
         end.
Proof.
  destruct (parse_total env sender subject body headers st)
    as (parsed & Hparse & _ & _ & _ & _ & _ & Hatt & _).
  destruct (check_total parsed) as (found & Hcheck).
  destruct (analyze_returns env sender subject body config (tick st))
    as (answer & st2 & Hanswer & Hout & _).
  exists parsed, found, answer, st2.
  repeat (split; [assumption|]).
  intros suspicious all_threats. unfold PhishingDetector.analyze_email.
  unfold mbind at 1, M_bind at 1. rewrite Hparse.
  unfold mbind at 1, M_bind at 1, lift at 1. rewrite Hcheck.
  unfold mbind at 1, M_bind at 1. rewrite Hanswer.
  unfold mbind at 1, M_bind at 1, lift at 1.
  fold suspicious.
  destruct (RiskScorer.calculate _ _ _ parsed) as [score|e]; [|reflexivity].
  unfold mbind, M_bind, now, mret, M_ret.
  assert (match suspicious with
          | [] => found ++ default [] (GptResult.threats answer)
          | _ :: _ =>
              (found ++ default [] (GptResult.threats answer))
              ++ ["⚠️ Suspicious URL detected: "
                  +:+ PyStr.str_of_Z (Z.of_nat (length suspicious)) +:+ " found"]
          end = all_threats) as ->; [|reflexivity].
  subst all_threats. unfold Spec.merged_threats.
  destruct suspicious; rewrite ?app_nil_r, ?app_assoc; reflexivity.
Qed.

(** [analyze_email] returns whenever the score of the language model and
    the number of attachments are of a size a float can hold *)
Lemma analyze_email_returns (env : Env) (config : Config) (sender subject body : string)
      (headers : option (list (string * string))) (st : State) :
  (forall answer st2,
      GPTAnalyzer.analyze env sender subject body config (tick st) = (Ok answer, st2) ->
      Z.abs (default 0 (GptResult.score answer)) < 2 ^ 900) ->
  Z.of_nat (length (EmailParser._extract_attachments env body headers)) < 2 ^ 64 ->
  exists detection st',
    PhishingDetector.analyze_email env config sender subject body headers st
    = (Ok detection, st').
Proof.
  intros Hscore Hfew.
  destruct (analyze_email_steps env config sender subject body headers st)
    as (parsed & found & answer & st2 & _ & _ & Hanswer & _ & Hatt & Hsteps).
  cbv zeta in Hsteps.
  destruct (calculate_returns (default 0 (GptResult.score answer))
              (Z.of_nat (length found))
              (Z.of_nat (length (List.filter URLValidator.is_suspicious
                                   (PhishingDetector._extract_urls body))))
              parsed)
    as (n & _ & Hcalc);
    [exact (Hscore _ _ Hanswer) | lia | lia | rewrite Hatt; exact Hfew |].
  rewrite Hcalc in Hsteps. eauto.
Qed.

Lemma unique_In (x : string) (xs : list string) : In x (PyStr.unique xs) <-> In x xs.
Proof.
  induction xs as [|y ys IH]; simpl; [tauto|].
  rewrite filter_In, IH.
  destruct (String.eqb_spec y x) as [->|Hne]; simpl; intuition congruence.
Qed.

Lemma unique_NoDup (xs : list string) : List.NoDup (PyStr.unique xs).
Proof.
  induction xs as [|x xs IH]; cbn [PyStr.unique]; constructor.
  - intros Hin. apply filter_In in Hin as [_ H].
    rewrite String.eqb_refl in H. discriminate H.
  - apply List.NoDup_filter. exact IH.
Qed.





(** C5, as the code has it: the suspicious URLs of a detection are the bare
    http(s) links of the body, in order and with repetitions, that the
    validator flags; each of them is a URL of the parsed record and is
    flagged; a flagged URL of the record is listed when it is one of the bare
    links (one that only an href attribute yields is not). *)
Theorem suspicious_urls_are_bare_links (env : Env) (config : Config)
        (sender subject body : string) (headers : option (list (string * string)))
        (st st' : State) (detection : DetectionResult.t) :
  PhishingDetector.analyze_email env config sender subject body headers st
  = (Ok detection, st') ->
  exists parsed,
    EmailParser.parse env sender subject body headers st = (Ok parsed, tick st)
    /\ DetectionResult.suspicious_urls detection
       = List.filter URLValidator.is_suspicious (PhishingDetector._extract_urls body)
    /\ (forall url, In url (DetectionResult.suspicious_urls detection) ->
                    In url (urls parsed) /\ URLValidator.is_suspicious url = true)
    /\ (forall url, In url (urls parsed) -> URLValidator.is_suspicious url = true ->
                    In url (PhishingDetector._extract_urls body) ->
                    In url (DetectionResult.suspicious_urls detection)).
Proof.
  intros Hrun.
  destruct (parse_total env sender subject body headers st)
    as (parsed & Hparse & _ & _ & _ & _ & Hurls & _).
  destruct (analyze_email_steps env config sender subject body headers st)
    as (parsed' & found & answer & st2 & Hparse' & _ & _ & _ & _ & Hsteps).
  cbv zeta in Hsteps. rewrite Hsteps in Hrun.
  destruct (RiskScorer.calculate _ _ _ parsed') as [score|e]; [|discriminate Hrun].
  injection Hrun as <- _. cbn [DetectionResult.suspicious_urls].
  exists parsed. split; [exact Hparse|]. split; [reflexivity|]. split.
  - intros url Hin. apply filter_In in Hin as [Hin Hsusp]. split; [|exact Hsusp].
    rewrite Hurls. unfold EmailParser._extract_urls. apply unique_In.
    apply in_or_app. left. exact Hin.
  - intros url _ Hsusp Hbare. apply filter_In. split; assumption.
Qed.

Lemma suspicious_urls_are_bare_links_witness :
  exists detection st',
    PhishingDetector.analyze_email Spec.offline PhishingDetector._default_config
      "a@example.org" "Hi" "go to http://bit.ly/x now" None Spec.fresh
    = (Ok detection, st')
    /\ DetectionResult.suspicious_urls detection = ["http://bit.ly/x"].
Proof.
  destruct (PhishingDetector.analyze_email Spec.offline PhishingDetector._default_config
              "a@example.org" "Hi" "go to http://bit.ly/x now" None Spec.fresh)
    as [[detection|e] st'] eqn:Hrun; [|vm_compute in Hrun; discriminate Hrun].
  exists detection, st'. split; [reflexivity|].
  destruct (suspicious_urls_are_bare_links _ _ _ _ _ _ _ _ _ Hrun)
    as (_ & _ & Hlist & _).
  rewrite Hlist. vm_compute. reflexivity.
Defined.

(** C5 as stated fails: in a single-quoted href the bare link runs over the
    closing quote, so the record holds the link with and without the quote,
    both are flagged, and only the first is listed. *)
Lemma suspicious_href_url_not_listed :
  match PhishingDetector.analyze_email Spec.offline PhishingDetector._default_config
          "a@example.org" "Hi" "<a href='http://bit.ly/x'>" None Spec.fresh,
        EmailParser.parse Spec.offline "a@example.org" "Hi" "<a href='http://bit.ly/x'>"
          None Spec.fresh with
  | (Ok detection, _), (Ok parsed, _) =>
      In "http://bit.ly/x" (urls parsed)
      /\ URLValidator.is_suspicious "http://bit.ly/x" = true
      /\ ~ In "http://bit.ly/x" (DetectionResult.suspicious_urls detection)
  | _, _ => False
  end.
Proof.
  vm_compute. split; [auto|]. split; [reflexivity|].
  intros [H|[]]. discriminate H.
Qed.

(** C8: the recommendations of a detection are never empty; a score above
    60 adds the two warnings about links and the sender, a suspicious URL adds
    the advice to hover over links, a score above 80 adds the two calls to
    report and delete, and the single default line stands exactly when no
    other rule fired. *)
Theorem recommendations_never_empty (env : Env) (config : Config)
        (sender subject body : string) (headers : option (list (string * string)))
        (st st' : State) (detection : DetectionResult.t) :
  PhishingDetector.analyze_email env config sender subject body headers st
  = (Ok detection, st') ->
  let recs := DetectionResult.recommendations detection in
  let score := DetectionResult.score detection in
  let urls := DetectionResult.suspicious_urls detection in
  recs <> []
  /\ (In "Do not click any links in this email" recs <-> 60 < score)
  /\ (In "Verify sender through official channels" recs <-> 60 < score)
  /\ (In "Hover over links to verify destinations" recs <-> urls <> [])
  /\ (In "Report this email to your security team" recs <-> 80 < score)
  /\ (In "Delete this email immediately" recs <-> 80 < score)
  /\ (In "Email appears safe but remain vigilant" recs <-> score <= 60 /\ urls = [])
  /\ (score <= 60 -> urls = [] -> recs = ["Email appears safe but remain vigilant"]).
Proof.
  intros Hrun.
  destruct (analyze_email_steps env config sender subject body headers st)
    as (parsed & found & answer & st2 & _ & _ & _ & _ & _ & Hsteps).
  cbv zeta in Hsteps. rewrite Hsteps in Hrun.
  destruct (RiskScorer.calculate _ _ _ parsed) as [score|e]; [|discriminate Hrun].
  injection Hrun as <- _.
  cbn [DetectionResult.recommendations DetectionResult.score
         DetectionResult.suspicious_urls].
  apply recommendations_ladder.
Qed.

Lemma recommendations_never_empty_witness :
  exists detection st',
    PhishingDetector.analyze_email Spec.offline PhishingDetector._default_config
      "newsletter@company.com" "Monthly Newsletter"
      "Visit our website at https://company.com for more information." None Spec.fresh
    = (Ok detection, st')
    /\ DetectionResult.recommendations detection
       = ["Email appears safe but remain vigilant"].
Proof.
  destruct (PhishingDetector.analyze_email Spec.offline PhishingDetector._default_config
              "newsletter@company.com" "Monthly Newsletter"
              "Visit our website at https://company.com for more information."
              None Spec.fresh)
    as [[detection|e] st'] eqn:Hrun; [|vm_compute in Hrun; discriminate Hrun].
  exists detection, st'. split; [reflexivity|].
  destruct (recommendations_never_empty _ _ _ _ _ _ _ _ _ Hrun)
    as (_ & _ & _ & _ & _ & _ & _ & Hdefault).
  apply Hdefault.
  - vm_compute in Hrun. injection Hrun as <- _. vm_compute. discriminate.
  - vm_compute in Hrun. injection Hrun as <- _. reflexivity.
Defined.

(** C6: when the call of the service raises, [analyze] returns the fixed
    dictionary with score 50, the single threat naming the cause and
    confidence 0.5; it raises nothing and stores nothing in the cache; and
    [analyze_email] completes with that dictionary as its analysis and the
    error among its threats. *)
Theorem analyze_falls_back (env : Env) (config : Config) (sender subject body : string)
        (headers : option (list (string * string))) (st : State) (cause : exn) :
  cache st !! GPTAnalyzer._get_cache_key env sender subject body = None ->
  chat_completion env (calls st) (model config) (temperature config) (max_tokens config)
    GPTAnalyzer._get_system_prompt (GPTAnalyzer._build_prompt sender subject body)
  = Raise cause ->
  Z.of_nat (length (EmailParser._extract_attachments env body headers)) < 2 ^ 64 ->
  let fallback :=
    {| GptResult.score := Some 50;
       GptResult.threats := Some ["Analysis error: " +:+ exn_message cause];
       GptResult.confidence := Some (S754_finite false 4503599627370496 (-53)) |} in
  (exists st',
     GPTAnalyzer.analyze env sender subject body config st = (Ok fallback, st')
     /\ cache st' = cache st)
  /\ (exists detection st',
        PhishingDetector.analyze_email env config sender subject body headers st
        = (Ok detection, st')
        /\ DetectionResult.analysis detection = fallback
        /\ In ("Analysis error: " +:+ exn_message cause)
              (DetectionResult.threats detection)
        /\ cache st' = cache st).
Proof.
  intros Hmiss Hcall Hfew fallback.
  assert (forall st1, cache st1 = cache st -> calls st1 = calls st ->
            exists st',
              GPTAnalyzer.analyze env sender subject body config st1 = (Ok fallback, st')
              /\ cache st' = cache st) as Hanalyze.
  { intros st1 Hc Hn. unfold GPTAnalyzer.analyze. rewrite Hc, Hmiss.
    unfold try_except, mbind, M_bind, GPTAnalyzer.create_completion.
    rewrite Hn, Hcall. eexists. split; [reflexivity|]. exact Hc. }
  split; [apply Hanalyze; reflexivity|].
  destruct (analyze_email_steps env config sender subject body headers st)
    as (parsed & found & answer & st2 & _ & _ & Hanswer & _ & Hatt & Hsteps).
  destruct (Hanalyze (tick st) eq_refl eq_refl) as (st2' & Hfall & Hcache).
  rewrite Hfall in Hanswer. injection Hanswer as <- <-.
  cbv zeta in Hsteps.
  destruct (calculate_returns 50
              (Z.of_nat (length found))
              (Z.of_nat (length (List.filter URLValidator.is_suspicious
                                   (PhishingDetector._extract_urls body))))
              parsed)
    as (n & _ & Hcalc); [lia | lia | lia | rewrite Hatt; exact Hfew |].
  change (default 0 (GptResult.score fallback)) with 50 in Hsteps.
  rewrite Hcalc in Hsteps.
  eexists. eexists. split; [exact Hsteps|].
  cbn [DetectionResult.analysis DetectionResult.threats]. split; [reflexivity|].
  split; [|exact Hcache].
  unfold Spec.merged_threats.
  apply in_or_app. right. apply in_or_app. left. left. reflexivity.
Qed.

Lemma analyze_falls_back_witness :
  exists detection st',
    PhishingDetector.analyze_email Spec.offline PhishingDetector._default_config
      "newsletter@company.com" "Monthly Newsletter" "Hello" None Spec.fresh
    = (Ok detection, st')
    /\ In "Analysis error: Request timed out." (DetectionResult.threats detection).
Proof.
  destruct (analyze_falls_back Spec.offline PhishingDetector._default_config
              "newsletter@company.com" "Monthly Newsletter" "Hello" None Spec.fresh
              (APIError "Request timed out."))
    as (_ & detection & st' & Hrun & _ & Hin & _).
  - reflexivity.
  - reflexivity.
  - vm_compute. reflexivity.
  - exists detection, st'. split; assumption.
Defined.

(** ** Batches *)

Lemma analyze_entry_stdout (env : Env) (config : Config) (email : entry)
      (st st' : State) (outcome : result DetectionResult.t) :
  PhishingDetector.analyze_entry env config email st = (outcome, st') ->
  stdout st' = stdout st.
Proof.
  assert (forall sender subject body headers,
            PhishingDetector.analyze_email env config sender subject body headers st
            = (outcome, st') -> stdout st' = stdout st) as Hemail.
  { intros sender subject body headers Hrun.
    destruct (analyze_email_steps env config sender subject body headers st)
      as (parsed & found & answer & st2 & _ & _ & _ & Hout & _ & Hsteps).
    cbv zeta in Hsteps. rewrite Hsteps in Hrun.
    destruct (RiskScorer.calculate _ _ _ parsed); injection Hrun as _ <-; exact Hout. }
  unfold PhishingDetector.analyze_entry, PhishingDetector.analyze_email_values.
  destruct email as [sender subject body headers|]; [|intros [= _ <-]; reflexivity].
  destruct (default (FStr EmptyString) body) as [b|]; [|intros [= _ <-]; reflexivity].
  destruct (default (FStr EmptyString) sender) as [s|],
           (default HNone headers) as [|d|],
           (default (FStr EmptyString) subject) as [j|];
    try (intros [= _ <-]; reflexivity); apply Hemail.
Qed.

Lemma malformed_raises (env : Env) (config : Config) (email : entry) (st : State) :
  Spec.malformed email = true ->
  exists e st', PhishingDetector.analyze_entry env config email st = (Raise e, st').
Proof.
  unfold PhishingDetector.analyze_entry, PhishingDetector.analyze_email_values.
  destruct email as [[[s|]|] [[j|]|] [[b|]|] [[|d|]|]|]; cbn [Spec.malformed];
    intros Hbad; try discriminate Hbad; cbn [default]; eauto.
Qed.

Lemma batch_loop_results (env : Env) (config : Config) (email_list : list entry)
      (st : State) :
  exists more st',
    (forall results,
        PhishingDetector.batch_loop env config email_list results st
        = (Ok (results ++ more), st'))
    /\ (length (stdout st) <= length (stdout st'))%nat
    /\ (length more + length (stdout st') = length email_list + length (stdout st))%nat
    /\ (existsb Spec.malformed email_list = true ->
        (length more < length email_list)%nat).
Proof.
  revert st. induction email_list as [|email rest IH]; intros st.
  - exists [], st. split; [|split; [lia|split; [reflexivity|discriminate]]].
    intros results. rewrite app_nil_r. reflexivity.
  - destruct (PhishingDetector.analyze_entry env config email st)
      as [[detection|e] st1] eqn:Hentry;
      pose proof (analyze_entry_stdout _ _ _ _ _ _ Hentry) as Hout.
    + destruct (IH st1) as (more & st' & Hloop & Hmono & Hlen & Hstrict).
      rewrite Hout in Hmono, Hlen.
      exists (detection :: more), st'. split; [|split; [|split]].
      * intros results. cbn [PhishingDetector.batch_loop].
        unfold mbind at 1, M_bind at 1, try_except, mbind at 1, M_bind at 1.
        rewrite Hentry. unfold mret, M_ret. rewrite Hloop, <- app_assoc. reflexivity.
      * lia.
      * simpl length. lia.
      * cbn [existsb]. intros Hbad. simpl length.
        destruct (Spec.malformed email) eqn:Hemail.
        -- destruct (malformed_raises env config email st Hemail) as (e & st2 & Hraise).
           rewrite Hraise in Hentry. discriminate Hentry.
        -- specialize (Hstrict Hbad). lia.
    + destruct (IH (snd (print ("Error analyzing email: " +:+ exn_message e) st1)))
        as (more & st' & Hloop & Hmono & Hlen & Hstrict).
      cbn [print snd stdout] in Hmono, Hlen. rewrite length_app, Hout in Hmono, Hlen.
      simpl length in Hmono, Hlen.
      exists more, st'. split; [|split; [|split]].
      * intros results. cbn [PhishingDetector.batch_loop].
        unfold mbind at 1, M_bind at 1, try_except, mbind at 1, M_bind at 1.
        rewrite Hentry. unfold mbind, M_bind, print, mret, M_ret. apply Hloop.
      * lia.
      * simpl length. lia.
      * intros _. simpl length. lia.
Qed.

(** C7: for a list of N entries [batch_analyze] raises nothing and returns
    at most N detections: an entry either adds a detection or prints one
    error line and is skipped, and the entries after it are still analysed;
    a list with a malformed entry gives fewer than N detections. *)
Theorem batch_skips_failures (env : Env) (config : Config) (email_list : list entry)
        (st : State) :
  exists results st',
    PhishingDetector.batch_analyze env config email_list st = (Ok results, st')
    /\ (length results <= length email_list)%nat
    /\ (length results + (length (stdout st') - length (stdout st))
        = length email_list)%nat
    /\ (existsb Spec.malformed email_list = true ->
        (length results < length email_list)%nat)
    /\ (forall email rest,
          email_list = email :: rest ->
          match PhishingDetector.analyze_entry env config email st with
          | (Ok detection, st1) =>
              exists more,
                PhishingDetector.batch_analyze env config rest st1 = (Ok more, st')
                /\ results = detection :: more
          | (Raise e, st1) =>
              PhishingDetector.batch_analyze env config rest
                (snd (print ("Error analyzing email: " +:+ exn_message e) st1))
              = (Ok results, st')
          end).
Proof.
  destruct (batch_loop_results env config email_list st)
    as (results & st' & Hloop & Hmono & Hlen & Hstrict).
  exists results, st'. unfold PhishingDetector.batch_analyze.
  split; [apply (Hloop [])|]. split; [lia|]. split; [lia|]. split; [exact Hstrict|].
  intros email rest ->. specialize (Hloop []). cbn [app] in Hloop.
  cbn [PhishingDetector.batch_loop] in Hloop.
  unfold mbind at 1, M_bind at 1, try_except, mbind at 1, M_bind at 1 in Hloop.
  destruct (PhishingDetector.analyze_entry env config email st) as [[detection|e] st1].
  - unfold mret, M_ret in Hloop.
    destruct (batch_loop_results env config rest st1) as (more & st'' & Hrest & _).
    rewrite (Hrest ([] ++ [detection])) in Hloop. injection Hloop as <- <-.
    exists more. split; [apply (Hrest [])|reflexivity].
  - unfold mbind, M_bind, print, mret, M_ret in Hloop. exact Hloop.
Qed.

Lemma batch_skips_failures_witness :
  exists results st',
    PhishingDetector.batch_analyze Spec.offline PhishingDetector._default_config
      [Email (Some (FStr "a@example.org")) None (Some (FStr "hello")) None;
       NotADict;
       Email (Some (FStr "b@example.org")) (Some (FStr "Hi")) (Some (FStr "bye")) None]
      Spec.fresh
    = (Ok results, st')
    /\ (length results < 3)%nat.
Proof.
  destruct (batch_skips_failures Spec.offline PhishingDetector._default_config
              [Email (Some (FStr "a@example.org")) None (Some (FStr "hello")) None;
               NotADict;
               Email (Some (FStr "b@example.org")) (Some (FStr "Hi")) (Some (FStr "bye")) None]
              Spec.fresh)
    as (results & st' & Hrun & _ & _ & Hstrict & _).
  exists results, st'. split; [exact Hrun|]. apply Hstrict. reflexivity.
Defined.

(** ** The URL validator *)

Lemma replace_absent (old new s : string) :
  PyStr.contains old s = false -> PyStr.replace old new s = s.
Proof.
  unfold PyStr.replace. induction s as [|c s IH]; [reflexivity|].
  cbn [PyStr.contains PyStr.replace_from]. intros H.
  apply orb_false_iff in H as [Hhere Hlater].
  rewrite Hhere, (IH Hlater). reflexivity.
Qed.

(** a domain is never similar to itself *)
Lemma similar_domain_irreflexive (domain : string) (subs : list (string * string)) :
  URLValidator._is_similar_domain domain domain subs = false.
Proof. unfold URLValidator._is_similar_domain. rewrite String.eqb_refl. reflexivity. Qed.

(** two different domains with the same second-level label are similar as
    soon as one substitution leaves the label as it is *)
Lemma same_label_is_similar (domain legitimate : string) :
  domain <> legitimate ->
  (2 <= length (PyStr.split "." domain))%nat ->
  (2 <= length (PyStr.split "." legitimate))%nat ->
  URLValidator.second_last (PyStr.split "." domain)
  = URLValidator.second_last (PyStr.split "." legitimate) ->
  PyStr.contains "0" (URLValidator.second_last (PyStr.split "." domain)) = false ->
  URLValidator._is_similar_domain domain legitimate URLValidator.substitutions = true.
Proof.
  intros Hne Hd Hl Hsame Hzero. unfold URLValidator._is_similar_domain.
  destruct (String.eqb_spec domain legitimate) as [|_]; [contradiction|].
  replace (2 <=? length (PyStr.split "." domain))%nat with true
    by (symmetry; apply Nat.leb_le; exact Hd).
  replace (2 <=? length (PyStr.split "." legitimate))%nat with true
    by (symmetry; apply Nat.leb_le; exact Hl).
  cbn [andb URLValidator.substitutions existsb].
  rewrite (replace_absent "0" "o" _ Hzero), Hsame, String.eqb_refl. reflexivity.
Qed.

(** a label one edit away from a legitimate label, or equal to it after one
    substitution, makes the domain similar *)
Lemma near_label_is_similar (domain legitimate : string) :
  domain <> legitimate ->
  (2 <= length (PyStr.split "." domain))%nat ->
  (2 <= length (PyStr.split "." legitimate))%nat ->
  let domain_main := URLValidator.second_last (PyStr.split "." domain) in
  let legit_main := URLValidator.second_last (PyStr.split "." legitimate) in
  URLValidator._levenshtein_distance domain_main legit_main = 1%nat
  \/ (exists old new, In (old, new) URLValidator.substitutions
                      /\ PyStr.replace old new domain_main = legit_main) ->
  URLValidator._is_similar_domain domain legitimate URLValidator.substitutions = true.
Proof.
  intros Hne Hd Hl domain_main legit_main Hnear. unfold URLValidator._is_similar_domain.
  destruct (String.eqb_spec domain legitimate) as [|_]; [contradiction|].
  replace (2 <=? length (PyStr.split "." domain))%nat with true
    by (symmetry; apply Nat.leb_le; exact Hd).
  replace (2 <=? length (PyStr.split "." legitimate))%nat with true
    by (symmetry; apply Nat.leb_le; exact Hl).
  cbn [andb]. fold domain_main legit_main.
  destruct (existsb _ URLValidator.substitutions) eqn:Hsub; [reflexivity|].
  destruct Hnear as [Hlev|(old & new & Hin & Hrep)].
  - rewrite Hlev. reflexivity.
  - assert (existsb (fun '(old, new) =>
                       String.eqb (PyStr.replace old new domain_main) legit_main)
                    URLValidator.substitutions = true) as Htrue.
    { apply existsb_exists. exists (old, new). split; [exact Hin|].
      rewrite Hrep. apply String.eqb_refl. }
    rewrite Htrue in Hsub. discriminate Hsub.
Qed.

Lemma similar_is_homograph (domain company legitimate : string) (legit_domains : list string) :
  In (company, legit_domains) URLValidator.legitimate_domains ->
  In legitimate legit_domains ->
  URLValidator._is_similar_domain domain legitimate URLValidator.substitutions = true ->
  URLValidator._has_homograph_attack domain = true.
Proof.
  intros Htable Hin Hsimilar. unfold URLValidator._has_homograph_attack.
  apply existsb_exists. exists (company, legit_domains). split; [exact Htable|].
  apply existsb_exists. exists legitimate. split; assumption.
Qed.

Lemma homograph_is_suspicious (url : string) (parsed : UrlLib.ParseResult) :
  UrlLib.urlparse (PyStr.lower (UrlLib.unquote url)) = Ok parsed ->
  URLValidator._has_homograph_attack (UrlLib.netloc parsed) = true ->
  URLValidator.is_suspicious url = true.
Proof.
  intros Hparse Hhomograph. unfold URLValidator.is_suspicious.
  rewrite Hparse. unfold URLValidator.any. cbn [existsb].
  rewrite Hhomograph. rewrite !orb_true_r. reflexivity.
Qed.

(** C1 on the code: the URL https://amazon.com/products of the legitimate
    domain amazon.com is flagged.  No other rule fires; the homograph rule
    does, because amazon.com and the legitimate amazon.de have the same label
    amazon and the substitution of 0 by o leaves it unchanged.  The shortener
    URL http://bit.ly/x is flagged and https://google.com is not. *)
Theorem legitimate_amazon_url_is_flagged :
  URLValidator.is_suspicious "https://amazon.com/products" = true
  /\ UrlLib.urlparse "https://amazon.com/products"
     = Ok {| UrlLib.scheme := "https"; UrlLib.netloc := "amazon.com";
             UrlLib.path := "/products"; UrlLib.params := EmptyString;
             UrlLib.query := EmptyString; UrlLib.fragment := EmptyString |}
  /\ URLValidator._is_similar_domain "amazon.com" "amazon.de" URLValidator.substitutions
     = true
  /\ URLValidator._has_homograph_attack "amazon.com" = true
  /\ URLValidator._is_url_shortener "amazon.com" = false
  /\ URLValidator._has_suspicious_tld "amazon.com" = false
  /\ URLValidator._is_ip_address "amazon.com" = false
  /\ URLValidator._has_subdomain_spoofing "amazon.com" = false
  /\ URLValidator._has_suspicious_path "/products" = false
  /\ URLValidator._has_multiple_redirects "https://amazon.com/products" = false
  /\ URLValidator.is_suspicious "http://bit.ly/x" = true
  /\ URLValidator.is_suspicious "https://google.com" = false.
Proof. repeat split; vm_compute; reflexivity. Qed.

(** the legitimate domains that the validator flags, by the rule that fires:
    the homograph rule (a second legitimate domain with the same label), the
    subdomain rule (a country-code suffix) and the shortener rule (t.co is a
    substring of microsoft.com, and lnkd.in is in both tables) *)
Lemma flagged_legitimate_domains :
  let legitimate := concat (map snd URLValidator.legitimate_domains) in
  List.filter (fun domain => URLValidator.is_suspicious ("https://" +:+ domain)) legitimate
  = ["amazon.com"; "amazon.co.uk"; "amazon.de"; "paypal.com"; "paypal.me";
     "microsoft.com"; "lnkd.in"]
  /\ List.filter URLValidator._has_homograph_attack legitimate
     = ["amazon.com"; "amazon.de"; "paypal.com"; "paypal.me"]
  /\ List.filter URLValidator._has_subdomain_spoofing legitimate = ["amazon.co.uk"]
  /\ List.filter URLValidator._is_url_shortener legitimate = ["microsoft.com"; "lnkd.in"].
Proof. repeat split; vm_compute; reflexivity. Qed.

(** ** The unit tests of the repository, evaluated on the embedding

    [tests/test_detector.py] holds on the embedding, except the second
    assertion of [test_legitimate_urls], which the theorem above refutes. *)

Lemma test_url_validator :
  (* test_url_shortener_detection *)
  URLValidator.is_suspicious "http://bit.ly/abc123" = true
  /\ URLValidator.is_suspicious "https://tinyurl.com/test" = true
  (* test_ip_address_detection *)
  /\ URLValidator.is_suspicious "http://192.168.1.1/login" = true
  /\ URLValidator.is_suspicious "https://10.0.0.1:8080/account" = true
  (* test_suspicious_tld *)
  /\ URLValidator.is_suspicious "http://example.tk" = true
  /\ URLValidator.is_suspicious "https://test.click" = true
  (* test_legitimate_urls, first assertion *)
  /\ URLValidator.is_suspicious "https://google.com" = false.
Proof. repeat split; vm_compute; reflexivity. Qed.

Lemma test_email_parser :
  (* test_parse_sender *)
  EmailParser._parse_sender "John Doe <john@example.com>"
  = Ok {| EmailParser.sp_display := "John Doe";
          EmailParser.sp_email := "john@example.com";
          EmailParser.sp_spoofed := None;
          EmailParser.sp_domain := Some "example.com" |}
  (* test_urgency_detection *)
  /\ EmailParser._detect_urgency "URGENT: Act now or your account expires immediately!"
     = true
  /\ EmailParser._detect_urgency "Thank you for your recent purchase" = false
  (* test_url_extraction *)
  /\ length (EmailParser._extract_urls
               ("Click <a href=" +:+ String dquote "http://example.com" +:+ String dquote ">here</a> or visit https://test.org"))
     = 2%nat
  (* test_extract_urls of the detector *)
  /\ PhishingDetector._extract_urls "Visit https://example.com and http://test.org for more"
     = ["https://example.com"; "http://test.org"].
Proof. repeat split; vm_compute; reflexivity. Qed.

Lemma test_pattern_matcher :
  (* test_urgency_detection *)
  PatternMatcher._check_subject "URGENT: Act Now!"
  = ["Multiple urgency indicators in subject"]
  (* test_spoofed_sender *)
  /\ PatternMatcher._check_sender "security@amaz0n-alerts.com"
     = Ok ["⚠️ Possible Amazon spoofing detected"]
  (* test_suspicious_phrases *)
  /\ PatternMatcher._check_body "Click here immediately to verify your account"
     = ["Suspicious phrase: 'click here immediately'";
        "Suspicious phrase: 'verify your account'"].
Proof. repeat split; vm_compute; reflexivity. Qed.

Lemma test_risk_scorer_and_detector :
  (* test_score_calculation *)
  RiskScorer.calculate 70 3 2 (Spec.bare "test@suspicious.com" []) = Ok 51
  (* test_sender_trust *)
  /\ RiskScorer._calculate_sender_trust "support@amazon.com" = 0
  /\ RiskScorer._calculate_sender_trust "alert@amaz0n-security.com" = 50
  (* test_risk_level *)
  /\ PhishingDetector._get_risk_level PhishingDetector._default_config 20 = LOW
  /\ PhishingDetector._get_risk_level PhishingDetector._default_config 50 = MEDIUM
  /\ PhishingDetector._get_risk_level PhishingDetector._default_config 70 = HIGH
  /\ PhishingDetector._get_risk_level PhishingDetector._default_config 90 = CRITICAL.
Proof. repeat split; vm_compute; reflexivity. Qed.

(** * Further properties of the code *)

(** ** Texts: prefixes, occurrences, splitting and joining *)

Section Texts.

Lemma append_cons (c : ascii) (a b : string) : String c a +:+ b = String c (a +:+ b).
Proof. reflexivity. Qed.

Lemma append_nil (b : string) : EmptyString +:+ b = b.
Proof. reflexivity. Qed.

Lemma append_assoc (a b c : string) : (a +:+ b) +:+ c = a +:+ (b +:+ c).
Proof.
  induction a as [|x a IH]; [reflexivity|]. rewrite !append_cons, IH. reflexivity.
Qed.

Lemma append_empty_r (a : string) : a +:+ EmptyString = a.
Proof. induction a as [|x a IH]; [reflexivity|]. rewrite append_cons, IH. reflexivity. Qed.

Lemma append_length (a b : string) :
  String.length (a +:+ b) = (String.length a + String.length b)%nat.
Proof.
  induction a as [|x a IH]; [reflexivity|]. rewrite append_cons. simpl. rewrite IH. reflexivity.
Qed.

Lemma prefix_empty (s : string) : String.prefix EmptyString s = true.
Proof. destruct s; reflexivity. Qed.

Lemma prefix_app (p s : string) : String.prefix p (p +:+ s) = true.
Proof.
  induction p as [|c p IH]; [apply prefix_empty|].
  rewrite append_cons. simpl. destruct (ascii_dec c c); [exact IH | contradiction].
Qed.

Lemma prefix_inv (p s : string) :
  String.prefix p s = true -> exists rest, s = p +:+ rest.
Proof.
  revert s. induction p as [|c p IH]; intros s.
  - intros _. exists s. reflexivity.
  - destruct s as [|a s]; [discriminate|]. simpl.
    destruct (ascii_dec c a) as [->|]; [|discriminate].
    intros H. destruct (IH s H) as (rest & ->). exists rest. reflexivity.
Qed.

Lemma contains_prefix (sub s : string) :
  String.prefix sub s = true -> PyStr.contains sub s = true.
Proof. intros H. destruct s; cbn [PyStr.contains]; rewrite H; reflexivity. Qed.

Lemma contains_app (pre sub post : string) :
  PyStr.contains sub (pre +:+ sub +:+ post) = true.
Proof.
  induction pre as [|c pre IH].
  - rewrite append_nil. apply contains_prefix, prefix_app.
  - rewrite append_cons. cbn [PyStr.contains]. rewrite IH. apply orb_true_r.
Qed.

Lemma contains_inv (sub s : string) :
  PyStr.contains sub s = true -> exists pre post, s = pre +:+ sub +:+ post.
Proof.
  induction s as [|c s IH]; cbn [PyStr.contains]; intros H.
  - rewrite orb_false_r in H. destruct (prefix_inv _ _ H) as (rest & ->).
    exists EmptyString, rest. reflexivity.
  - apply orb_true_iff in H as [H|H].
    + destruct (prefix_inv _ _ H) as (rest & ->). exists EmptyString, rest. reflexivity.
    + destruct (IH H) as (pre & post & ->). exists (String c pre), post. reflexivity.
Qed.

(** an occurrence of an occurrence is an occurrence *)
Lemma contains_trans (a b c : string) :
  PyStr.contains a b = true -> PyStr.contains b c = true -> PyStr.contains a c = true.
Proof.
  intros Hab Hbc.
  destruct (contains_inv _ _ Hab) as (p1 & q1 & ->).
  destruct (contains_inv _ _ Hbc) as (p2 & q2 & ->).
  replace (p2 +:+ (p1 +:+ a +:+ q1) +:+ q2) with ((p2 +:+ p1) +:+ a +:+ (q1 +:+ q2))
    by (rewrite !append_assoc; reflexivity).
  apply contains_app.
Qed.

Lemma count_app (c : ascii) (a b : string) :
  PyStr.count c (a +:+ b) = PyStr.count c a + PyStr.count c b.
Proof.
  induction a as [|x a IH]; [reflexivity|].
  rewrite append_cons. cbn [PyStr.count]. rewrite IH. lia.
Qed.

Lemma count_nonneg (c : ascii) (s : string) : 0 <= PyStr.count c s.
Proof. induction s as [|x s IH]; simpl; [lia|]. destruct (Ascii.eqb x c); lia. Qed.

Lemma contains_char (c : ascii) (s : string) :
  PyStr.contains (String c EmptyString) s = (0 <? PyStr.count c s).
Proof.
  induction s as [|a s IH]; [reflexivity|].
  cbn [PyStr.contains PyStr.count]. rewrite prefix_char, IH.
  pose proof (count_nonneg c s).
  destruct (Ascii.eqb a c); simpl orb.
  - symmetry. apply Z.ltb_lt. lia.
  - reflexivity.
Qed.

Lemma lower_app (a b : string) : PyStr.lower (a +:+ b) = PyStr.lower a +:+ PyStr.lower b.
Proof.
  induction a as [|x a IH]; [reflexivity|].
  rewrite append_cons. cbn [PyStr.lower]. rewrite IH. reflexivity.
Qed.

Lemma lower_char_idempotent (c : ascii) :
  PyStr.lower_char (PyStr.lower_char c) = PyStr.lower_char c.
Proof. destruct c as [[] [] [] [] [] [] [] []]; reflexivity. Qed.

Lemma lower_idempotent (s : string) : PyStr.lower (PyStr.lower s) = PyStr.lower s.
Proof.
  induction s as [|x s IH]; simpl; [reflexivity|].
  rewrite IH, lower_char_idempotent. reflexivity.
Qed.

Lemma lower_length (s : string) : String.length (PyStr.lower s) = String.length s.
Proof. induction s as [|x s IH]; simpl; [reflexivity|]. rewrite IH. reflexivity. Qed.

(** *** Splitting at a separator *)

Lemma split_append (sep : ascii) (a b : string) :
  PyStr.split sep (a +:+ String sep b) = PyStr.split sep a ++ PyStr.split sep b.
Proof.
  induction a as [|c a IH].
  - rewrite append_nil. cbn [PyStr.split]. rewrite Ascii.eqb_refl. reflexivity.
  - rewrite append_cons. cbn [PyStr.split]. rewrite IH.
    destruct (Ascii.eqb c sep); [reflexivity|].
    destruct (split_nonempty sep a) as (part & parts & ->). reflexivity.
Qed.

Lemma split_without (sep : ascii) (s : string) :
  PyStr.count sep s = 0 -> PyStr.split sep s = [s].
Proof.
  induction s as [|c s IH]; [reflexivity|].
  cbn [PyStr.count PyStr.split]. pose proof (count_nonneg sep s) as Hnn.
  destruct (Ascii.eqb c sep); [lia|]. intros Hzero. rewrite IH by lia. reflexivity.
Qed.

Lemma split_parts_without (sep : ascii) (s part : string) :
  In part (PyStr.split sep s) -> PyStr.count sep part = 0.
Proof.
  revert part. induction s as [|c s IH]; intros part.
  - intros [<-|[]]. reflexivity.
  - cbn [PyStr.split]. destruct (Ascii.eqb c sep) eqn:Hc.
    + intros [<-|Hin]; [reflexivity | apply IH; exact Hin].
    + destruct (split_nonempty sep s) as (first & rest & E). rewrite E in *.
      intros [<-|Hin].
      * cbn [PyStr.count]. rewrite Hc. rewrite (IH first); [reflexivity | left; reflexivity].
      * apply IH. right. exact Hin.
Qed.

Lemma split_length (sep : ascii) (s : string) :
  Z.of_nat (length (PyStr.split sep s)) = PyStr.count sep s + 1.
Proof.
  induction s as [|c s IH]; [reflexivity|].
  cbn [PyStr.split PyStr.count].
  destruct (Ascii.eqb c sep).
  - simpl length. lia.
  - destruct (split_nonempty sep s) as (first & rest & E). rewrite E in *.
    simpl length in *. lia.
Qed.

Lemma join_cons (sep : string) (c : ascii) (part : string) (parts : list string) :
  PyStr.join sep (String c part :: parts) = String c (PyStr.join sep (part :: parts)).
Proof. destruct parts; reflexivity. Qed.

(** joining the parts of a split gives the text back *)
Lemma join_split (sep : ascii) (s : string) :
  PyStr.join (String sep EmptyString) (PyStr.split sep s) = s.
Proof.
  induction s as [|c s IH]; [reflexivity|].
  cbn [PyStr.split]. destruct (split_nonempty sep s) as (first & rest & E).
  rewrite E in *. destruct (Ascii.eqb_spec c sep) as [->|_]; cbv iota.
  - change (PyStr.join (String sep EmptyString) (EmptyString :: first :: rest))
      with (EmptyString +:+ String sep EmptyString
                        +:+ PyStr.join (String sep EmptyString) (first :: rest)).
    rewrite append_nil, append_cons, append_nil, IH. reflexivity.
  - rewrite join_cons, IH. reflexivity.
Qed.

(** splitting a join of parts without the separator gives the parts back *)
Lemma split_join (sep : ascii) (part : string) (parts : list string) :
  Forall (fun p => PyStr.count sep p = 0) (part :: parts) ->
  PyStr.split sep (PyStr.join (String sep EmptyString) (part :: parts)) = part :: parts.
Proof.
  revert part. induction parts as [|next parts IH]; intros part Hall.
  - apply split_without. inversion Hall. assumption.
  - inversion Hall as [|? ? Hpart Hrest]. subst.
    change (PyStr.join (String sep EmptyString) (part :: next :: parts))
      with (part +:+ String sep EmptyString
                 +:+ PyStr.join (String sep EmptyString) (next :: parts)).
    rewrite append_cons, append_nil.
    rewrite split_append, (split_without sep part Hpart), (IH next Hrest). reflexivity.
Qed.

End Texts.

(** ** The edit distance *)

Section EditDistance.

Lemma distance_nil_l (b : list ascii) : Spec.distance [] b = length b.
Proof. destruct b; reflexivity. Qed.

Lemma distance_nil_r (a : list ascii) : Spec.distance a [] = length a.
Proof. destruct a; reflexivity. Qed.

Lemma distance_cons (c d : ascii) (a b : list ascii) :
  Spec.distance (c :: a) (d :: b)
  = Nat.min (Spec.distance a (d :: b) + 1)
            (Nat.min (Spec.distance (c :: a) b + 1)
                     (Spec.distance a b + (if Ascii.eqb c d then 0 else 1))).
Proof. reflexivity. Qed.

Lemma edits_insert_all (b : list ascii) : Spec.edits (length b) [] b.
Proof. induction b; simpl; constructor; assumption. Qed.

Lemma edits_delete_all (a : list ascii) : Spec.edits (length a) a [].
Proof. induction a; simpl; constructor; assumption. Qed.

Lemma edits_refl (a : list ascii) : Spec.edits 0 a a.
Proof. induction a; constructor; assumption. Qed.

(** the recurrence is the cost of some alignment *)
Lemma edits_distance (a b : list ascii) : Spec.edits (Spec.distance a b) a b.
Proof.
  revert b. induction a as [|c a IHa]; intros b.
  - rewrite distance_nil_l. apply edits_insert_all.
  - induction b as [|d b IHb].
    + rewrite distance_nil_r. apply edits_delete_all.
    + rewrite distance_cons.
      destruct (Nat.min_spec (Spec.distance a (d :: b) + 1)
                  (Nat.min (Spec.distance (c :: a) b + 1)
                     (Spec.distance a b + (if Ascii.eqb c d then 0 else 1))))
        as [[_ ->]|[_ ->]].
      * rewrite Nat.add_1_r. apply Spec.edits_delete, IHa.
      * destruct (Nat.min_spec (Spec.distance (c :: a) b + 1)
                    (Spec.distance a b + (if Ascii.eqb c d then 0 else 1)))
          as [[_ ->]|[_ ->]].
        -- rewrite Nat.add_1_r. apply Spec.edits_insert, IHb.
        -- destruct (Ascii.eqb_spec c d) as [->|_].
           ++ rewrite Nat.add_0_r. apply Spec.edits_keep, IHa.
           ++ rewrite Nat.add_1_r. apply Spec.edits_substitute, IHa.
Qed.

(** and no alignment costs less *)
Lemma distance_least (n : nat) (a b : list ascii) :
  Spec.edits n a b -> (Spec.distance a b <= n)%nat.
Proof.
  induction 1 as [|c a b n _ IH|c d a b n _ IH|c a b n _ IH|d a b n _ IH].
  - simpl. lia.
  - rewrite distance_cons, Ascii.eqb_refl. lia.
  - rewrite distance_cons. destruct (Ascii.eqb c d); lia.
  - destruct b as [|d b].
    + rewrite distance_nil_r in *. simpl. lia.
    + rewrite distance_cons. lia.
  - destruct a as [|c a].
    + rewrite distance_nil_l in *. simpl. lia.
    + rewrite distance_cons. lia.
Qed.

Lemma edits_app (n m : nat) (a b c d : list ascii) :
  Spec.edits n a b -> Spec.edits m c d -> Spec.edits (n + m) (a ++ c) (b ++ d).
Proof.
  intros Hab Hcd. induction Hab; simpl; try (constructor; assumption). exact Hcd.
Qed.

Lemma edits_rev (n : nat) (a b : list ascii) :
  Spec.edits n a b -> Spec.edits n (rev a) (rev b).
Proof.
  induction 1 as [|c a b n _ IH|c d a b n _ IH|c a b n _ IH|d a b n _ IH]; simpl.
  - constructor.
  - rewrite <- (Nat.add_0_r n). apply edits_app; [exact IH | apply edits_refl].
  - rewrite <- Nat.add_1_r. apply edits_app; [exact IH|]. repeat constructor.
  - rewrite <- Nat.add_1_r, <- (app_nil_r (rev b)).
    apply edits_app; [exact IH|]. repeat constructor.
  - rewrite <- Nat.add_1_r, <- (app_nil_r (rev a)).
    apply edits_app; [exact IH|]. repeat constructor.
Qed.

Lemma edits_sym (n : nat) (a b : list ascii) : Spec.edits n a b -> Spec.edits n b a.
Proof. induction 1; constructor; assumption. Qed.

Lemma edits_zero (n : nat) (a b : list ascii) : Spec.edits n a b -> n = 0%nat -> a = b.
Proof. induction 1; intros Hn; try discriminate Hn; [reflexivity|]. f_equal. auto. Qed.

Lemma edits_lengths (n : nat) (a b : list ascii) :
  Spec.edits n a b -> (length a <= length b + n /\ length b <= length a + n)%nat.
Proof. induction 1; simpl; lia. Qed.

(** the edits of two texts in a row are edits of the first into the last *)
Lemma edits_trans (n : nat) (a b : list ascii) :
  Spec.edits n a b ->
  forall (m : nat) (c : list ascii),
    Spec.edits m b c -> exists k, (k <= n + m)%nat /\ Spec.edits k a c.
Proof.
  induction 1 as [|x a b n _ IH|x y a b n _ IH|x a b n _ IH|y a b n _ IH]; intros m c Hbc.
  - exists m. split; [lia | exact Hbc].
  - remember (x :: b) as xb eqn:Exb. revert Exb.
    induction Hbc as [|z b' c' m Hbc _|z w b' c' m Hbc _|z b' c' m Hbc _|w b' c' m Hbc IHin];
      intros Exb; try discriminate Exb.
    + injection Exb as -> ->. destruct (IH _ _ Hbc) as (k & Hk & Hac).
      exists k. split; [lia | constructor; exact Hac].
    + injection Exb as -> ->. destruct (IH _ _ Hbc) as (k & Hk & Hac).
      exists (S k). split; [lia | constructor; exact Hac].
    + injection Exb as -> ->. destruct (IH _ _ Hbc) as (k & Hk & Hac).
      exists (S k). split; [lia | constructor; exact Hac].
    + destruct (IHin Exb) as (k & Hk & Hac).
      exists (S k). split; [lia | constructor; exact Hac].
  - remember (y :: b) as yb eqn:Eyb. revert Eyb.
    induction Hbc as [|z b' c' m Hbc _|z w b' c' m Hbc _|z b' c' m Hbc _|w b' c' m Hbc IHin];
      intros Eyb; try discriminate Eyb.
    + injection Eyb as -> ->. destruct (IH _ _ Hbc) as (k & Hk & Hac).
      exists (S k). split; [lia | constructor; exact Hac].
    + injection Eyb as -> ->. destruct (IH _ _ Hbc) as (k & Hk & Hac).
      exists (S k). split; [lia | constructor; exact Hac].
    + injection Eyb as -> ->. destruct (IH _ _ Hbc) as (k & Hk & Hac).
      exists (S k). split; [lia | constructor; exact Hac].
    + destruct (IHin Eyb) as (k & Hk & Hac).
      exists (S k). split; [lia | constructor; exact Hac].
  - destruct (IH _ _ Hbc) as (k & Hk & Hac).
    exists (S k). split; [lia | constructor; exact Hac].
  - remember (y :: b) as yb eqn:Eyb. revert Eyb.
    induction Hbc as [|z b' c' m Hbc _|z w b' c' m Hbc _|z b' c' m Hbc _|w b' c' m Hbc IHin];
      intros Eyb; try discriminate Eyb.
    + injection Eyb as -> ->. destruct (IH _ _ Hbc) as (k & Hk & Hac).
      exists (S k). split; [lia | constructor; exact Hac].
    + injection Eyb as -> ->. destruct (IH _ _ Hbc) as (k & Hk & Hac).
      exists (S k). split; [lia | constructor; exact Hac].
    + injection Eyb as -> ->. destruct (IH _ _ Hbc) as (k & Hk & Hac).
      exists k. split; [lia | exact Hac].
    + destruct (IHin Eyb) as (k & Hk & Hac).
      exists (S k). split; [lia | constructor; exact Hac].
Qed.

Lemma distance_rev (a b : list ascii) :
  Spec.distance (rev a) (rev b) = Spec.distance a b.
Proof.
  apply Nat.le_antisymm.
  - apply distance_least, edits_rev, edits_distance.
  - rewrite <- (rev_involutive a), <- (rev_involutive b) at 1.
    apply distance_least, edits_rev, edits_distance.
Qed.

Lemma distance_sym (a b : list ascii) : Spec.distance a b = Spec.distance b a.
Proof.
  apply Nat.le_antisymm; apply distance_least, edits_sym, edits_distance.
Qed.

(** *** The rows of the dynamic programme *)

Lemma row_head (ra rq : list ascii) (r : string) :
  exists rest, Spec.row ra rq r = Spec.distance ra rq :: rest.
Proof. destruct r; simpl; eauto. Qed.

Lemma levenshtein_row_spec (c1 : ascii) (ra : list ascii) (r : string) :
  forall rq,
    URLValidator.levenshtein_row c1 r (Spec.row ra rq r) (Spec.distance (c1 :: ra) rq)
    = tl (Spec.row (c1 :: ra) rq r).
Proof.
  induction r as [|c2 r IH]; intros rq; [reflexivity|].
  cbn [Spec.row]. destruct (row_head ra (c2 :: rq) r) as (rest & E).
  rewrite E. cbn [URLValidator.levenshtein_row tl]. rewrite <- E.
  rewrite <- distance_cons, IH.
  destruct (row_head (c1 :: ra) (c2 :: rq) r) as (rest' & ->). reflexivity.
Qed.

Lemma levenshtein_rows_spec (s1 s2 : string) :
  forall ra,
    URLValidator.levenshtein_rows s1 (length ra) s2 (Spec.row ra [] s2)
    = Spec.row (rev (list_ascii_of_string s1) ++ ra) [] s2.
Proof.
  induction s1 as [|c1 s1 IH]; intros ra; [reflexivity|].
  cbn [URLValidator.levenshtein_rows list_ascii_of_string rev].
  rewrite <- app_assoc. cbn [app]. rewrite <- (IH (c1 :: ra)).
  replace (length ra + 1)%nat with (Spec.distance (c1 :: ra) [])
    by (rewrite distance_nil_r; simpl; lia).
  rewrite levenshtein_row_spec.
  destruct (row_head (c1 :: ra) [] s2) as (rest & E). rewrite E. cbn [tl].
  rewrite <- E. reflexivity.
Qed.

Lemma first_row (s2 : string) (rq : list ascii) :
  seq (length rq) (String.length s2 + 1) = Spec.row [] rq s2.
Proof.
  revert rq. induction s2 as [|c s2 IH]; intros rq.
  - simpl. rewrite distance_nil_l. reflexivity.
  - cbn [String.length Spec.row]. rewrite distance_nil_l.
    cbn [Nat.add seq]. f_equal. apply (IH (c :: rq)).
Qed.

Lemma last_of_row (ra rq : list ascii) (r : string) :
  List.last (Spec.row ra rq r) 0%nat
  = Spec.distance ra (rev (list_ascii_of_string r) ++ rq).
Proof.
  revert rq. induction r as [|c r IH]; intros rq; [reflexivity|].
  cbn [Spec.row list_ascii_of_string rev]. rewrite <- app_assoc. cbn [app].
  rewrite <- IH. destruct (row_head ra (c :: rq) r) as (rest & ->). reflexivity.
Qed.

Lemma chars_length (s : string) : length (list_ascii_of_string s) = String.length s.
Proof. induction s; simpl; congruence. Qed.

Lemma chars_inj (s t : string) : list_ascii_of_string s = list_ascii_of_string t -> s = t.
Proof.
  intros H. rewrite <- (string_of_list_ascii_of_string s), H.
  apply string_of_list_ascii_of_string.
Qed.

Lemma rows_distance (s1 s2 : string) :
  List.last (URLValidator.levenshtein_rows s1 0 s2 (seq 0 (String.length s2 + 1))) 0%nat
  = Spec.distance (list_ascii_of_string s1) (list_ascii_of_string s2).
Proof.
  change (seq 0 (String.length s2 + 1)) with (seq (length (@nil ascii)) (String.length s2 + 1)).
  rewrite (first_row s2 []).
  change 0%nat with (length (@nil ascii)) at 1.
  rewrite (levenshtein_rows_spec s1 s2 []).
  rewrite last_of_row, !app_nil_r. apply distance_rev.
Qed.

(** [_levenshtein_distance] computes the recurrence of the edit distance *)
Lemma levenshtein_distance_spec (s1 s2 : string) :
  URLValidator._levenshtein_distance s1 s2
  = Spec.distance (list_ascii_of_string s1) (list_ascii_of_string s2).
Proof.
  assert (forall a b,
             (if (String.length b =? 0)%nat then String.length a
              else List.last (URLValidator.levenshtein_rows a 0 b
                                (seq 0 (String.length b + 1))) 0%nat)
             = Spec.distance (list_ascii_of_string a) (list_ascii_of_string b)) as Hcore.
  { intros a b. destruct b as [|c b].
    - simpl. rewrite distance_nil_r. symmetry. apply chars_length.
    - cbn [String.length Nat.eqb]. apply rows_distance. }
  unfold URLValidator._levenshtein_distance.
  destruct (String.length s1 <? String.length s2)%nat.
  - rewrite Hcore. apply distance_sym.
  - apply Hcore.
Qed.

End EditDistance.

Section Urls.

Lemma all_chars_app (p : ascii -> bool) (a b : string) :
  UrlLib.all_chars p (a +:+ b) = UrlLib.all_chars p a && UrlLib.all_chars p b.
Proof.
  induction a as [|c a IH]; [reflexivity|].
  rewrite append_cons. cbn [UrlLib.all_chars]. rewrite IH. apply andb_assoc.
Qed.

Lemma all_chars_impl (p q : ascii -> bool) (s : string) :
  (forall c, p c = true -> q c = true) ->
  UrlLib.all_chars p s = true -> UrlLib.all_chars q s = true.
Proof.
  intros Hpq. induction s as [|c s IH]; [reflexivity|].
  cbn [UrlLib.all_chars]. intros H. apply andb_true_iff in H as [Hc Hs].
  rewrite (Hpq c Hc), (IH Hs). reflexivity.
Qed.

Lemma all_chars_lower (p : ascii -> bool) (s : string) :
  (forall c, p (PyStr.lower_char c) = p c) ->
  UrlLib.all_chars p (PyStr.lower s) = UrlLib.all_chars p s.
Proof.
  intros Hp. induction s as [|c s IH]; [reflexivity|].
  cbn [PyStr.lower UrlLib.all_chars]. rewrite Hp, IH. reflexivity.
Qed.

Lemma host_char_lower (c : ascii) :
  Spec.host_char (PyStr.lower_char c) = Spec.host_char c.
Proof. destruct c as [[] [] [] [] [] [] [] []]; reflexivity. Qed.

Lemma plain_host_lower (host : string) :
  Spec.plain_host (PyStr.lower host) = Spec.plain_host host.
Proof. apply all_chars_lower, host_char_lower. Qed.

Lemma url_tail_lower (tail : string) :
  Spec.url_tail (PyStr.lower tail) = Spec.url_tail tail.
Proof.
  destruct tail as [|c tail]; [reflexivity|]. cbn [PyStr.lower Spec.url_tail].
  destruct c as [[] [] [] [] [] [] [] []]; reflexivity.
Qed.

(** without a percent sign nothing is unquoted *)
Lemma unquote_plain (host rest : string) :
  Spec.plain_host host = true ->
  UrlLib.unquote (host +:+ rest) = host +:+ UrlLib.unquote rest.
Proof.
  induction host as [|c host IH]; [reflexivity|].
  unfold Spec.plain_host. cbn [UrlLib.all_chars]. intros H.
  apply andb_true_iff in H as [Hc Hhost].
  rewrite !append_cons. cbn [UrlLib.unquote].
  destruct (Ascii.eqb_spec c "%") as [->|_]; [discriminate Hc|].
  rewrite (IH Hhost). reflexivity.
Qed.

Lemma unquote_scheme (secure : bool) (rest : string) :
  UrlLib.unquote ((if secure then "https://" else "http://") +:+ rest)
  = (if secure then "https://" else "http://") +:+ UrlLib.unquote rest.
Proof. destruct secure; reflexivity. Qed.

Lemma unquote_tail (tail : string) :
  Spec.url_tail tail = true -> Spec.url_tail (UrlLib.unquote tail) = true.
Proof.
  destruct tail as [|c tail]; [reflexivity|].
  cbn [Spec.url_tail UrlLib.unquote].
  destruct (Ascii.eqb_spec c "%") as [->|_]; [discriminate|].
  intros H. exact H.
Qed.

Lemma remove_chars_plain (p : ascii -> bool) (host rest : string) :
  UrlLib.all_chars (fun c => negb (p c)) host = true ->
  UrlLib.remove_chars p (host +:+ rest) = host +:+ UrlLib.remove_chars p rest.
Proof.
  induction host as [|c host IH]; [reflexivity|].
  cbn [UrlLib.all_chars]. intros H. apply andb_true_iff in H as [Hc Hhost].
  rewrite !append_cons. cbn [UrlLib.remove_chars].
  apply negb_true_iff in Hc. rewrite Hc, (IH Hhost). reflexivity.
Qed.

Lemma break_plain (p : ascii -> bool) (host rest : string) :
  UrlLib.all_chars (fun c => negb (p c)) host = true ->
  match rest with EmptyString => true | String c _ => p c end = true ->
  UrlLib.break p (host +:+ rest) = (host, rest).
Proof.
  intros Hhost Hrest. induction host as [|c host IH].
  - rewrite append_nil. destruct rest as [|c rest]; [reflexivity|].
    cbn [UrlLib.break]. rewrite Hrest. reflexivity.
  - cbn [UrlLib.all_chars] in Hhost. apply andb_true_iff in Hhost as [Hc Hhost].
    rewrite append_cons. cbn [UrlLib.break].
    apply negb_true_iff in Hc. rewrite Hc, (IH Hhost). reflexivity.
Qed.

Lemma not_contains_char (c : ascii) (s : string) :
  UrlLib.all_chars (fun a => negb (Ascii.eqb a c)) s = true ->
  PyStr.contains (String c EmptyString) s = false.
Proof.
  induction s as [|a s IH]; [reflexivity|].
  cbn [UrlLib.all_chars PyStr.contains]. intros H.
  apply andb_true_iff in H as [Ha Hs]. apply negb_true_iff in Ha.
  rewrite prefix_char, Ha, (IH Hs). reflexivity.
Qed.

Lemma remove_chars_tail (tail : string) :
  Spec.url_tail tail = true ->
  Spec.url_tail
    (UrlLib.remove_chars
       (fun c => Ascii.eqb c (ascii_of_N 9) || Ascii.eqb c (ascii_of_N 10)
                 || Ascii.eqb c (ascii_of_N 13)) tail) = true.
Proof.
  destruct tail as [|c tail]; [reflexivity|].
  cbn [Spec.url_tail UrlLib.remove_chars existsb]. intros H.
  destruct (Ascii.eqb_spec c "/") as [->|_]; [reflexivity|].
  destruct (Ascii.eqb_spec c "?") as [->|_]; [reflexivity|].
  destruct (Ascii.eqb_spec c "#") as [->|_]; [reflexivity|]. discriminate H.
Qed.

(** the steps of [urlparse] on a text that starts with http:// or https:// *)
Lemma urlparse_scheme (secure : bool) (rest : string) :
  let blank := fun c => Ascii.eqb c (ascii_of_N 9) || Ascii.eqb c (ascii_of_N 10)
                        || Ascii.eqb c (ascii_of_N 13) in
  let stop := fun c => Ascii.eqb c "/" || Ascii.eqb c "?" || Ascii.eqb c "#" in
  UrlLib.urlparse ((if secure then "https://" else "http://") +:+ rest)
  = let scheme := if secure then "https" else "http" in
    let '(netloc, url) := UrlLib.break stop (UrlLib.remove_chars blank rest) in
    if xorb (PyStr.contains "[" netloc) (PyStr.contains "]" netloc)
    then Raise ValueError
    else
      let '(url, fragment) :=
        match UrlLib.cut "#" url with Some p => p | None => (url, EmptyString) end in
      let '(url, query) :=
        match UrlLib.cut "?" url with Some p => p | None => (url, EmptyString) end in
      let '(url, params) :=
        if PyStr.contains ";" url then UrlLib.splitparams url else (url, EmptyString) in
      Ok {| UrlLib.scheme := scheme; UrlLib.netloc := netloc; UrlLib.path := url;
            UrlLib.params := params; UrlLib.query := query; UrlLib.fragment := fragment |}.
Proof.
  intros blank stop. destruct secure.
  - change ("https://" +:+ rest)
      with (String "h" (String "t" (String "t" (String "p" (String "s"
             (String ":" (String "/" (String "/" rest)))))))).
    unfold UrlLib.urlparse.
    change (UrlLib.remove_chars _ (UrlLib.lstrip_chars _ _))
      with (String "h" (String "t" (String "t" (String "p" (String "s"
             (String ":" (String "/" (String "/" (UrlLib.remove_chars blank rest))))))))).
    set (rest' := UrlLib.remove_chars blank rest).
    change (UrlLib.cut ":" _) with (Some ("https", String "/" (String "/" rest'))).
    cbv iota.
    change (UrlLib.is_alpha "h" && UrlLib.all_chars UrlLib.scheme_char "ttps") with true.
    cbv iota. change (PyStr.lower "https") with "https".
    replace (String.prefix "//" (String "/" (String "/" rest'))) with true
      by (simpl; destruct rest'; reflexivity).
    change (PyStr.drop 2 (String "/" (String "/" rest'))) with rest'.
    fold stop. destruct (UrlLib.break stop rest') as [netloc url].
    destruct (xorb _ _); [reflexivity|].
    destruct (match UrlLib.cut "#" url with Some p => p | None => _ end) as [url1 fragment].
    destruct (match UrlLib.cut "?" url1 with Some p => p | None => _ end) as [url2 query].
    reflexivity.
  - change ("http://" +:+ rest)
      with (String "h" (String "t" (String "t" (String "p"
             (String ":" (String "/" (String "/" rest))))))).
    unfold UrlLib.urlparse.
    change (UrlLib.remove_chars _ (UrlLib.lstrip_chars _ _))
      with (String "h" (String "t" (String "t" (String "p"
             (String ":" (String "/" (String "/" (UrlLib.remove_chars blank rest)))))))).
    set (rest' := UrlLib.remove_chars blank rest).
    change (UrlLib.cut ":" _) with (Some ("http", String "/" (String "/" rest'))).
    cbv iota.
    change (UrlLib.is_alpha "h" && UrlLib.all_chars UrlLib.scheme_char "ttp") with true.
    cbv iota. change (PyStr.lower "http") with "http".
    replace (String.prefix "//" (String "/" (String "/" rest'))) with true
      by (simpl; destruct rest'; reflexivity).
    change (PyStr.drop 2 (String "/" (String "/" rest'))) with rest'.
    fold stop. destruct (UrlLib.break stop rest') as [netloc url].
    destruct (xorb _ _); [reflexivity|].
    destruct (match UrlLib.cut "#" url with Some p => p | None => _ end) as [url1 fragment].
    destruct (match UrlLib.cut "?" url1 with Some p => p | None => _ end) as [url2 query].
    reflexivity.
Qed.

(** the parse of a URL with an http or https scheme and a plain host *)
Lemma urlparse_plain (secure : bool) (host tail : string) :
  Spec.plain_host host = true -> Spec.url_tail tail = true ->
  exists parsed,
    UrlLib.urlparse ((if secure then "https://" else "http://") +:+ host +:+ tail)
    = Ok parsed
    /\ UrlLib.scheme parsed = (if secure then "https" else "http")
    /\ UrlLib.netloc parsed = host.
Proof.
  intros Hhost Htail.
  set (blank := fun c => Ascii.eqb c (ascii_of_N 9) || Ascii.eqb c (ascii_of_N 10)
                         || Ascii.eqb c (ascii_of_N 13)).
  set (stop := fun c => Ascii.eqb c "/" || Ascii.eqb c "?" || Ascii.eqb c "#").
  assert (UrlLib.all_chars (fun c => negb (blank c)) host = true) as Hblank.
  { revert Hhost. apply all_chars_impl. intros c.
    destruct c as [[] [] [] [] [] [] [] []]; vm_compute; congruence. }
  assert (UrlLib.all_chars (fun c => negb (stop c)) host = true) as Hstop.
  { revert Hhost. apply all_chars_impl. intros c.
    destruct c as [[] [] [] [] [] [] [] []]; vm_compute; congruence. }
  assert (PyStr.contains "[" host = false) as Hopen.
  { apply not_contains_char. revert Hhost. apply all_chars_impl. intros c.
    destruct c as [[] [] [] [] [] [] [] []]; vm_compute; congruence. }
  assert (PyStr.contains "]" host = false) as Hclose.
  { apply not_contains_char. revert Hhost. apply all_chars_impl. intros c.
    destruct c as [[] [] [] [] [] [] [] []]; vm_compute; congruence. }
  pose proof (remove_chars_tail tail Htail) as Htail'. fold blank in Htail'.
  assert (match UrlLib.remove_chars blank tail with
          | EmptyString => true
          | String c _ => stop c
          end = true) as Hbreak.
  { destruct (UrlLib.remove_chars blank tail) as [|c rest]; [reflexivity|].
    cbn [Spec.url_tail existsb] in Htail'. unfold stop.
    rewrite orb_false_r in Htail'. rewrite <- orb_assoc. exact Htail'. }
  rewrite urlparse_scheme. cbv zeta. fold blank. fold stop.
  rewrite (remove_chars_plain blank host tail Hblank).
  rewrite (break_plain stop host _ Hstop Hbreak), Hopen, Hclose. cbn [xorb].
  destruct (match UrlLib.cut "#" _ with Some p => p | None => _ end) as [url1 fragment].
  destruct (match UrlLib.cut "?" url1 with Some p => p | None => _ end) as [url2 query].
  destruct (if PyStr.contains ";" url2 then _ else _) as [url3 params].
  eexists. repeat split; reflexivity.
Qed.

Lemma rev_acc_app (a acc : string) : PyStr.rev_acc a acc = PyStr.rev_acc a EmptyString +:+ acc.
Proof.
  revert acc. induction a as [|c a IH]; intros acc; [reflexivity|].
  cbn [PyStr.rev_acc]. rewrite (IH (String c acc)), (IH (String c EmptyString)).
  rewrite append_assoc. reflexivity.
Qed.

Lemma rev_app (a b : string) : PyStr.rev (a +:+ b) = PyStr.rev b +:+ PyStr.rev a.
Proof.
  unfold PyStr.rev. induction a as [|c a IH].
  - rewrite append_nil, append_empty_r. reflexivity.
  - rewrite append_cons. cbn [PyStr.rev_acc].
    rewrite (rev_acc_app (a +:+ b)), (rev_acc_app a), IH, append_assoc. reflexivity.
Qed.

Lemma endswith_app (pre suffix : string) : PyStr.endswith suffix (pre +:+ suffix) = true.
Proof. unfold PyStr.endswith. rewrite rev_app. apply prefix_app. Qed.

(** for an http(s) URL with a plain host the rules on the network location
    read the lower-cased host, whatever follows it *)
Lemma plain_host_flagged (secure : bool) (host tail : string) :
  Spec.plain_host host = true -> Spec.url_tail tail = true ->
  Spec.domain_rules (PyStr.lower host) = true ->
  URLValidator.is_suspicious ((if secure then "https://" else "http://") +:+ host +:+ tail)
  = true.
Proof.
  intros Hhost Htail Hrules. unfold URLValidator.is_suspicious.
  rewrite unquote_scheme, (unquote_plain host tail Hhost), !lower_app.
  replace (PyStr.lower (if secure then "https://" else "http://"))
    with (if secure then "https://" else "http://") by (destruct secure; reflexivity).
  destruct (urlparse_plain secure (PyStr.lower host) (PyStr.lower (UrlLib.unquote tail)))
    as (parsed & -> & _ & Hnetloc).
  - rewrite plain_host_lower. exact Hhost.
  - rewrite url_tail_lower. apply unquote_tail, Htail.
  - rewrite Hnetloc. unfold URLValidator.any. cbn [existsb].
    unfold Spec.domain_rules in Hrules.
    destruct (URLValidator._is_url_shortener _); [reflexivity|].
    destruct (URLValidator._has_suspicious_tld _); [reflexivity|].
    destruct (URLValidator._is_ip_address _); [reflexivity|].
    destruct (URLValidator._has_homograph_attack _); [reflexivity|].
    destruct (URLValidator._has_subdomain_spoofing _); [reflexivity|].
    discriminate Hrules.
Qed.

(** X1: every http(s) URL with a plain host is flagged when the lower-cased
    host contains the name of a URL shortener anywhere or ends with a
    suspicious top-level domain, whatever its path, query and fragment. *)
Theorem shortener_and_tld_hosts_are_flagged (secure : bool) (host name tail : string) :
  Spec.plain_host host = true ->
  Spec.url_tail tail = true ->
  (In name URLValidator.url_shorteners /\ PyStr.contains name (PyStr.lower host) = true)
  \/ (In name URLValidator.suspicious_tlds /\ PyStr.endswith name (PyStr.lower host) = true) ->
  URLValidator.is_suspicious ((if secure then "https://" else "http://") +:+ host +:+ tail)
  = true.
Proof.
  intros Hplain Htail Hname.
  apply plain_host_flagged; [exact Hplain | exact Htail |].
  unfold Spec.domain_rules. destruct Hname as [[Hin Hsub]|[Hin Hend]].
  - assert (URLValidator._is_url_shortener (PyStr.lower host) = true) as ->;
      [|reflexivity].
    apply existsb_exists. exists name. split; assumption.
  - assert (URLValidator._has_suspicious_tld (PyStr.lower host) = true) as ->;
      [|rewrite orb_true_r; reflexivity].
    apply existsb_exists. exists name. split; assumption.
Qed.

Lemma shortener_and_tld_hosts_are_flagged_witness :
  URLValidator.is_suspicious "https://Microsoft.com/en-us/windows?x=1" = true
  /\ URLValidator.is_suspicious "http://example.tk" = true.
Proof.
  split.
  - apply (shortener_and_tld_hosts_are_flagged true "Microsoft.com" "t.co"
             "/en-us/windows?x=1"); [reflexivity | reflexivity |].
    left. split; [vm_compute; tauto | reflexivity].
  - apply (shortener_and_tld_hosts_are_flagged false "example.tk" ".tk" EmptyString);
      [reflexivity | reflexivity |].
    right. split; [vm_compute; tauto | reflexivity].
Defined.

(** *** Hosts that are an IP address *)

Lemma digits_without (c : ascii) (s : string) :
  PyStr.isdigit c = false -> UrlLib.all_chars PyStr.isdigit s = true -> PyStr.count c s = 0.
Proof.
  intros Hc. induction s as [|a s IH]; [reflexivity|].
  cbn [UrlLib.all_chars PyStr.count]. intros H. apply andb_true_iff in H as [Ha Hs].
  destruct (Ascii.eqb_spec a c) as [->|_]; [congruence|]. rewrite (IH Hs). reflexivity.
Qed.

Lemma octet_digits (s : string) :
  UrlLib.ipv4_octet s = true -> UrlLib.all_chars PyStr.isdigit s = true.
Proof.
  unfold UrlLib.ipv4_octet. intros H.
  do 3 (apply andb_true_iff in H as [H _]). apply andb_true_iff in H as [_ H]. exact H.
Qed.

Lemma split_dotted_quad (a b c d : string) :
  PyStr.count "." a = 0 -> PyStr.count "." b = 0 -> PyStr.count "." c = 0 ->
  PyStr.count "." d = 0 ->
  PyStr.split "." (a +:+ "." +:+ b +:+ "." +:+ c +:+ "." +:+ d) = [a; b; c; d].
Proof.
  intros Ha Hb Hc Hd.
  rewrite !(append_cons "."), !append_nil.
  rewrite !split_append, !split_without by assumption. reflexivity.
Qed.

Lemma hd_split_port (host port : string) :
  PyStr.count ":" host = 0 ->
  hd EmptyString (PyStr.split ":" (host +:+ ":" +:+ port)) = host.
Proof.
  intros Hhost. rewrite (append_cons ":"), append_nil.
  rewrite split_append, (split_without _ _ Hhost). reflexivity.
Qed.

Lemma lower_fixed (s : string) :
  UrlLib.all_chars (fun c => negb (PyStr.isupper_char c)) s = true -> PyStr.lower s = s.
Proof.
  induction s as [|c s IH]; [reflexivity|].
  cbn [UrlLib.all_chars PyStr.lower]. intros H. apply andb_true_iff in H as [Hc Hs].
  apply negb_true_iff in Hc. unfold PyStr.lower_char. rewrite Hc, (IH Hs). reflexivity.
Qed.

Lemma digit_chars (c : ascii) :
  PyStr.isdigit c = true ->
  Spec.host_char c = true /\ negb (PyStr.isupper_char c) = true.
Proof. destruct c as [[] [] [] [] [] [] [] []]; vm_compute; intros H; split; congruence. Qed.

(** a dotted quad of octets is a plain host in lower case, without a colon *)
Lemma dotted_quad_plain (a b c d : string) :
  UrlLib.ipv4_octet a = true -> UrlLib.ipv4_octet b = true ->
  UrlLib.ipv4_octet c = true -> UrlLib.ipv4_octet d = true ->
  let address := a +:+ "." +:+ b +:+ "." +:+ c +:+ "." +:+ d in
  Spec.plain_host address = true
  /\ PyStr.lower address = address
  /\ PyStr.count ":" address = 0
  /\ UrlLib.ip_address_ok address = true.
Proof.
  intros Ha Hb Hc Hd address.
  pose proof (octet_digits a Ha) as Da. pose proof (octet_digits b Hb) as Db.
  pose proof (octet_digits c Hc) as Dc. pose proof (octet_digits d Hd) as Dd.
  assert (forall p : ascii -> bool,
             (forall x, PyStr.isdigit x = true -> p x = true) -> p "."%char = true ->
             UrlLib.all_chars p address = true) as Hall.
  { intros p Hdigit Hdot. subst address. rewrite !all_chars_app.
    rewrite (all_chars_impl _ p a Hdigit Da), (all_chars_impl _ p b Hdigit Db),
      (all_chars_impl _ p c Hdigit Dc), (all_chars_impl _ p d Hdigit Dd).
    cbn [UrlLib.all_chars]. rewrite Hdot. reflexivity. }
  split; [|split; [|split]].
  - apply Hall; [intros x Hx; apply (digit_chars x Hx) | reflexivity].
  - apply lower_fixed, Hall; [intros x Hx; apply (digit_chars x Hx) | reflexivity].
  - subst address. rewrite !count_app.
    rewrite (digits_without ":" a eq_refl Da), (digits_without ":" b eq_refl Db),
      (digits_without ":" c eq_refl Dc), (digits_without ":" d eq_refl Dd). reflexivity.
  - unfold UrlLib.ip_address_ok. subst address.
    rewrite split_dotted_quad by (apply digits_without; [reflexivity | assumption]).
    cbn [length Nat.eqb forallb]. rewrite Ha, Hb, Hc, Hd. reflexivity.
Qed.

(** the text after the first colon of a network location is not read *)
Lemma ip_address_ignores_port (host port : string) :
  PyStr.count ":" host = 0 ->
  URLValidator._is_ip_address (host +:+ ":" +:+ port) = UrlLib.ip_address_ok host.
Proof.
  intros Hhost. unfold URLValidator._is_ip_address. rewrite hd_split_port by exact Hhost.
  reflexivity.
Qed.

Lemma ip_address_without_port (host : string) :
  PyStr.count ":" host = 0 -> URLValidator._is_ip_address host = UrlLib.ip_address_ok host.
Proof.
  intros Hhost. unfold URLValidator._is_ip_address. rewrite split_without by exact Hhost.
  reflexivity.
Qed.

Lemma ip_rule (domain : string) :
  URLValidator._is_ip_address domain = true -> Spec.domain_rules domain = true.
Proof.
  intros H. unfold Spec.domain_rules. rewrite H, !orb_true_r. reflexivity.
Qed.

(** X2: a dotted quad of four octets, each a decimal number up to 255 without
    a leading zero, is recognised as an IP address with or without a port,
    and every http(s) URL with such a host is flagged, whatever follows the
    host. *)
Theorem ip_address_hosts_are_flagged (secure : bool) (a b c d port tail : string) :
  UrlLib.ipv4_octet a = true -> UrlLib.ipv4_octet b = true ->
  UrlLib.ipv4_octet c = true -> UrlLib.ipv4_octet d = true ->
  Spec.plain_host port = true -> Spec.url_tail tail = true ->
  let address := a +:+ "." +:+ b +:+ "." +:+ c +:+ "." +:+ d in
  let scheme := if secure then "https://" else "http://" in
  URLValidator._is_ip_address address = true
  /\ URLValidator._is_ip_address (address +:+ ":" +:+ port) = true
  /\ URLValidator.is_suspicious (scheme +:+ address +:+ tail) = true
  /\ URLValidator.is_suspicious (scheme +:+ (address +:+ ":" +:+ port) +:+ tail) = true.
Proof.
  intros Ha Hb Hc Hd Hport Htail address scheme.
  destruct (dotted_quad_plain a b c d Ha Hb Hc Hd) as (Hplain & Hlower & Hcolon & Hok).
  fold address in Hplain, Hlower, Hcolon, Hok.
  split; [|split; [|split]].
  - rewrite ip_address_without_port; assumption.
  - rewrite ip_address_ignores_port; assumption.
  - apply plain_host_flagged; [exact Hplain | exact Htail |].
    apply ip_rule. rewrite Hlower, ip_address_without_port; assumption.
  - apply plain_host_flagged; [|exact Htail|].
    + unfold Spec.plain_host in *. rewrite !all_chars_app, Hplain, Hport. reflexivity.
    + apply ip_rule. rewrite !lower_app, Hlower.
      change (PyStr.lower ":") with ":". rewrite ip_address_ignores_port; assumption.
Qed.

Lemma ip_address_hosts_are_flagged_witness :
  URLValidator.is_suspicious "https://10.0.0.1:8080/account" = true.
Proof.
  apply (ip_address_hosts_are_flagged true "10" "0" "0" "1" "8080" "/account");
    reflexivity.
Defined.

(** *** Brand names in subdomains *)

Lemma second_last_app (parts : list string) (label tld : string) :
  URLValidator.second_last (parts ++ [label; tld]) = label.
Proof.
  unfold URLValidator.second_last. rewrite length_app. simpl length.
  replace (length parts + 2 - 2)%nat with (length parts) by lia.
  rewrite app_nth2 by lia. rewrite Nat.sub_diag. reflexivity.
Qed.

Lemma split_join_labels (parts : list string) (label tld : string) :
  Forall (fun p => PyStr.count "." p = 0) (parts ++ [label; tld]) ->
  PyStr.split "." (PyStr.join "." (parts ++ [label; tld])) = parts ++ [label; tld].
Proof.
  intros Hall. destruct parts as [|part parts]; apply (split_join "."); exact Hall.
Qed.

(** X3: a domain of at most two labels is never reported as subdomain
    spoofing; a domain of more labels is reported as soon as the labels
    before the last two contain a company name and the last two labels are
    not one of the legitimate domains of that company. *)
Theorem subdomain_spoofing_rule (domain : string) :
  (PyStr.count "." domain < 2 -> URLValidator._has_subdomain_spoofing domain = false)
  /\ (forall (subdomains : list string) (label tld company : string)
              (legit_domains : list string),
         domain = PyStr.join "." (subdomains ++ [label; tld]) ->
         subdomains <> [] ->
         Forall (fun p => PyStr.count "." p = 0) (subdomains ++ [label; tld]) ->
         In (company, legit_domains) URLValidator.legitimate_domains ->
         PyStr.contains company (PyStr.join "." subdomains) = true ->
         ~ In (label +:+ "." +:+ tld) legit_domains ->
         URLValidator._has_subdomain_spoofing domain = true).
Proof.
  split.
  - intros Hfew. unfold URLValidator._has_subdomain_spoofing.
    pose proof (split_length "." domain) as Hlen.
    replace (2 <? length (PyStr.split "." domain))%nat with false; [reflexivity|].
    symmetry. apply Nat.ltb_ge. lia.
  - intros subdomains label tld company legit_domains -> Hsome Hall Htable Hsub Hmain.
    unfold URLValidator._has_subdomain_spoofing.
    rewrite (split_join_labels _ _ _ Hall), length_app. simpl length.
    replace (2 <? length subdomains + 2)%nat with true
      by (symmetry; apply Nat.ltb_lt; destruct subdomains; [contradiction | simpl; lia]).
    replace (length subdomains + 2 - 2)%nat with (length subdomains) by lia.
    rewrite firstn_app, firstn_all, Nat.sub_diag, app_nil_r.
    rewrite skipn_app, skipn_all, Nat.sub_diag. cbn [skipn app].
    apply existsb_exists. exists (company, legit_domains). split; [exact Htable|].
    rewrite Hsub. cbn [andb]. apply negb_true_iff.
    destruct (existsb _ legit_domains) eqn:Hex; [|reflexivity].
    apply existsb_exists in Hex as (legit & Hin & Heq).
    apply String.eqb_eq in Heq. subst legit. contradiction Hmain.
Qed.

Lemma subdomain_spoofing_rule_witness :
  URLValidator._has_subdomain_spoofing "paypal.com.evil.net" = true
  /\ URLValidator._has_subdomain_spoofing "amazon.co.uk" = true
  /\ URLValidator._has_subdomain_spoofing "evil.net" = false.
Proof.
  split; [|split].
  - apply (proj2 (subdomain_spoofing_rule "paypal.com.evil.net")
             ["paypal"; "com"] "evil" "net" "paypal" ["paypal.com"; "paypal.me"]);
      [reflexivity | discriminate | repeat constructor | vm_compute; tauto | reflexivity |].
    intros [H|[H|[]]]; discriminate H.
  - apply (proj2 (subdomain_spoofing_rule "amazon.co.uk")
             ["amazon"] "co" "uk" "amazon" ["amazon.com"; "amazon.co.uk"; "amazon.de"]);
      [reflexivity | discriminate | repeat constructor | vm_compute; tauto | reflexivity |].
    intros [H|[H|[H|[]]]]; discriminate H.
  - apply (proj1 (subdomain_spoofing_rule "evil.net")). vm_compute. reflexivity.
Defined.

End Urls.

(** ** The edit distance of the validator *)

(** X4: [_levenshtein_distance] returns the least number of single-character
    edits (insertions, deletions and substitutions) that turn the first text
    into the second: some alignment of the two texts costs that much and none
    costs less. *)
Theorem levenshtein_least_edits (s1 s2 : string) :
  let a := list_ascii_of_string s1 in
  let b := list_ascii_of_string s2 in
  Spec.edits (URLValidator._levenshtein_distance s1 s2) a b
  /\ (forall n, Spec.edits n a b -> (URLValidator._levenshtein_distance s1 s2 <= n)%nat).
Proof.
  intros a b. rewrite levenshtein_distance_spec. split.
  - apply edits_distance.
  - intros n. apply distance_least.
Qed.

(** X5: the distance is a metric on texts: it is 0 exactly for equal texts,
    it is symmetric, it obeys the triangle inequality, and it lies between
    the difference of the lengths and the larger length. *)
Theorem levenshtein_metric (s1 s2 s3 : string) :
  (URLValidator._levenshtein_distance s1 s2 = 0%nat <-> s1 = s2)
  /\ URLValidator._levenshtein_distance s1 s2 = URLValidator._levenshtein_distance s2 s1
  /\ (URLValidator._levenshtein_distance s1 s3
      <= URLValidator._levenshtein_distance s1 s2
         + URLValidator._levenshtein_distance s2 s3)%nat
  /\ (String.length s1 - String.length s2 <= URLValidator._levenshtein_distance s1 s2)%nat
  /\ (String.length s2 - String.length s1 <= URLValidator._levenshtein_distance s1 s2)%nat
  /\ (URLValidator._levenshtein_distance s1 s2
      <= Nat.max (String.length s1) (String.length s2))%nat.
Proof.
  rewrite !levenshtein_distance_spec.
  set (a := list_ascii_of_string s1). set (b := list_ascii_of_string s2).
  set (c := list_ascii_of_string s3).
  split; [|split; [|split; [|split; [|split]]]].
  - split.
    + intros Hzero. apply chars_inj.
      apply (edits_zero _ _ _ (edits_distance a b) Hzero).
    + intros ->. apply Nat.le_0_r. apply distance_least, edits_refl.
  - apply distance_sym.
  - destruct (edits_trans _ _ _ (edits_distance a b) _ _ (edits_distance b c))
      as (k & Hk & Hac).
    pose proof (distance_least _ _ _ Hac). lia.
  - pose proof (edits_lengths _ _ _ (edits_distance a b)) as [H _].
    subst a b. rewrite !chars_length in H. lia.
  - pose proof (edits_lengths _ _ _ (edits_distance a b)) as [_ H].
    subst a b. rewrite !chars_length in H. lia.
  - rewrite <- !chars_length. fold a b. clearbody a b. clear.
    revert b. induction a as [|x a IH]; intros b.
    + rewrite distance_nil_l. simpl. lia.
    + destruct b as [|y b].
      * rewrite distance_nil_r. simpl. lia.
      * rewrite distance_cons. specialize (IH b). simpl length.
        destruct (Ascii.eqb x y); lia.
Qed.

(** *** Look-alike domains *)

Lemma legitimate_domains_have_labels :
  forallb (fun '(company, legit_domains) =>
             forallb (fun legit => (2 <=? length (PyStr.split "." legit))%nat) legit_domains)
          URLValidator.legitimate_domains = true.
Proof. reflexivity. Qed.

Lemma legitimate_two_labels (company legitimate : string) (legit_domains : list string) :
  In (company, legit_domains) URLValidator.legitimate_domains ->
  In legitimate legit_domains ->
  (2 <= length (PyStr.split "." legitimate))%nat.
Proof.
  intros Htable Hin. pose proof legitimate_domains_have_labels as Hall.
  rewrite forallb_forall in Hall. specialize (Hall _ Htable). cbv beta iota in Hall.
  rewrite forallb_forall in Hall. apply Nat.leb_le, Hall, Hin.
Qed.

(** X6: a domain whose second-level label is one single-character edit away
    from the label of a legitimate domain, or becomes that label by one of the
    look-alike substitutions, is reported as a homograph attack, whatever its
    subdomains and its top-level domain. *)
Theorem lookalike_label_is_flagged
        (subdomains : list string) (label tld company legitimate : string)
        (legit_domains : list string) :
  Forall (fun p => PyStr.count "." p = 0) (subdomains ++ [label; tld]) ->
  In (company, legit_domains) URLValidator.legitimate_domains ->
  In legitimate legit_domains ->
  let legit_main := URLValidator.second_last (PyStr.split "." legitimate) in
  label <> legit_main ->
  Spec.edits 1 (list_ascii_of_string label) (list_ascii_of_string legit_main)
  \/ (exists old new, In (old, new) URLValidator.substitutions
                      /\ PyStr.replace old new label = legit_main) ->
  URLValidator._has_homograph_attack (PyStr.join "." (subdomains ++ [label; tld])) = true.
Proof.
  intros Hall Htable Hin legit_main Hdiffer Hnear.
  pose proof (split_join_labels _ _ _ Hall) as Hsplit.
  apply (similar_is_homograph _ company legitimate legit_domains Htable Hin).
  apply near_label_is_similar.
  - intros Heq. apply Hdiffer. subst legit_main.
    rewrite <- Heq, Hsplit. symmetry. apply second_last_app.
  - rewrite Hsplit, length_app. simpl. lia.
  - apply (legitimate_two_labels company legitimate legit_domains Htable Hin).
  - cbv zeta. rewrite Hsplit, second_last_app. fold legit_main.
    destruct Hnear as [Hedit|Hsub]; [left | right; exact Hsub].
    rewrite levenshtein_distance_spec.
    pose proof (distance_least _ _ _ Hedit) as Hle.
    destruct (Spec.distance _ _) eqn:Hzero; [|lia].
    exfalso. apply Hdiffer, chars_inj.
    apply (edits_zero _ _ _ (edits_distance _ _)). exact Hzero.
Qed.

Lemma lookalike_label_is_flagged_witness :
  URLValidator._has_homograph_attack "login.gogle.com" = true
  /\ URLValidator._has_homograph_attack "paypa1.net" = true.
Proof.
  split.
  - apply (lookalike_label_is_flagged ["login"] "gogle" "com" "google" "google.com"
             ["google.com"; "gmail.com"; "googleapis.com"]);
      [repeat constructor | vm_compute; tauto | left; reflexivity | discriminate |].
    left. apply Spec.edits_keep, Spec.edits_keep, Spec.edits_insert.
    apply edits_refl.
  - apply (lookalike_label_is_flagged [] "paypa1" "net" "paypal" "paypal.com"
             ["paypal.com"; "paypal.me"]);
      [repeat constructor | vm_compute; tauto | left; reflexivity | discriminate |].
    right. exists "1", "l". split; [vm_compute; tauto | reflexivity].
Defined.

(** *** The domain report *)



(** ** What a match of a regular expression consumes *)


Section Consumed.

Lemma suffix_refl (s : string) : Spec.suffix s s.
Proof. exists EmptyString. reflexivity. Qed.

Lemma suffix_tail (c : ascii) (s : string) : Spec.suffix s (String c s).
Proof. exists (String c EmptyString). reflexivity. Qed.

Lemma suffix_trans (a b c : string) : Spec.suffix a b -> Spec.suffix b c -> Spec.suffix a c.
Proof.
  intros (p & ->) (q & ->). exists (q +:+ p). rewrite append_assoc. reflexivity.
Qed.

Lemma suffix_length (rest s : string) :
  Spec.suffix rest s -> (String.length rest <= String.length s)%nat.
Proof. intros (pre & ->). rewrite append_length. lia. Qed.

Lemma suffix_contains (t rest s : string) :
  Spec.suffix rest s -> PyStr.contains t rest = true -> PyStr.contains t s = true.
Proof.
  intros (pre & ->) H. apply (contains_trans t rest); [exact H|].
  rewrite <- (append_empty_r rest) at 2. apply contains_app.
Qed.

Lemma piece_suffix (cap : option string) (rest s : string) :
  Spec.suffix rest s -> Spec.piece cap rest -> Spec.piece cap s.
Proof. destruct cap as [t|]; [apply suffix_contains | auto]. Qed.

Lemma take_app (pre rest : string) : PyStr.take (String.length pre) (pre +:+ rest) = pre.
Proof.
  induction pre as [|c pre IH]; [destruct rest; reflexivity|].
  rewrite append_cons. cbn [String.length PyStr.take]. rewrite IH. reflexivity.
Qed.

(** the text consumed up to a suffix is what stands before the suffix *)
Lemma consumed_app (pre rest : string) : Regex.consumed (pre +:+ rest) rest = pre.
Proof.
  unfold Regex.consumed. rewrite append_length.
  replace (String.length pre + String.length rest - String.length rest)%nat
    with (String.length pre) by lia.
  apply take_app.
Qed.

Lemma consumed_piece (rest s : string) :
  Spec.suffix rest s -> PyStr.contains (Regex.consumed s rest) s = true.
Proof.
  intros (pre & ->). rewrite consumed_app.
  apply (contains_app EmptyString pre rest).
Qed.

Lemma rep_loop_hands_on {A : Type}
      (step : string -> option string ->
              (string -> option string -> option A) -> option A)
      (k : string -> option string -> option A) (fuel : nat) :
  Spec.hands_on step ->
  forall lo hi s cap x,
    Regex.rep_loop step k fuel lo hi s cap = Some x ->
    exists s1 cap1,
      k s1 cap1 = Some x /\ Spec.suffix s1 s /\ (cap1 = cap \/ Spec.piece cap1 s).
Proof.
  intros Hstep. induction fuel as [|fuel IH]; intros lo hi s cap x; [discriminate|].
  cbn [Regex.rep_loop].
  set (round := fun s1 cap1 =>
                  if (String.length s1 <? String.length s)%nat
                  then Regex.rep_loop step k fuel (Nat.pred lo) (option_map Nat.pred hi) s1 cap1
                  else None).
  assert (forall y, step s cap round = Some y ->
            exists s1 cap1,
              k s1 cap1 = Some y /\ Spec.suffix s1 s /\ (cap1 = cap \/ Spec.piece cap1 s))
    as Hmore.
  { intros y Hy. destruct (Hstep _ _ _ _ Hy) as (s1 & cap1 & Hround & Hs1 & Hcap1).
    unfold round in Hround.
    destruct (String.length s1 <? String.length s)%nat; [|discriminate].
    destruct (IH _ _ _ _ _ Hround) as (s2 & cap2 & Hk & Hs2 & Hcap2).
    exists s2, cap2. split; [exact Hk|]. split; [eapply suffix_trans; eassumption|].
    destruct Hcap2 as [->|Hpiece]; [exact Hcap1|].
    right. eapply piece_suffix; eassumption. }
  assert (forall y, (match lo with O => k s cap | S _ => None end) = Some y ->
            exists s1 cap1,
              k s1 cap1 = Some y /\ Spec.suffix s1 s /\ (cap1 = cap \/ Spec.piece cap1 s))
    as Hstop.
  { intros y Hy. destruct lo; [|discriminate].
    exists s, cap. split; [exact Hy|]. split; [apply suffix_refl | left; reflexivity]. }
  destruct hi as [[|hi]|].
  - apply Hstop.
  - destruct (step s cap round) as [y|] eqn:Hy; [|apply Hstop].
    intros [= <-]. apply Hmore. reflexivity.
  - destruct (step s cap round) as [y|] eqn:Hy; [|apply Hstop].
    intros [= <-]. apply Hmore. reflexivity.
Qed.

Lemma matchk_hands_on {A : Type} (ignorecase : bool) (r : Regex.regex) :
  @Spec.hands_on A (Regex.matchk ignorecase r).
Proof.
  induction r as [|c|negated items| |r1 IH1 r2 IH2|r1 IH1 r2 IH2|lo hi r1 IH1|r1 IH1];
    intros s cap k x; cbn [Regex.matchk].
  - intros H. exists s, cap. split; [exact H|]. split; [apply suffix_refl | auto].
  - destruct s as [|a s]; [discriminate|].
    destruct (Regex.lit_matches ignorecase c a); [|discriminate].
    intros H. exists s, cap. split; [exact H|]. split; [apply suffix_tail | auto].
  - destruct s as [|a s]; [discriminate|].
    destruct (xorb negated _); [|discriminate].
    intros H. exists s, cap. split; [exact H|]. split; [apply suffix_tail | auto].
  - destruct s as [|a s]; [discriminate|].
    destruct (Ascii.eqb a Regex.newline); [discriminate|].
    intros H. exists s, cap. split; [exact H|]. split; [apply suffix_tail | auto].
  - intros H. destruct (IH1 _ _ _ _ H) as (s1 & cap1 & H1 & Hs1 & Hcap1).
    destruct (IH2 _ _ _ _ H1) as (s2 & cap2 & H2 & Hs2 & Hcap2).
    exists s2, cap2. split; [exact H2|]. split; [eapply suffix_trans; eassumption|].
    destruct Hcap2 as [->|Hpiece]; [exact Hcap1|].
    right. eapply piece_suffix; eassumption.
  - destruct (Regex.matchk ignorecase r1 s cap k) as [y|] eqn:Hy.
    + intros [= <-]. apply IH1. exact Hy.
    + apply IH2.
  - apply rep_loop_hands_on. exact IH1.
  - intros H. destruct (IH1 _ _ _ _ H) as (s1 & cap1 & H1 & Hs1 & _).
    exists s1, (Some (Regex.consumed s s1)). split; [exact H1|]. split; [exact Hs1|].
    right. apply consumed_piece. exact Hs1.
Qed.

(** a match at the head of [s] leaves a suffix of [s]; its group is a piece of [s] *)
Lemma match_here_suffix (ignorecase : bool) (r : Regex.regex) (s rest : string)
      (cap : option string) :
  Regex.match_here ignorecase r s = Some (rest, cap) ->
  Spec.suffix rest s /\ Spec.piece cap s.
Proof.
  unfold Regex.match_here. intros H.
  destruct (matchk_hands_on ignorecase r _ _ _ _ H) as (s1 & cap1 & [= -> ->] & Hs & Hcap).
  split; [exact Hs|]. destruct Hcap as [->|Hpiece]; [exact I | exact Hpiece].
Qed.

(** the matches found in [s]: every text and every group is a piece of [s] *)
Lemma matches_from_pieces (ignorecase : bool) (r : Regex.regex) (fuel : nat) :
  forall s text cap,
    In (text, cap) (Regex.matches_from fuel ignorecase r s) ->
    PyStr.contains text s = true /\ Spec.piece cap s
    /\ exists from rest,
         Spec.suffix from s
         /\ Regex.match_here ignorecase r from = Some (rest, cap)
         /\ text = Regex.consumed from rest.
Proof.
  induction fuel as [|fuel IH]; intros s text cap; [intros []|].
  cbn [Regex.matches_from].
  assert (In (text, cap)
             match s with
             | EmptyString => []
             | String _ s' => Regex.matches_from fuel ignorecase r s'
             end ->
          PyStr.contains text s = true /\ Spec.piece cap s
          /\ exists from rest,
               Spec.suffix from s
               /\ Regex.match_here ignorecase r from = Some (rest, cap)
               /\ text = Regex.consumed from rest) as Hstep.
  { destruct s as [|c s]; [intros []|]. intros Hin.
    destruct (IH _ _ _ Hin) as (Htext & Hcap & from & rest & Hfrom & Hmatch & Heq).
    pose proof (suffix_tail c s) as Htail.
    split; [eapply suffix_contains; eassumption|].
    split; [eapply piece_suffix; eassumption|].
    exists from, rest. split; [eapply suffix_trans; eassumption | auto]. }
  destruct (Regex.match_here ignorecase r s) as [[rest cap0]|] eqn:Hmatch; [|exact Hstep].
  destruct (match_here_suffix _ _ _ _ _ Hmatch) as [Hrest Hcap0].
  intros [[= <- <-]|Hin].
  - split; [apply consumed_piece; exact Hrest|]. split; [exact Hcap0|].
    exists s, rest. split; [apply suffix_refl | auto].
  - destruct (String.length rest <? String.length s)%nat; [|apply Hstep; exact Hin].
    destruct (IH _ _ _ Hin) as (Htext & Hcap & from & rest' & Hfrom & Hmatch' & Heq).
    split; [eapply suffix_contains; eassumption|].
    split; [eapply piece_suffix; eassumption|].
    exists from, rest'. split; [eapply suffix_trans; eassumption | auto].
Qed.

(** a literal text at the head of a pattern, case-sensitive *)
Lemma matchk_literal {A : Type} (lit : string) (r : Regex.regex) (s : string)
      (cap : option string) (k : string -> option string -> option A) :
  lit <> EmptyString ->
  Regex.matchk false (Regex.Cat (Regex.Str lit) r) s cap k
  = if String.prefix lit s
    then Regex.matchk false r (PyStr.drop (String.length lit) s) cap k
    else None.
Proof.
  revert s. induction lit as [|c lit IH]; intros s Hlit; [contradiction|].
  destruct lit as [|c' lit].
  - cbn [Regex.Str Regex.matchk Regex.lit_matches String.length PyStr.drop].
    destruct s as [|a s]; [reflexivity|]. rewrite prefix_char.
    reflexivity.
  - change (Regex.Str (String c (String c' lit)))
      with (Regex.Cat (Regex.Lit c) (Regex.Str (String c' lit))).
    cbn [Regex.matchk Regex.lit_matches].
    destruct s as [|a s]; [reflexivity|].
    specialize (IH s ltac:(discriminate)). cbn [Regex.matchk] in IH.
    cbn [String.length PyStr.drop]. cbn [String.length] in IH.
    simpl String.prefix.
    destruct (Ascii.eqb_spec a c) as [->|Hne].
    + destruct (ascii_dec c c); [|contradiction]. exact IH.
    + destruct (ascii_dec c a) as [->|]; [contradiction | reflexivity].
Qed.

Lemma drop_app (pre rest : string) : PyStr.drop (String.length pre) (pre +:+ rest) = rest.
Proof. induction pre as [|c pre IH]; [reflexivity|]. rewrite append_cons. exact IH. Qed.

(** a match of a pattern that starts with a literal text starts with that text *)
Lemma match_here_literal (lit : string) (r : Regex.regex) (s rest : string)
      (cap : option string) :
  lit <> EmptyString ->
  Regex.match_here false (Regex.Cat (Regex.Str lit) r) s = Some (rest, cap) ->
  String.prefix lit (Regex.consumed s rest) = true.
Proof.
  intros Hlit. unfold Regex.match_here. rewrite matchk_literal by exact Hlit.
  destruct (String.prefix lit s) eqn:Hprefix; [|discriminate].
  destruct (prefix_inv _ _ Hprefix) as (s' & ->). rewrite drop_app. intros H.
  destruct (matchk_hands_on false r _ _ _ _ H) as (s1 & cap1 & [= -> _] & (pre & ->) & _).
  rewrite <- append_assoc, consumed_app. apply prefix_app.
Qed.

End Consumed.

(** ** The URLs of a body *)

Lemma findall_urls (text url : string) :
  In url (Regex.findall false EmailParser.url_pattern text) ->
  String.prefix "http" url = true /\ PyStr.contains url text = true.
Proof.
  unfold Regex.findall, Regex.matches. intros Hin.
  apply in_map_iff in Hin as ([text' cap] & <- & Hin). cbn [fst].
  destruct (matches_from_pieces _ _ _ _ _ _ Hin) as (Hpiece & _ & from & rest & _ & Hmatch & ->).
  split; [|exact Hpiece].
  unfold EmailParser.url_pattern in Hmatch.
  eapply (match_here_literal "http"); [discriminate | exact Hmatch].
Qed.

(** X8: every URL that the parser or the detector extracts from a body
    occurs verbatim in the body and starts with http; the list of the parser
    holds no URL twice. *)
Theorem extracted_urls_occur_in_body (body url : string) :
  List.NoDup (EmailParser._extract_urls body)
  /\ (In url (EmailParser._extract_urls body) ->
      PyStr.startswith "http" url = true /\ PyStr.contains url body = true)
  /\ (In url (PhishingDetector._extract_urls body) ->
      PyStr.startswith "http" url = true /\ PyStr.contains url body = true).
Proof.
  split; [apply unique_NoDup|]. split; [|apply findall_urls].
  unfold EmailParser._extract_urls. rewrite unique_In, in_app_iff, filter_In.
  intros [Hbare|[Hhref Hhttp]]; [apply findall_urls; exact Hbare|].
  split; [exact Hhttp|].
  unfold Regex.findall_group, Regex.matches in Hhref.
  apply in_map_iff in Hhref as ([text cap] & Heq & Hin). cbn [snd] in Heq.
  destruct (matches_from_pieces _ _ _ _ _ _ Hin) as (_ & Hcap & _).
  destruct cap as [t|]; cbn [default] in Heq; subst url; [exact Hcap|].
  discriminate Hhttp.
Qed.

Lemma extracted_urls_occur_in_body_witness :
  PyStr.contains "http://bit.ly/x" "go to http://bit.ly/x now" = true.
Proof.
  apply (extracted_urls_occur_in_body "go to http://bit.ly/x now" "http://bit.ly/x").
  vm_compute. tauto.
Defined.

(** ** The headers *)

(** X9: the SPF flag of the parsed headers is a test for the text pass
    anywhere in the authentication results, so that a DKIM or a DMARC pass
    sets it too, also when the results say that SPF failed. *)
Theorem authentication_pass_flags (headers : list (string * string)) :
  let info := EmailParser._parse_headers headers in
  (dkim_pass info = true -> spf_pass info = true)
  /\ (dmarc_pass info = true -> spf_pass info = true)
  /\ (spf_pass info = true <->
      PyStr.contains "pass" (PyStr.lower (dict_get "Authentication-Results" headers)) = true).
Proof.
  cbn [EmailParser._parse_headers spf_pass dkim_pass dmarc_pass].
  split; [|split; [|reflexivity]].
  - apply contains_trans. reflexivity.
  - apply contains_trans. reflexivity.
Qed.

Lemma authentication_pass_flags_witness :
  spf_pass (EmailParser._parse_headers
              [("Authentication-Results", "mx.example.org; spf=fail; dkim=PASS")]) = true.
Proof.
  apply (authentication_pass_flags
           [("Authentication-Results", "mx.example.org; spf=fail; dkim=PASS")]).
  reflexivity.
Defined.

(** ** The sender and the reply address *)






Lemma lower_nonempty (s : string) : s <> EmptyString -> PyStr.lower s <> EmptyString.
Proof. destruct s; [contradiction | discriminate]. Qed.






Lemma last_In {A : Type} (x : A) (xs : list A) (d : A) : In (List.last (x :: xs) d) (x :: xs).
Proof.
  revert x. induction xs as [|y ys IH]; intros x; [left; reflexivity|].
  right. apply (IH y).
Qed.

Lemma join_app_last (sep : string) (parts : list string) (last_part : string) :
  parts <> [] ->
  PyStr.join sep (parts ++ [last_part]) = PyStr.join sep parts +:+ sep +:+ last_part.
Proof.
  induction parts as [|part parts IH]; [contradiction|]. intros _.
  destruct parts as [|next parts]; [reflexivity|].
  change (PyStr.join sep ((part :: next :: parts) ++ [last_part]))
    with (part +:+ sep +:+ PyStr.join sep ((next :: parts) ++ [last_part])).
  rewrite IH by discriminate.
  change (PyStr.join sep (part :: next :: parts))
    with (part +:+ sep +:+ PyStr.join sep (next :: parts)).
  rewrite !append_assoc. reflexivity.
Qed.

(** a text with a separator is what stands before the last separator, the
    separator, and the last part of its split *)
Lemma split_last_part (sep : ascii) (s : string) :
  PyStr.contains (String sep EmptyString) s = true ->
  let last_part := List.last (PyStr.split sep s) EmptyString in
  getitem (PyStr.split sep s) (-1) = Ok last_part
  /\ PyStr.count sep last_part = 0
  /\ exists before, s = before +:+ String sep EmptyString +:+ last_part.
Proof.
  intros Hsep last_part.
  destruct (split_two sep s Hsep) as (first & second & rest & Hsplit).
  subst last_part. rewrite Hsplit.
  split; [apply getitem_last|]. split.
  - apply (split_parts_without sep s). rewrite Hsplit. apply last_In.
  - exists (PyStr.join (String sep EmptyString) (removelast (first :: second :: rest))).
    rewrite <- join_app_last by discriminate.
    rewrite <- app_removelast_last by discriminate.
    rewrite <- Hsplit. symmetry. apply join_split.
Qed.

(** the last step of [_parse_sender], with or without an at sign in the address *)
Ltac sender_domain Hat :=
  first
    [ let Hlast := fresh "Hlast" in
      let Hcount := fresh "Hcount" in
      let local := fresh "local" in
      let Hemail := fresh "Hemail" in
      destruct (split_last_part "@" _ Hat) as (Hlast & Hcount & local & Hemail);
      rewrite Hlast; cbn [mbind result_bind]; eexists; split; [reflexivity|];
      cbn [EmailParser.sp_domain EmailParser.sp_email]; split;
      [ split; [discriminate | congruence]
      | intros ? [= <-]; split; [exact Hcount | exists local; exact Hemail] ]
    | cbn [mbind result_bind]; eexists; split; [reflexivity|];
      cbn [EmailParser.sp_domain EmailParser.sp_email]; split;
      [ split; auto | intros ? Hsome; discriminate Hsome ] ].

(** X11: [_parse_sender] raises nothing: the parts of the splits that it
    indexes are always there.  The domain it reports is the text after the
    last at sign of the address and holds no at sign itself; without an at
    sign in the address no domain is reported. *)
Theorem parse_sender_domain (sender : string) :
  exists parts,
    EmailParser._parse_sender sender = Ok parts
    /\ (EmailParser.sp_domain parts = None <->
        PyStr.contains "@" (EmailParser.sp_email parts) = false)
    /\ (forall domain,
          EmailParser.sp_domain parts = Some domain ->
          PyStr.count "@" domain = 0
          /\ exists local, EmailParser.sp_email parts = local +:+ "@" +:+ domain).
Proof.
  unfold EmailParser._parse_sender.
  destruct (PyStr.contains "<" sender) eqn:Hlt; cbn [andb].
  - destruct (PyStr.contains ">" sender).
    + destruct (split_two "<" sender Hlt) as (first & second & parts & ->).
      rewrite getitem_first, getitem_second. cbn [mbind result_bind].
      destruct (split_nonempty ">" second) as (inside & rest & ->).
      rewrite getitem_first. cbn [mbind result_bind].
      destruct (PyStr.contains "@" (PyStr.strip inside)) eqn:Hat; sender_domain Hat.
    + cbn [mbind result_bind].
      destruct (PyStr.contains "@" (PyStr.strip sender)) eqn:Hat; sender_domain Hat.
  - cbn [mbind result_bind].
    destruct (PyStr.contains "@" (PyStr.strip sender)) eqn:Hat; sender_domain Hat.
Qed.

Lemma parse_sender_domain_witness :
  exists parts,
    EmailParser._parse_sender "Ann <ann@mail@example.org>" = Ok parts
    /\ EmailParser.sp_domain parts = Some "example.org"
    /\ PyStr.count "@" "example.org" = 0.
Proof.
  destruct (parse_sender_domain "Ann <ann@mail@example.org>") as (parts & Hparts & _ & Hdomain).
  exists parts. split; [exact Hparts|].
  assert (EmailParser.sp_domain parts = Some "example.org") as Hsome
    by (vm_compute in Hparts; injection Hparts as <-; reflexivity).
  split; [exact Hsome|]. apply (Hdomain _ Hsome).
Defined.

(** ** The pattern matcher *)

Section Collect.
Context {A : Type}.

(** a loop that appends a line for every element that passes a test *)
Lemma fold_left_collect (step : list string -> A -> list string)
      (p : A -> bool) (f : A -> string) :
  (forall acc x, step acc x = if p x then acc ++ [f x] else acc) ->
  forall xs acc, fold_left step xs acc = acc ++ map f (List.filter p xs).
Proof.
  intros Hstep. induction xs as [|x xs IH]; intros acc; cbn [fold_left List.filter map].
  - rewrite app_nil_r. reflexivity.
  - rewrite IH, Hstep. destruct (p x); [|reflexivity].
    cbn [map]. rewrite <- app_assoc. reflexivity.
Qed.

Lemma collect_length (p : A -> bool) (f : A -> string) (xs : list A) :
  (length (map f (List.filter p xs)) <= length xs)%nat.
Proof. rewrite length_map. apply filter_length_le. Qed.
End Collect.

Lemma search_of_contains (ignorecase : bool) (r : Regex.regex) (lit s : string) :
  (forall rest, Regex.match_here ignorecase r (lit +:+ rest) <> None) ->
  PyStr.contains lit s = true -> Regex.search ignorecase r s = true.
Proof.
  intros Hlit. induction s as [|c s IH]; cbn [PyStr.contains Regex.search]; intros H.
  - rewrite orb_false_r in H. destruct (prefix_inv _ _ H) as (rest & E).
    specialize (Hlit rest). rewrite <- E in Hlit.
    destruct (Regex.match_here ignorecase r EmptyString); [reflexivity | contradiction].
  - destruct (Regex.match_here ignorecase r (String c s)) eqn:Hhere; [reflexivity|].
    apply orb_true_iff in H as [H|H]; [|apply IH; exact H].
    destruct (prefix_inv _ _ H) as (rest & E).
    specialize (Hlit rest). rewrite <- E, Hhere in Hlit. contradiction.
Qed.

(** the pattern of a brand matches wherever the name of the brand stands *)
Lemma brand_pattern_matches (pattern : Regex.regex) (company s : string) :
  In (pattern, company) PatternMatcher.spoofed_patterns ->
  PyStr.contains (PyStr.lower company) s = true ->
  Regex.search false pattern s = true.
Proof.
  intros Hin. unfold PatternMatcher.spoofed_patterns in Hin.
  repeat (destruct Hin as [[= <- <-]|Hin];
          [apply search_of_contains; intros rest; vm_compute; discriminate|]).
  destruct Hin.
Qed.

(** the threats of [_check_sender], one check after the other *)
Lemma check_sender_parts (sender : string) :
  let sender_lower := PyStr.lower sender in
  PatternMatcher._check_sender sender
  = Ok (map (fun entry => Spec.spoofing_line (snd entry))
            (List.filter
               (fun entry =>
                  Regex.search false (fst entry) sender_lower
                  && negb (PyStr.contains (PyStr.lower (snd entry)) sender_lower))
               PatternMatcher.spoofed_patterns)
        ++ (if PyStr.contains "no-reply" sender_lower
               && existsb (fun word => PyStr.contains word sender_lower)
                          ["security"; "alert"; "verify"]
            then ["Suspicious no-reply address"] else [])
        ++ (if PyStr.contains "<" sender && PyStr.contains ">" sender
               && PyStr.contains "@"
                    (PyStr.strip (hd EmptyString (PyStr.split "<" sender)))
            then ["Misleading display name"] else [])).
Proof.
  intros sender_lower. unfold PatternMatcher._check_sender. fold sender_lower.
  rewrite (fold_left_collect _
             (fun entry =>
                Regex.search false (fst entry) sender_lower
                && negb (PyStr.contains (PyStr.lower (snd entry)) sender_lower))
             (fun entry => Spec.spoofing_line (snd entry)))
    by (intros acc [pattern company]; cbn [fst snd];
        destruct (Regex.search false pattern sender_lower); [|reflexivity];
        destruct (negb _); reflexivity).
  cbn [app].
  set (brands := map _ (List.filter _ PatternMatcher.spoofed_patterns)).
  set (noreply := PyStr.contains "no-reply" sender_lower && _).
  destruct (PyStr.contains "<" sender) eqn:Hlt; cbn [andb].
  - destruct (PyStr.contains ">" sender).
    + destruct (split_two "<" sender Hlt) as (first & second & parts & ->).
      rewrite getitem_first, getitem_second. cbn [mbind result_bind hd].
      destruct (split_nonempty ">" second) as (inside & rest & ->).
      rewrite getitem_first. cbn [mbind result_bind].
      destruct noreply, (PyStr.contains "@" (PyStr.strip first));
        cbn [andb]; rewrite <- ?app_assoc, ?app_nil_r; reflexivity.
    + destruct noreply; rewrite <- ?app_assoc, ?app_nil_r; reflexivity.
  - destruct noreply; rewrite <- ?app_assoc, ?app_nil_r; reflexivity.
Qed.

Lemma spoofing_line_differs (company : string) :
  Spec.spoofing_line company <> "Suspicious no-reply address"
  /\ Spec.spoofing_line company <> "Misleading display name".
Proof. split; intros H; vm_compute in H; discriminate H. Qed.

Lemma brand_names_differ (pattern pattern' : Regex.regex) (company company' : string) :
  In (pattern, company) PatternMatcher.spoofed_patterns ->
  In (pattern', company') PatternMatcher.spoofed_patterns ->
  Spec.spoofing_line company' = Spec.spoofing_line company -> company' = company.
Proof.
  unfold PatternMatcher.spoofed_patterns. intros Hin Hin'.
  repeat (destruct Hin as [[= <- <-]|Hin]);
    repeat (destruct Hin' as [[= <- <-]|Hin']);
    try destruct Hin; try destruct Hin';
    intros H; first [reflexivity | vm_compute in H; discriminate H].
Qed.

(** X12: the brand checks of the pattern matcher.  A sender that contains
    the name of a brand itself is never reported as spoofing that brand,
    whatever look-alike of the name it also contains; a URL that contains the
    name of a brand is always reported as spoofing it, the genuine domain of
    the brand included. *)
Theorem brand_name_checks (pattern : Regex.regex) (company text : string) :
  In (pattern, company) PatternMatcher.spoofed_patterns ->
  PyStr.contains (PyStr.lower company) (PyStr.lower text) = true ->
  (exists threats,
      PatternMatcher._check_sender text = Ok threats
      /\ ~ In ("⚠️ Possible " +:+ company +:+ " spoofing detected") threats)
  /\ In ("Possible " +:+ company +:+ " URL spoofing") (PatternMatcher._check_url text).
Proof.
  intros Htable Hname. split.
  - eexists. split; [apply check_sender_parts|]. cbv zeta.
    fold (Spec.spoofing_line company). rewrite !in_app_iff.
    destruct (spoofing_line_differs company) as [Hreply Hdisplay].
    intros [Hbrand|[Hin|Hin]].
    + apply in_map_iff in Hbrand as ([pattern' company'] & Hline & Hin).
      apply filter_In in Hin as [Htable' Hhit]. cbn [fst snd] in *.
      apply (brand_names_differ _ _ _ _ Htable Htable') in Hline. subst company'.
      rewrite Hname in Hhit. rewrite andb_false_r in Hhit. discriminate Hhit.
    + destruct (_ && _); [destruct Hin as [H|[]]; congruence | destruct Hin].
    + destruct (_ && _); [destruct Hin as [H|[]]; congruence | destruct Hin].
  - unfold PatternMatcher._check_url.
    rewrite (fold_left_collect _
               (fun entry => Regex.search false (fst entry) (PyStr.lower text))
               (fun entry => "Possible " +:+ snd entry +:+ " URL spoofing"))
      by (intros acc [pattern' company']; reflexivity).
    assert (In ("Possible " +:+ company +:+ " URL spoofing")
               (map (fun entry => "Possible " +:+ snd entry +:+ " URL spoofing")
                    (List.filter
                       (fun entry => Regex.search false (fst entry) (PyStr.lower text))
                       PatternMatcher.spoofed_patterns))) as Hin.
    { apply in_map_iff. exists (pattern, company). split; [reflexivity|].
      apply filter_In. split; [exact Htable|]. cbn [fst].
      apply (brand_pattern_matches pattern company); assumption. }
    destruct (existsb _ PatternMatcher.suspicious_tlds);
      rewrite ?in_app_iff; auto.
Qed.

Lemma brand_name_checks_witness :
  In "Possible Amazon URL spoofing" (PatternMatcher._check_url "https://www.amazon.com/")
  /\ PatternMatcher._check_sender "amazon-amaz0n@example.org" = Ok [].
Proof.
  split.
  - apply (brand_name_checks
             (Regex.Cat (Regex.Str "amaz")
                (Regex.Cat (PatternMatcher.one_of "o" "0") (Regex.Lit "n")))
             "Amazon" "https://www.amazon.com/"); [left; reflexivity | reflexivity].
  - destruct (brand_name_checks
                (Regex.Cat (Regex.Str "amaz")
                   (Regex.Cat (PatternMatcher.one_of "o" "0") (Regex.Lit "n")))
                "Amazon" "amazon-amaz0n@example.org")
      as [(threats & Hcheck & _) _]; [left; reflexivity | reflexivity |].
    rewrite Hcheck. vm_compute in Hcheck. injection Hcheck as <-. reflexivity.
Defined.

(** X13: the pattern matcher and the parser agree on a misleading display
    name: the matcher reports it exactly when the parser marks the sender as
    spoofed, that is when the sender has both angle brackets and an at sign
    stands in the text before the first opening bracket. *)
Theorem misleading_display_name (sender : string) :
  exists threats parts,
    PatternMatcher._check_sender sender = Ok threats
    /\ EmailParser._parse_sender sender = Ok parts
    /\ (In "Misleading display name" threats <-> EmailParser.sp_spoofed parts = Some true)
    /\ (EmailParser.sp_spoofed parts = Some true <->
        PyStr.contains "<" sender && PyStr.contains ">" sender
        && PyStr.contains "@" (PyStr.strip (hd EmptyString (PyStr.split "<" sender))) = true).
Proof.
  destruct (parse_sender_total sender) as (parts & Hparts & _).
  eexists. exists parts. split; [apply check_sender_parts|]. split; [exact Hparts|].
  cbv zeta.
  assert (EmailParser.sp_spoofed parts = Some true <->
          PyStr.contains "<" sender && PyStr.contains ">" sender
          && PyStr.contains "@" (PyStr.strip (hd EmptyString (PyStr.split "<" sender)))
          = true) as Hspoofed.
  { revert Hparts. unfold EmailParser._parse_sender.
    destruct (PyStr.contains "<" sender) eqn:Hlt; cbn [andb].
    - destruct (PyStr.contains ">" sender); cbn [andb].
      + destruct (split_two "<" sender Hlt) as (first & second & rest & ->).
        rewrite getitem_first, getitem_second. cbn [mbind result_bind hd].
        destruct (split_nonempty ">" second) as (inside & rest' & ->).
        rewrite getitem_first. cbn [mbind result_bind].
        destruct (PyStr.contains "@" (PyStr.strip inside));
          [destruct (split_nonempty "@" (PyStr.strip inside)) as (p & ps & ->);
           rewrite (getitem_last p ps EmptyString)|];
          cbn [mbind result_bind]; intros [= <-]; cbn [EmailParser.sp_spoofed];
          destruct (PyStr.contains "@" (PyStr.strip first)); split; congruence.
      + cbn [mbind result_bind].
        destruct (PyStr.contains "@" (PyStr.strip sender));
          [destruct (split_nonempty "@" (PyStr.strip sender)) as (p & ps & ->);
           rewrite (getitem_last p ps EmptyString)|];
          cbn [mbind result_bind]; intros [= <-]; cbn [EmailParser.sp_spoofed];
          split; congruence.
    - cbn [mbind result_bind].
      destruct (PyStr.contains "@" (PyStr.strip sender));
        [destruct (split_nonempty "@" (PyStr.strip sender)) as (p & ps & ->);
         rewrite (getitem_last p ps EmptyString)|];
        cbn [mbind result_bind]; intros [= <-]; cbn [EmailParser.sp_spoofed];
        split; congruence. }
  split; [|exact Hspoofed]. rewrite Hspoofed, !in_app_iff.
  split.
  - intros [Hbrand|[Hin|Hin]].
    + apply in_map_iff in Hbrand as ([pattern company] & Hline & _). cbn [snd] in Hline.
      destruct (spoofing_line_differs company) as [_ Hdiffer]. contradiction.
    + destruct (PyStr.contains "no-reply" _ && _); [|destruct Hin].
      destruct Hin as [H|[]]. discriminate H.
    + destruct (_ && _ && _); [reflexivity | destruct Hin].
  - intros ->. right. right. left. reflexivity.
Qed.

Lemma check_url_length (url : string) : (length (PatternMatcher._check_url url) <= 8)%nat.
Proof.
  unfold PatternMatcher._check_url.
  rewrite (fold_left_collect _
             (fun entry => Regex.search false (fst entry) (PyStr.lower url))
             (fun entry => "Possible " +:+ snd entry +:+ " URL spoofing"))
    by (intros acc [pattern company]; reflexivity).
  pose proof (collect_length
                (fun entry => Regex.search false (fst entry) (PyStr.lower url))
                (fun entry => "Possible " +:+ snd entry +:+ " URL spoofing")
                PatternMatcher.spoofed_patterns) as Hbrands.
  change (length PatternMatcher.spoofed_patterns) with 5%nat in Hbrands.
  set (brands := map _ (List.filter _ PatternMatcher.spoofed_patterns)) in *.
  destruct (existsb _ (firstn 3 PatternMatcher.suspicious_domains)),
           (Regex.search false PatternMatcher.ip_pattern url),
           (existsb _ PatternMatcher.suspicious_tlds);
    rewrite ?length_app; cbn [length app]; lia.
Qed.

Lemma check_urls_flat (urls acc : list string) :
  fold_left (fun threats url => threats ++ PatternMatcher._check_url url) urls acc
  = acc ++ flat_map PatternMatcher._check_url urls.
Proof.
  revert acc. induction urls as [|url urls IH]; intros acc; cbn [fold_left flat_map].
  - rewrite app_nil_r. reflexivity.
  - rewrite IH, app_assoc. reflexivity.
Qed.

Lemma check_urls_length (urls : list string) :
  (length (PatternMatcher._check_urls urls) <= 8 * length urls)%nat.
Proof.
  unfold PatternMatcher._check_urls. rewrite check_urls_flat. cbn [app].
  induction urls as [|url urls IH]; [simpl; lia|].
  cbn [flat_map]. rewrite length_app. pose proof (check_url_length url).
  cbn [length]. lia.
Qed.

(** X14: [check] raises nothing and returns the findings of the four checks
    in the order sender, subject, body, URLs; there are at most 7 findings
    for the sender, 3 for the subject, 12 for the body and 8 for each URL. *)
Theorem pattern_check_returns (parsed : ParsedEmail) :
  exists sender_threats,
    PatternMatcher._check_sender (sender parsed) = Ok sender_threats
    /\ PatternMatcher.check parsed
       = Ok (sender_threats
             ++ PatternMatcher._check_subject (subject parsed)
             ++ PatternMatcher._check_body (body parsed)
             ++ PatternMatcher._check_urls (urls parsed))
    /\ (length sender_threats <= 7)%nat
    /\ (length (PatternMatcher._check_subject (subject parsed)) <= 3)%nat
    /\ (length (PatternMatcher._check_body (body parsed)) <= 12)%nat
    /\ (length (PatternMatcher._check_urls (urls parsed)) <= 8 * length (urls parsed))%nat.
Proof.
  eexists. split; [apply check_sender_parts|]. cbv zeta.
  split; [|split; [|split; [|split]]].
  - unfold PatternMatcher.check. rewrite check_sender_parts. cbv zeta.
    cbn [mbind result_bind app]. rewrite <- !app_assoc. reflexivity.
  - rewrite !length_app.
    pose proof (collect_length
                  (fun entry =>
                     Regex.search false (fst entry) (PyStr.lower (sender parsed))
                     && negb (PyStr.contains (PyStr.lower (snd entry))
                                             (PyStr.lower (sender parsed))))
                  (fun entry => Spec.spoofing_line (snd entry))
                  PatternMatcher.spoofed_patterns) as Hbrands.
    change (length PatternMatcher.spoofed_patterns) with 5%nat in Hbrands.
    set (brands := map _ (List.filter _ PatternMatcher.spoofed_patterns)) in *.
    destruct (PyStr.contains "no-reply" _ && _), (_ && _ && _); cbn [length]; lia.
  - unfold PatternMatcher._check_subject.
    destruct (2 <=? _), (_ && _), (_ || _); cbn [app length]; lia.
  - unfold PatternMatcher._check_body.
    rewrite (fold_left_collect _
               (fun phrase => PyStr.contains phrase (PyStr.lower (body parsed)))
               (fun phrase => "Suspicious phrase: '" +:+ phrase +:+ "'"))
      by reflexivity.
    pose proof (collect_length
                  (fun phrase => PyStr.contains phrase (PyStr.lower (body parsed)))
                  (fun phrase => "Suspicious phrase: '" +:+ phrase +:+ "'")
                  PatternMatcher.suspicious_phrases) as Hphrases.
    change (length PatternMatcher.suspicious_phrases) with 9%nat in Hphrases.
    set (phrases := map _ (List.filter _ PatternMatcher.suspicious_phrases)) in *.
    destruct (3 <=? PatternMatcher.count_present PatternMatcher.credential_words _),
             (_ && _), (3 <? _);
      rewrite ?length_app; cbn [length app]; lia.
  - apply check_urls_length.
Qed.

(** ** The risk score and the risk factors *)



(** a specific factor is listed exactly when its flag is set *)
Ltac risk_factor_line Hline :=
  rewrite !in_app_iff;
  match goal with
  | |- In ?text [?line] \/ _ <-> _ =>
      assert (~ In text [line])
        by (let H := fresh in
            intros [H|[]];
            destruct Hline as [Hline|[Hline|[Hline|Hline]]];
            rewrite Hline in H; discriminate H)
  end;
  repeat match goal with
         | |- context [if ?flag then _ else _] => destruct flag
         end;
  cbn [In] in *; intuition (try congruence; auto).

(** X16: [get_risk_factors] returns between one and four lines, the first of
    them the probability line of the score; with the default thresholds a
    CRITICAL score always has the line for a very high probability and a LOW
    score the line for a low risk, while a HIGH score may have any of the
    three other lines. *)
Theorem risk_factors_and_tiers (score : Z) (suspicious_urls : bool)
        (parsed_data : ParsedEmail) :
  let factors := RiskScorer.get_risk_factors score suspicious_urls parsed_data in
  let tier := PhishingDetector._get_risk_level PhishingDetector._default_config score in
  (1 <= length factors <= 4)%nat
  /\ hd EmptyString factors
     = (if 80 <? score then "Very high phishing probability"
        else if 60 <? score then "High phishing probability"
        else if 40 <? score then "Moderate phishing risk"
        else "Low phishing risk")
  /\ (tier = CRITICAL -> hd EmptyString factors = "Very high phishing probability")
  /\ (tier = LOW -> hd EmptyString factors = "Low phishing risk")
  /\ (In "Contains suspicious URLs" factors <-> suspicious_urls = true)
  /\ (In "Sender appears spoofed" factors <-> sender_spoofed parsed_data = Some true)
  /\ (In "Uses urgency tactics" factors <-> urgency_detected parsed_data = true).
Proof.
  intros factors tier.
  set (line := if 80 <? score then "Very high phishing probability"
               else if 60 <? score then "High phishing probability"
               else if 40 <? score then "Moderate phishing risk"
               else "Low phishing risk").
  assert (factors
          = [line]
            ++ (if suspicious_urls then ["Contains suspicious URLs"] else [])
            ++ (if default false (sender_spoofed parsed_data)
                then ["Sender appears spoofed"] else [])
            ++ (if urgency_detected parsed_data then ["Uses urgency tactics"] else []))
    as ->.
  { subst factors line. unfold RiskScorer.get_risk_factors.
    destruct (80 <? score), (60 <? score), (40 <? score), suspicious_urls,
             (default false (sender_spoofed parsed_data)), (urgency_detected parsed_data);
      reflexivity. }
  assert (line = "Very high phishing probability" \/ line = "High phishing probability"
          \/ line = "Moderate phishing risk" \/ line = "Low phishing risk") as Hline.
  { subst line. destruct (80 <? score), (60 <? score), (40 <? score); auto. }
  split; [|split; [reflexivity|split; [|split; [|split; [|split]]]]].
  - destruct suspicious_urls, (default false (sender_spoofed parsed_data)),
             (urgency_detected parsed_data); cbn [app length]; lia.
  - subst tier line. unfold PhishingDetector._get_risk_level.
    cbn [risk_thresholds PhishingDetector._default_config low medium high hd app].
    destruct (Z.ltb_spec score 30), (Z.ltb_spec score 60), (Z.ltb_spec score 85);
      try discriminate. intros _.
    destruct (Z.ltb_spec 80 score); [reflexivity | lia].
  - subst tier line. unfold PhishingDetector._get_risk_level.
    cbn [risk_thresholds PhishingDetector._default_config low medium high hd app].
    destruct (Z.ltb_spec score 30); [|destruct (score <? 60), (score <? 85); discriminate].
    intros _.
    destruct (Z.ltb_spec 80 score), (Z.ltb_spec 60 score), (Z.ltb_spec 40 score);
      first [reflexivity | lia].
  - clearbody line.
    risk_factor_line Hline.
  - clearbody line.
    assert (default false (sender_spoofed parsed_data) = true
            <-> sender_spoofed parsed_data = Some true) as <-.
    { destruct (sender_spoofed parsed_data) as [[|]|]; cbn; split; congruence. }
    risk_factor_line Hline.
  - clearbody line.
    risk_factor_line Hline.
Qed.

Lemma risk_factors_and_tiers_witness :
  RiskScorer.get_risk_factors 85 true (Spec.bare EmptyString [])
  = ["Very high phishing probability"; "Contains suspicious URLs"]
  /\ hd EmptyString (RiskScorer.get_risk_factors 85 true (Spec.bare EmptyString []))
     = "Very high phishing probability".
Proof.
  split; [reflexivity|].
  apply (risk_factors_and_tiers 85 true (Spec.bare EmptyString [])). reflexivity.
Defined.

(** ** The cache of the analyzer *)

(** X17: a successful answer of the service is parsed, stored in the cache and
    returned, at the cost of one call; after that the analysis of any e-mail
    with the same sender, the same subject and the same first 200 characters
    of the body returns the stored answer without a call and without
    changing the state, whatever the rest of the body and the configuration. *)
Theorem analysis_is_cached (env : Env) (config config' : Config)
        (sender subject body body' response : string) (st : State) :
  cache st !! GPTAnalyzer._get_cache_key env sender subject body = None ->
  chat_completion env (calls st) (model config) (temperature config) (max_tokens config)
    GPTAnalyzer._get_system_prompt (GPTAnalyzer._build_prompt sender subject body)
  = Ok response ->
  PyStr.take_chars 200 body' = PyStr.take_chars 200 body ->
  let answer := GPTAnalyzer._parse_response env response in
  exists st1,
    GPTAnalyzer.analyze env sender subject body config st = (Ok answer, st1)
    /\ calls st1 = S (calls st)
    /\ cache st1
       = <[GPTAnalyzer._get_cache_key env sender subject body := answer]> (cache st)
    /\ GPTAnalyzer.analyze env sender subject body' config' st1 = (Ok answer, st1).
Proof.
  intros Hmiss Hcall Hsame answer.
  eexists. split; [|split; [|split]].
  - unfold GPTAnalyzer.analyze. rewrite Hmiss.
    unfold try_except, mbind, M_bind, GPTAnalyzer.create_completion. rewrite Hcall.
    unfold GPTAnalyzer.cache_store, mret, M_ret. reflexivity.
  - reflexivity.
  - reflexivity.
  - unfold GPTAnalyzer.analyze.
    assert (GPTAnalyzer._get_cache_key env sender subject body'
            = GPTAnalyzer._get_cache_key env sender subject body) as ->
      by (unfold GPTAnalyzer._get_cache_key; rewrite Hsame; reflexivity).
    cbn [cache]. rewrite lookup_insert_eq. reflexivity.
Qed.

Lemma analysis_is_cached_witness :
  exists answer st1,
    GPTAnalyzer.analyze Spec.talkative "a@example.org" "Hi" "first body"
      PhishingDetector._default_config Spec.fresh = (Ok answer, st1)
    /\ GptResult.score answer = Some 75
    /\ GPTAnalyzer.analyze Spec.talkative "a@example.org" "Hi" "first body"
         PhishingDetector._default_config st1 = (Ok answer, st1).
Proof.
  destruct (analysis_is_cached Spec.talkative PhishingDetector._default_config
              PhishingDetector._default_config "a@example.org" "Hi" "first body"
              "first body" "This looks like a phishing attempt." Spec.fresh)
    as (st1 & Hfirst & _ & _ & Hsecond); [reflexivity..|].
  eexists. exists st1. split; [exact Hfirst|]. split; [reflexivity | exact Hsecond].
Defined.

(** ** The response of the service *)

Lemma find_absent (c : ascii) (s : string) : PyStr.count c s = 0 -> GPTAnalyzer.find c s = -1.
Proof.
  induction s as [|a s IH]; [reflexivity|]. cbn [PyStr.count GPTAnalyzer.find].
  pose proof (count_nonneg c s) as Hnn. destruct (Ascii.eqb a c); [lia|].
  intros Hzero. rewrite IH by lia. reflexivity.
Qed.

Lemma rfind_absent (c : ascii) (s : string) : PyStr.count c s = 0 -> GPTAnalyzer.rfind c s = -1.
Proof.
  induction s as [|a s IH]; [reflexivity|]. cbn [PyStr.count GPTAnalyzer.rfind].
  pose proof (count_nonneg c s) as Hnn. destruct (Ascii.eqb a c); [lia|].
  intros Hzero. rewrite IH by lia. reflexivity.
Qed.

Lemma find_first (c : ascii) (before rest : string) :
  PyStr.count c before = 0 ->
  GPTAnalyzer.find c (before +:+ String c rest) = Z.of_nat (String.length before).
Proof.
  induction before as [|a before IH].
  - intros _. rewrite append_nil. cbn [GPTAnalyzer.find]. rewrite Ascii.eqb_refl. reflexivity.
  - rewrite append_cons. cbn [PyStr.count GPTAnalyzer.find String.length].
    pose proof (count_nonneg c before) as Hnn. destruct (Ascii.eqb a c); [lia|].
    intros Hzero. rewrite IH by lia.
    destruct (Z.ltb_spec (Z.of_nat (String.length before)) 0); lia.
Qed.

Lemma rfind_last (c : ascii) (s after : string) :
  PyStr.count c after = 0 ->
  GPTAnalyzer.rfind c (s +:+ String c after) = Z.of_nat (String.length s).
Proof.
  intros Hafter. induction s as [|a s IH].
  - rewrite append_nil. cbn [GPTAnalyzer.rfind]. rewrite (rfind_absent _ _ Hafter).
    rewrite Ascii.eqb_refl. reflexivity.
  - rewrite append_cons. cbn [GPTAnalyzer.rfind String.length]. rewrite IH.
    destruct (Z.leb_spec 0 (Z.of_nat (String.length s))); lia.
Qed.

Lemma slice_app (before text after : string) :
  GPTAnalyzer.slice (before +:+ text +:+ after)
    (Z.of_nat (String.length before))
    (Z.of_nat (String.length before) + Z.of_nat (String.length text))
  = text.
Proof.
  unfold GPTAnalyzer.slice. rewrite Nat2Z.id, drop_app.
  replace (Z.to_nat (Z.of_nat (String.length before) + Z.of_nat (String.length text)
                     - Z.of_nat (String.length before)))
    with (String.length text) by lia.
  apply take_app.
Qed.

(** X18: [_parse_response] hands the JSON reader the text from the first
    opening brace to the last closing brace and nothing else; when the reader
    fails, or when the response holds no opening or no closing brace, the
    result is the fallback, whose score is 75 if the response mentions
    phishing in any case and 50 otherwise. *)
Theorem parse_response_reads_braces (env : Env) (response : string) :
  (forall before middle after,
      response = before +:+ "{" +:+ middle +:+ "}" +:+ after ->
      PyStr.count "{" before = 0 -> PyStr.count "}" after = 0 ->
      GPTAnalyzer._parse_response env response
      = match json_loads env ("{" +:+ middle +:+ "}") with
        | Some parsed => parsed
        | None => GPTAnalyzer.fallback_parsing response
        end)
  /\ (PyStr.count "{" response = 0 \/ PyStr.count "}" response = 0 ->
      GPTAnalyzer._parse_response env response = GPTAnalyzer.fallback_parsing response)
  /\ GptResult.score (GPTAnalyzer.fallback_parsing response)
     = Some (if PyStr.contains "phishing" (PyStr.lower response) then 75 else 50).
Proof.
  split; [|split].
  - intros before middle after -> Hbefore Hafter.
    rewrite !(append_cons "{"), !(append_cons "}"), !append_nil.
    set (whole := before +:+ String "{" (middle +:+ String "}" after)).
    set (start := Z.of_nat (String.length before)).
    set (stop := start + Z.of_nat (String.length (String "{" (middle +:+ String "}" EmptyString)))).
    assert (GPTAnalyzer.find "{" whole = start) as Hfind
      by (apply find_first; exact Hbefore).
    assert (GPTAnalyzer.rfind "}" whole + 1 = stop) as Hrfind.
    { subst whole stop start.
      replace (before +:+ String "{" (middle +:+ String "}" after))
        with ((before +:+ String "{" middle) +:+ String "}" after)
        by (rewrite append_assoc, append_cons; reflexivity).
      rewrite (rfind_last "}" _ after Hafter), append_length.
      cbn [String.length]. rewrite append_length. cbn [String.length]. lia. }
    assert (GPTAnalyzer.slice whole start stop
            = String "{" (middle +:+ String "}" EmptyString)) as Hslice.
    { subst whole stop start.
      replace (before +:+ String "{" (middle +:+ String "}" after))
        with (before +:+ String "{" (middle +:+ String "}" EmptyString) +:+ after)
        by (rewrite append_cons, append_assoc, append_cons, append_nil; reflexivity).
      apply slice_app. }
    unfold GPTAnalyzer._parse_response. fold whole. rewrite Hfind, Hrfind, Hslice.
    replace ((0 <=? start) && (start <? stop)) with true; [reflexivity|].
    symmetry. apply andb_true_iff. subst stop start. cbn [String.length].
    split; [apply Z.leb_le | apply Z.ltb_lt]; lia.
  - intros Hnone. unfold GPTAnalyzer._parse_response.
    destruct Hnone as [Hopen|Hclose].
    + rewrite (find_absent _ _ Hopen). reflexivity.
    + rewrite (rfind_absent _ _ Hclose). change (-1 + 1) with 0.
      destruct (Z.leb_spec 0 (GPTAnalyzer.find "{" response)); [|reflexivity].
      replace (GPTAnalyzer.find "{" response <? 0) with false
        by (symmetry; apply Z.ltb_ge; lia).
      reflexivity.
  - unfold GPTAnalyzer.fallback_parsing. cbn [GptResult.score].
    destruct (PyStr.contains "phishing" _); reflexivity.
Qed.

Lemma parse_response_reads_braces_witness :
  GPTAnalyzer._parse_response Spec.offline "Sure: {score: 90} done"
  = GPTAnalyzer.fallback_parsing "Sure: {score: 90} done".
Proof.
  destruct (parse_response_reads_braces Spec.offline "Sure: {score: 90} done")
    as (Hbraces & _ & _).
  rewrite (Hbraces "Sure: " "score: 90" " done"); reflexivity.
Defined.

(** ** Detections *)

Lemma analyze_state (env : Env) (sender subject body : string) (config : Config)
      (st st' : State) (answer : GptResult.t) :
  GPTAnalyzer.analyze env sender subject body config st = (Ok answer, st') ->
  stdout st' = stdout st /\ clock st' = clock st
  /\ (calls st <= calls st' <= S (calls st))%nat.
Proof.
  unfold GPTAnalyzer.analyze.
  destruct (cache st !! GPTAnalyzer._get_cache_key env sender subject body) as [cached|].
  - intros [= _ <-]. auto.
  - unfold try_except, mbind, M_bind, GPTAnalyzer.create_completion,
      GPTAnalyzer.cache_store, mret, M_ret.
    destruct (chat_completion env _ _ _ _ _ _); intros [= _ <-]; cbn; auto.
Qed.

(** X19: every detection that [analyze_email] returns has a score from 0 to
    100 and the risk level of that score; it carries the threats of the
    language model among its own; the analysis reads the clock twice, calls
    the service once at most and prints nothing. *)
Theorem detection_invariants (env : Env) (config : Config)
        (sender subject body : string) (headers : option (list (string * string)))
        (st st' : State) (detection : DetectionResult.t) :
  PhishingDetector.analyze_email env config sender subject body headers st
  = (Ok detection, st') ->
  0 <= DetectionResult.score detection <= 100
  /\ DetectionResult.risk_level detection
     = PhishingDetector._get_risk_level config (DetectionResult.score detection)
  /\ (forall threat,
        In threat (default [] (GptResult.threats (DetectionResult.analysis detection))) ->
        In threat (DetectionResult.threats detection))
  /\ DetectionResult.timestamp detection = now_isoformat env (S (clock st))
  /\ clock st' = (clock st + 2)%nat
  /\ (calls st <= calls st' <= calls st + 1)%nat
  /\ stdout st' = stdout st.
Proof.
  intros Hrun.
  destruct (analyze_email_steps env config sender subject body headers st)
    as (parsed & found & answer & st2 & _ & _ & Hanswer & _ & _ & Hsteps).
  destruct (analyze_state _ _ _ _ _ _ _ _ Hanswer) as (Hout & Hclock & Hcalls).
  cbn [tick stdout clock calls] in Hout, Hclock, Hcalls.
  cbv zeta in Hsteps. rewrite Hsteps in Hrun.
  destruct (RiskScorer.calculate _ _ _ parsed) as [score|e] eqn:Hscore;
    [|discriminate Hrun].
  injection Hrun as <- <-.
  cbn [DetectionResult.score DetectionResult.risk_level DetectionResult.threats
         DetectionResult.analysis DetectionResult.timestamp tick stdout clock calls].
  split; [apply (calculate_range _ _ _ _ _ Hscore)|]. split; [reflexivity|].
  split; [|rewrite Hclock; repeat split; first [reflexivity | lia | assumption]].
  intros threat Hin. unfold Spec.merged_threats. rewrite !in_app_iff. auto.
Qed.

Lemma detection_invariants_witness :
  exists detection st',
    PhishingDetector.analyze_email Spec.talkative PhishingDetector._default_config
      "a@example.org" "Hi" "go to http://bit.ly/x now" None Spec.fresh
    = (Ok detection, st')
    /\ 0 <= DetectionResult.score detection <= 100
    /\ calls st' = 1%nat.
Proof.
  destruct (PhishingDetector.analyze_email Spec.talkative PhishingDetector._default_config
              "a@example.org" "Hi" "go to http://bit.ly/x now" None Spec.fresh)
    as [[detection|e] st'] eqn:Hrun; [|vm_compute in Hrun; discriminate Hrun].
  exists detection, st'. split; [reflexivity|].
  destruct (detection_invariants _ _ _ _ _ _ _ _ _ Hrun) as (Hscore & _).
  split; [exact Hscore|]. vm_compute in Hrun. injection Hrun as _ <-. reflexivity.
Defined.



(** ** Batches and files *)

Lemma batch_loop_cons (env : Env) (config : Config) (email : entry) (rest : list entry)
      (results : list DetectionResult.t) (st : State) :
  PhishingDetector.batch_loop env config (email :: rest) results st
  = match try_except
            (result ← PhishingDetector.analyze_entry env config email;
             mret (results ++ [result]))
            (fun e =>
               _ ← print ("Error analyzing email: " +:+ exn_message e);
               mret results) st with
    | (Ok results1, st1) => PhishingDetector.batch_loop env config rest results1 st1
    | (Raise e, st1) => (Raise e, st1)
    end.
Proof. reflexivity. Qed.

Lemma batch_loop_app (env : Env) (config : Config) (first second : list entry) :
  forall results st,
    PhishingDetector.batch_loop env config (first ++ second) results st
    = match PhishingDetector.batch_loop env config first results st with
      | (Ok results1, st1) => PhishingDetector.batch_loop env config second results1 st1
      | (Raise e, st1) => (Raise e, st1)
      end.
Proof.
  induction first as [|email rest IH]; intros results st; [reflexivity|].
  cbn [app]. rewrite !batch_loop_cons.
  destruct (try_except _ _ st) as [[results1|e] st1]; [apply IH | reflexivity].
Qed.

(** X21: the batch of two lists in a row is the batch of the first list
    followed by the batch of the second from the state the first one leaves:
    the detections come in the order of the entries. *)
Theorem batch_of_concatenation (env : Env) (config : Config)
        (first second : list entry) (st : State) :
  exists results1 st1 results2 st2,
    PhishingDetector.batch_analyze env config first st = (Ok results1, st1)
    /\ PhishingDetector.batch_analyze env config second st1 = (Ok results2, st2)
    /\ PhishingDetector.batch_analyze env config (first ++ second) st
       = (Ok (results1 ++ results2), st2).
Proof.
  destruct (batch_loop_results env config first st) as (results1 & st1 & Hfirst & _).
  destruct (batch_loop_results env config second st1) as (results2 & st2 & Hsecond & _).
  exists results1, st1, results2, st2. unfold PhishingDetector.batch_analyze.
  split; [apply (Hfirst [])|]. split; [apply (Hsecond [])|].
  rewrite batch_loop_app, (Hfirst []). cbn [app]. apply Hsecond.
Qed.

Lemma universal_newlines_plain (a b : string) :
  PyStr.count (ascii_of_N 13) a = 0 ->
  PyStr.universal_newlines (a +:+ b) = a +:+ PyStr.universal_newlines b.
Proof.
  induction a as [|c a IH]; [reflexivity|].
  cbn [PyStr.count]. pose proof (count_nonneg (ascii_of_N 13) a) as Hnn.
  destruct (Ascii.eqb c (ascii_of_N 13)) eqn:Hc; [lia|]. intros Hzero.
  rewrite !append_cons. cbn [PyStr.universal_newlines]. rewrite Hc, IH by lia.
  reflexivity.
Qed.

Lemma universal_newlines_clean (s : string) :
  PyStr.count (ascii_of_N 13) s = 0 -> PyStr.universal_newlines s = s.
Proof.
  intros H. pose proof (universal_newlines_plain s EmptyString H) as E.
  cbn [PyStr.universal_newlines] in E. rewrite !append_empty_r in E. exact E.
Qed.

(** the three parts of a text of three lines or more *)
Lemma read_email_lines (file sender subject body : string) :
  PyStr.count Regex.newline sender = 0 ->
  PyStr.count Regex.newline subject = 0 ->
  PyStr.universal_newlines file
  = sender +:+ GPTAnalyzer.nl +:+ subject +:+ GPTAnalyzer.nl +:+ body ->
  PhishingDetector.read_email file = (sender, subject, body).
Proof.
  intros Hsender Hsubject Hfile. unfold PhishingDetector.read_email. rewrite Hfile.
  unfold GPTAnalyzer.nl. fold Regex.newline.
  rewrite !(append_cons Regex.newline), !append_nil.
  rewrite !split_append, !(split_without _ _ Hsender), !(split_without _ _ Hsubject).
  destruct (split_nonempty Regex.newline body) as (line & lines & Hbody).
  rewrite Hbody. cbn [app length Nat.ltb Nat.leb nth skipn]. rewrite <- Hbody.
  rewrite join_split. reflexivity.
Qed.

(** X22: the e-mail file read by the command line holds the sender on its
    first line, the subject on its second and the body after them.  The file
    is read in text mode, so that a carriage return, alone or before a line
    feed, counts as a line feed: a sender and a subject without a line feed
    or a carriage return and any body are read back from the file that holds
    them one after the other, with line feeds or with carriage returns and
    line feeds between them, the body with its own carriage returns
    translated (so unchanged when it has none); a file of one or two lines
    has an empty body. *)
Theorem read_email_round_trip (sender subject body : string) :
  let cr := ascii_of_N 13 in
  let crlf := String cr GPTAnalyzer.nl in
  PyStr.count Regex.newline sender = 0 -> PyStr.count cr sender = 0 ->
  PyStr.count Regex.newline subject = 0 -> PyStr.count cr subject = 0 ->
  PhishingDetector.read_email
    (sender +:+ GPTAnalyzer.nl +:+ subject +:+ GPTAnalyzer.nl +:+ body)
  = (sender, subject, PyStr.universal_newlines body)
  /\ PhishingDetector.read_email (sender +:+ crlf +:+ subject +:+ crlf +:+ body)
     = (sender, subject, PyStr.universal_newlines body)
  /\ (PyStr.count cr body = 0 -> PyStr.universal_newlines body = body)
  /\ PhishingDetector.read_email (sender +:+ GPTAnalyzer.nl +:+ subject)
     = (sender, subject, EmptyString)
  /\ PhishingDetector.read_email sender = (sender, EmptyString, EmptyString).
Proof.
  intros cr crlf Hsender Hsender' Hsubject Hsubject'.
  assert (forall rest, PyStr.universal_newlines (GPTAnalyzer.nl +:+ rest)
                       = GPTAnalyzer.nl +:+ PyStr.universal_newlines rest) as Hlf
    by reflexivity.
  assert (forall rest, PyStr.universal_newlines (crlf +:+ rest)
                       = GPTAnalyzer.nl +:+ PyStr.universal_newlines rest) as Hcrlf
    by reflexivity.
  split; [|split; [|split; [|split]]].
  - apply read_email_lines; [assumption..|].
    rewrite universal_newlines_plain, Hlf, universal_newlines_plain, Hlf by assumption.
    reflexivity.
  - apply read_email_lines; [assumption..|].
    rewrite universal_newlines_plain, Hcrlf, universal_newlines_plain, Hcrlf
      by assumption.
    reflexivity.
  - apply universal_newlines_clean.
  - unfold PhishingDetector.read_email.
    rewrite universal_newlines_plain, Hlf, universal_newlines_clean by assumption.
    unfold GPTAnalyzer.nl. fold Regex.newline.
    rewrite !(append_cons Regex.newline), !append_nil.
    rewrite !split_append, !(split_without _ _ Hsender), !(split_without _ _ Hsubject).
    reflexivity.
  - unfold PhishingDetector.read_email.
    rewrite universal_newlines_clean, (split_without _ _ Hsender) by assumption.
    reflexivity.
Qed.

Lemma read_email_round_trip_witness :
  PhishingDetector.read_email
    ("a@example.org" +:+ String (ascii_of_N 13) GPTAnalyzer.nl +:+ "Hi"
     +:+ String (ascii_of_N 13) GPTAnalyzer.nl
     +:+ "one" +:+ String (ascii_of_N 13) GPTAnalyzer.nl +:+ "two")
  = ("a@example.org", "Hi", "one" +:+ GPTAnalyzer.nl +:+ "two").
Proof.
  apply (read_email_round_trip "a@example.org" "Hi"
           ("one" +:+ String (ascii_of_N 13) GPTAnalyzer.nl +:+ "two"));
    reflexivity.
Defined.

(** ** Reports *)

Section Escaping.

Lemma replace_char (c a : ascii) (new s : string) :
  PyStr.replace (String c EmptyString) new (String a s)
  = if Ascii.eqb a c then new +:+ PyStr.replace (String c EmptyString) new s
    else String a (PyStr.replace (String c EmptyString) new s).
Proof.
  unfold PyStr.replace. cbn [PyStr.replace_from]. rewrite prefix_char. reflexivity.
Qed.

(** the occurrences of a character after one character has been replaced by a text *)
Lemma count_replace_char (d c : ascii) (new s : string) :
  PyStr.count d (PyStr.replace (String c EmptyString) new s)
  = (if Ascii.eqb c d then 0 else PyStr.count d s) + PyStr.count d new * PyStr.count c s.
Proof.
  induction s as [|a s IH]; [cbn; destruct (Ascii.eqb c d); lia|].
  rewrite replace_char.
  destruct (Ascii.eqb_spec a c) as [->|Hac].
  - rewrite count_app, IH. cbn [PyStr.count]. rewrite Ascii.eqb_refl.
    destruct (Ascii.eqb c d); lia.
  - cbn [PyStr.count]. rewrite IH.
    replace (Ascii.eqb a c) with false by (symmetry; apply Ascii.eqb_neq; exact Hac).
    destruct (Ascii.eqb_spec c d) as [->|Hcd].
    + replace (Ascii.eqb a d) with false by (symmetry; apply Ascii.eqb_neq; exact Hac).
      lia.
    + destruct (Ascii.eqb a d); lia.
Qed.

Lemma count_replace_other (d c : ascii) (new s : string) :
  Ascii.eqb c d = false -> PyStr.count d new = 0 ->
  PyStr.count d (PyStr.replace (String c EmptyString) new s) = PyStr.count d s.
Proof. intros Hcd Hnew. rewrite count_replace_char, Hcd, Hnew. lia. Qed.

Lemma count_replace_same (c : ascii) (new s : string) :
  PyStr.count c new = 0 ->
  PyStr.count c (PyStr.replace (String c EmptyString) new s) = 0.
Proof. intros Hnew. rewrite count_replace_char, Ascii.eqb_refl, Hnew. lia. Qed.

(** an escaped text holds no angle bracket and no quote *)
Lemma escape_clean (s : string) :
  PyStr.count "<" (Html.escape s) = 0
  /\ PyStr.count ">" (Html.escape s) = 0
  /\ PyStr.count dquote (Html.escape s) = 0
  /\ PyStr.count squote (Html.escape s) = 0.
Proof.
  unfold Html.escape. repeat split;
    rewrite ?count_replace_other by reflexivity;
    apply count_replace_same; reflexivity.
Qed.

Lemma digit_of_N (k : N) : (k < 10)%N -> PyStr.isdigit (ascii_of_N (48 + k)) = true.
Proof.
  intros Hk.
  destruct k as [|[[[|[]|]|[[]|[]|]|]|[[| |]|[[]|[]|]|]|]]; try reflexivity; lia.
Qed.

Lemma digits_of_digits (fuel : nat) (n : N) (acc : string) :
  UrlLib.all_chars PyStr.isdigit acc = true ->
  UrlLib.all_chars PyStr.isdigit (PyStr.digits_of fuel n acc) = true.
Proof.
  revert n acc. induction fuel as [|fuel IH]; intros n acc Hacc; [exact Hacc|].
  cbn [PyStr.digits_of].
  assert (UrlLib.all_chars PyStr.isdigit (String (ascii_of_N (48 + n mod 10)) acc) = true)
    as Hnext.
  { cbn [UrlLib.all_chars]. rewrite digit_of_N, Hacc; [reflexivity|].
    apply N.mod_lt. discriminate. }
  destruct (n <? 10)%N; [exact Hnext | apply IH, Hnext].
Qed.

(** the decimal text of an integer holds digits and a minus sign only *)
Lemma str_of_Z_count (c : ascii) (z : Z) :
  PyStr.isdigit c = false -> c <> "-"%char -> PyStr.count c (PyStr.str_of_Z z) = 0.
Proof.
  intros Hdigit Hminus. unfold PyStr.str_of_Z.
  set (digits := PyStr.digits_of _ _ _).
  assert (PyStr.count c digits = 0) as Hzero
    by (apply digits_without; [exact Hdigit | apply digits_of_digits; reflexivity]).
  destruct (z <? 0); [|exact Hzero].
  cbn [PyStr.count]. rewrite Hzero.
  destruct (Ascii.eqb_spec "-" c) as [<-|_]; [contradiction | reflexivity].
Qed.

Lemma count_join_map (c : ascii) (f : string -> string) (n : Z) (xs : list string) :
  (forall x, PyStr.count c (f x) = n) ->
  PyStr.count c (PyStr.join EmptyString (map f xs)) = n * Z.of_nat (length xs).
Proof.
  intros Hf. induction xs as [|x xs IH]; [cbn; lia|].
  destruct xs as [|y xs].
  - cbn [map PyStr.join length]. rewrite Hf. lia.
  - change (PyStr.join EmptyString (map f (x :: y :: xs)))
      with (f x +:+ EmptyString +:+ PyStr.join EmptyString (map f (y :: xs))).
    rewrite append_nil, count_app, IH, Hf. cbn [length]. lia.
Qed.

End Escaping.

(** the count of a character in a concatenation of closed texts and of
    texts held in variables: the closed texts are counted by evaluation *)
Ltac count_pieces c :=
  rewrite !count_app;
  repeat match goal with
         | |- context [PyStr.count c ?piece] =>
             tryif is_var piece then fail
             else (let n := eval vm_compute in (PyStr.count c piece) in
                   change (PyStr.count c piece) with n)
         end.

(** X23: in the HTML report the threats, the suspicious URLs and the
    recommendations are escaped: each list adds the two tags of every element
    and no other markup, whatever the texts hold.  The opening angle brackets
    of the report are those of the template, two for each element (or for the
    placeholder of an empty list of threats or URLs), and those of the time
    stamp and of the JSON text of the analysis, which are not escaped. *)
Theorem html_report_markup (json : Json) (result : DetectionResult.t) :
  let elements (xs : list string) := Z.max 1 (Z.of_nat (length xs)) in
  PyStr.count "<" (ReportGenerator._generate_html json result)
  = 39
    + 2 * elements (DetectionResult.threats result)
    + 2 * elements (DetectionResult.suspicious_urls result)
    + 2 * Z.of_nat (length (DetectionResult.recommendations result))
    + PyStr.count "<" (DetectionResult.timestamp result)
    + PyStr.count "<" (dumps_analysis json (DetectionResult.analysis result)).
Proof.
  intros elements.
  assert (forall tag x,
             PyStr.count "<"
               ("<div class=" +:+ ReportGenerator.q +:+ tag +:+ ReportGenerator.q +:+ ">"
                +:+ Html.escape x +:+ "</div>")
             = PyStr.count "<" tag + 2) as Hdiv.
  { intros tag x. destruct (escape_clean x) as (Hlt & _).
    rewrite !count_app, Hlt. cbn. lia. }
  assert (PyStr.count "<" (ReportGenerator.threats_html (DetectionResult.threats result))
          = 2 * elements (DetectionResult.threats result)) as Hthreats.
  { unfold ReportGenerator.threats_html, elements.
    destruct (DetectionResult.threats result) as [|t ts] eqn:E; [reflexivity|].
    rewrite (count_join_map "<" _ 2) by (intros x; rewrite Hdiv; reflexivity).
    cbn [length]. lia. }
  assert (PyStr.count "<" (ReportGenerator.urls_html (DetectionResult.suspicious_urls result))
          = 2 * elements (DetectionResult.suspicious_urls result)) as Hurls.
  { unfold ReportGenerator.urls_html, elements.
    destruct (DetectionResult.suspicious_urls result) as [|t ts] eqn:E; [reflexivity|].
    rewrite (count_join_map "<" _ 2) by (intros x; rewrite Hdiv; reflexivity).
    cbn [length]. lia. }
  assert (PyStr.count "<"
            (ReportGenerator.recommendations_html (DetectionResult.recommendations result))
          = 2 * Z.of_nat (length (DetectionResult.recommendations result))) as Hrecs.
  { unfold ReportGenerator.recommendations_html.
    apply count_join_map. intros x. rewrite Hdiv. reflexivity. }
  assert (PyStr.count "<"
            (ReportGenerator.get_or
               (ReportGenerator.risk_name (DetectionResult.risk_level result))
               ReportGenerator.color_map "#6c757d") = 0) as Hcolor
    by (destruct (DetectionResult.risk_level result); reflexivity).
  assert (PyStr.count "<" (ReportGenerator.risk_name (DetectionResult.risk_level result)) = 0)
    as Hname by (destruct (DetectionResult.risk_level result); reflexivity).
  assert (forall z, PyStr.count "<" (PyStr.str_of_Z z) = 0) as Hnumber
    by (intros z; apply str_of_Z_count; [reflexivity | discriminate]).
  unfold ReportGenerator._generate_html. cbv zeta.
  set (color := ReportGenerator.get_or _ _ _) in *.
  set (name := ReportGenerator.risk_name _) in *.
  set (score := PyStr.str_of_Z (DetectionResult.score result)).
  set (stamp := DetectionResult.timestamp result).
  set (n_threats := PyStr.str_of_Z (Z.of_nat (length (DetectionResult.threats result)))).
  set (n_urls := PyStr.str_of_Z (Z.of_nat (length (DetectionResult.suspicious_urls result)))).
  set (threats := ReportGenerator.threats_html _) in *.
  set (urls := ReportGenerator.urls_html _) in *.
  set (recs := ReportGenerator.recommendations_html _) in *.
  set (analysis := dumps_analysis json _).
  assert (PyStr.count "<" score = 0) as Hscore by apply Hnumber.
  assert (PyStr.count "<" n_threats = 0) as Hn_threats by apply Hnumber.
  assert (PyStr.count "<" n_urls = 0) as Hn_urls by apply Hnumber.
  clearbody color name score stamp n_threats n_urls threats urls recs analysis.
  count_pieces "<"%char. lia.
Qed.

(** ** The summary of a batch *)

Section Summary.

Lemma counted_bump (key type : string) (threat_count : list (string * Z)) :
  Spec.counted key (ReportGenerator.bump type threat_count)
  = Spec.counted key threat_count + (if String.eqb type key then 1 else 0).
Proof.
  induction threat_count as [|[k n] rest IH]; cbn [ReportGenerator.bump Spec.counted].
  - lia.
  - destruct (String.eqb_spec k type) as [->|Hkt]; cbn [Spec.counted].
    + destruct (String.eqb type key); lia.
    + rewrite IH. destruct (String.eqb_spec k key) as [->|Hkk]; [|reflexivity].
      destruct (String.eqb_spec type key) as [->|_]; [contradiction | lia].
Qed.

Lemma bump_keys (type : string) (threat_count : list (string * Z)) :
  map fst (ReportGenerator.bump type threat_count)
  = if existsb (String.eqb type) (map fst threat_count)
    then map fst threat_count
    else map fst threat_count ++ [type].
Proof.
  induction threat_count as [|[k n] rest IH]; cbn [ReportGenerator.bump map fst existsb];
    [reflexivity|].
  rewrite (String.eqb_sym k type).
  destruct (String.eqb type k); cbn [map fst orb]; [reflexivity|].
  rewrite IH. destruct (existsb _ _); reflexivity.
Qed.

Lemma bump_NoDup (type : string) (threat_count : list (string * Z)) :
  List.NoDup (map fst threat_count) ->
  List.NoDup (map fst (ReportGenerator.bump type threat_count)).
Proof.
  intros Hnodup. rewrite bump_keys.
  destruct (existsb _ _) eqn:Hin; [exact Hnodup|].
  apply List.NoDup_app; [exact Hnodup | repeat constructor; intros [] |].
  intros key Hkey [<-|[]].
  assert (existsb (String.eqb type) (map fst threat_count) = true) as Htrue
    by (apply existsb_exists; exists type; split; [exact Hkey | apply String.eqb_refl]).
  congruence.
Qed.

Lemma bump_positive (type : string) (threat_count : list (string * Z)) :
  Forall (fun entry => 0 < snd entry) threat_count ->
  Forall (fun entry => 0 < snd entry) (ReportGenerator.bump type threat_count).
Proof.
  induction 1 as [|[k n] rest Hn Hrest IH]; cbn [ReportGenerator.bump].
  - repeat constructor.
  - cbn [snd] in Hn. destruct (String.eqb k type); constructor; cbn [snd]; auto; lia.
Qed.

(** the dictionary after the threats of some detections have been counted *)
Lemma count_threats_invariant (results : list DetectionResult.t) :
  forall threat_count,
    List.NoDup (map fst threat_count) ->
    Forall (fun entry => 0 < snd entry) threat_count ->
    let counts :=
      fold_left
        (fun threat_count result =>
           fold_left (fun threat_count threat =>
                        let threat_type := hd EmptyString (PyStr.split ":" threat) in
                        ReportGenerator.bump threat_type threat_count)
                     (DetectionResult.threats result) threat_count)
        results threat_count in
    List.NoDup (map fst counts)
    /\ Forall (fun entry => 0 < snd entry) counts
    /\ forall key,
         Spec.counted key counts = Spec.counted key threat_count + Spec.occurrences key results.
Proof.
  assert (forall threats threat_count,
             List.NoDup (map fst threat_count) ->
             Forall (fun entry => 0 < snd entry) threat_count ->
             let counts :=
               fold_left (fun threat_count threat =>
                            let threat_type := hd EmptyString (PyStr.split ":" threat) in
                            ReportGenerator.bump threat_type threat_count)
                         threats threat_count in
             List.NoDup (map fst counts)
             /\ Forall (fun entry => 0 < snd entry) counts
             /\ forall key,
                  Spec.counted key counts
                  = Spec.counted key threat_count
                    + Z.of_nat (length (List.filter
                                          (fun threat =>
                                             String.eqb (Spec.threat_type threat) key)
                                          threats))) as Hinner.
  { induction threats as [|threat threats IH]; intros threat_count Hnodup Hpos.
    - cbn. repeat split; [assumption..|]. intros key. lia.
    - cbn [fold_left].
      destruct (IH (ReportGenerator.bump (Spec.threat_type threat) threat_count)
                   (bump_NoDup _ _ Hnodup) (bump_positive _ _ Hpos))
        as (Hn & Hp & Hc).
      cbv zeta in *. split; [exact Hn|]. split; [exact Hp|].
      intros key. rewrite Hc, counted_bump. cbn [List.filter].
      fold (Spec.threat_type threat).
      destruct (String.eqb (Spec.threat_type threat) key); cbn [length]; lia. }
  induction results as [|result results IH]; intros threat_count Hnodup Hpos.
  - cbn. repeat split; [assumption..|]. intros key. unfold Spec.occurrences. cbn. lia.
  - cbn [fold_left]. destruct (Hinner (DetectionResult.threats result) _ Hnodup Hpos)
      as (Hn & Hp & Hc). cbv zeta in Hn, Hp, Hc.
    destruct (IH _ Hn Hp) as (Hn' & Hp' & Hc'). cbv zeta in *.
    split; [exact Hn'|]. split; [exact Hp'|].
    intros key. rewrite Hc', Hc. unfold Spec.occurrences. cbn [flat_map].
    rewrite List.filter_app, length_app. lia.
Qed.

Lemma counted_In (key : string) (n : Z) (threat_count : list (string * Z)) :
  List.NoDup (map fst threat_count) -> In (key, n) threat_count ->
  Spec.counted key threat_count = n.
Proof.
  induction threat_count as [|[k m] rest IH]; [intros _ []|].
  cbn [map fst Spec.counted]. intros Hnodup [[= -> ->]|Hin].
  - rewrite String.eqb_refl. reflexivity.
  - inversion Hnodup as [|? ? Hk Hrest]. subst.
    destruct (String.eqb_spec k key) as [->|_]; [|apply IH; assumption].
    exfalso. apply Hk. apply in_map_iff. exists (key, n). split; [reflexivity | exact Hin].
Qed.

Lemma counted_present (key : string) (threat_count : list (string * Z)) :
  Spec.counted key threat_count <> 0 -> In key (map fst threat_count).
Proof.
  induction threat_count as [|[k m] rest IH]; cbn [Spec.counted map fst]; [contradiction|].
  destruct (String.eqb_spec k key) as [->|_]; [left; reflexivity|].
  intros H. right. apply IH. exact H.
Qed.

Lemma insert_sorted_permutation (item : string * Z) (sorted : list (string * Z)) :
  Permutation (ReportGenerator.insert_sorted item sorted) (item :: sorted).
Proof.
  induction sorted as [|other rest IH]; cbn [ReportGenerator.insert_sorted]; [reflexivity|].
  destruct (snd item <? snd other); [|reflexivity].
  rewrite IH. apply perm_swap.
Qed.

Lemma sorted_by_count_permutation (items : list (string * Z)) :
  Permutation (ReportGenerator.sorted_by_count items) items.
Proof.
  induction items as [|item items IH]; cbn; [reflexivity|].
  rewrite insert_sorted_permutation, IH. reflexivity.
Qed.

Lemma insert_sorted_descending (item : string * Z) (sorted : list (string * Z)) :
  StronglySorted Spec.descending sorted ->
  StronglySorted Spec.descending (ReportGenerator.insert_sorted item sorted).
Proof.
  induction 1 as [|other rest Hrest IH Hall]; cbn [ReportGenerator.insert_sorted].
  - repeat constructor.
  - destruct (Z.ltb_spec (snd item) (snd other)) as [Hlt|Hge].
    + constructor; [exact IH|].
      rewrite List.Forall_forall. intros entry Hin.
      apply (Permutation_in _ (insert_sorted_permutation item rest)) in Hin as [<-|Hin].
      * unfold Spec.descending. lia.
      * rewrite List.Forall_forall in Hall. apply Hall, Hin.
    + constructor; [constructor; assumption|].
      constructor; [unfold Spec.descending; lia|].
      rewrite List.Forall_forall in *. intros entry Hin. specialize (Hall _ Hin).
      unfold Spec.descending in *. lia.
Qed.

Lemma sorted_by_count_descending (items : list (string * Z)) :
  StronglySorted Spec.descending (ReportGenerator.sorted_by_count items).
Proof.
  induction items as [|item items IH]; cbn; [constructor|].
  apply insert_sorted_descending, IH.
Qed.

Lemma descending_app (first rest : list (string * Z)) :
  StronglySorted Spec.descending (first ++ rest) ->
  StronglySorted Spec.descending first
  /\ forall a b, In a first -> In b rest -> snd b <= snd a.
Proof.
  induction first as [|x first IH]; cbn [app]; intros Hsorted.
  - split; [constructor | intros a b []].
  - inversion Hsorted as [|? ? Htail Hall]. subst. destruct (IH Htail) as [Hfirst Hcross].
    split.
    + constructor; [exact Hfirst|]. rewrite List.Forall_forall in *.
      intros entry Hin. apply Hall, in_or_app. left. exact Hin.
    + intros a b [<-|Hin] Hb; [|apply Hcross; assumption].
      rewrite List.Forall_forall in Hall. apply (Hall b), in_or_app. right. exact Hb.
Qed.

Lemma summary_lines (entries : list (string * Z)) (header : string) :
  fold_left
    (fun summary '(threat, count) =>
       summary +:+ "• " +:+ threat +:+ ": " +:+ PyStr.str_of_Z count
       +:+ " occurrences" +:+ ReportGenerator.nl)
    entries header
  = header +:+ PyStr.join EmptyString (map Spec.summary_line entries).
Proof.
  revert header. induction entries as [|[threat count] entries IH]; intros header.
  - cbn. rewrite append_empty_r. reflexivity.
  - cbn [fold_left map]. rewrite IH.
    assert (forall part parts,
               PyStr.join EmptyString (part :: parts)
               = part +:+ PyStr.join EmptyString parts) as Hjoin.
    { intros part [|next parts]; cbn [PyStr.join];
        [rewrite append_empty_r | rewrite append_nil]; reflexivity. }
    rewrite Hjoin, append_assoc. reflexivity.
Qed.

End Summary.

(** X24: the top threats of a batch summary.  The summary lists five threat
    types at most, no type twice, the more frequent first; the count of a
    listed type is the number of threats of all the detections whose text
    before the first colon is that type; a type that occurs without being
    listed occurs no more often than any of the five listed ones; and the
    summary of a batch that is not empty ends with one line for each listed
    type, in that order. *)
Theorem top_threats_of_summary (results : list DetectionResult.t) :
  let top := ReportGenerator.top_threats results in
  (length top <= 5)%nat
  /\ List.NoDup (map fst top)
  /\ StronglySorted Spec.descending top
  /\ (forall type n, In (type, n) top -> 0 < n /\ n = Spec.occurrences type results)
  /\ (forall type,
        0 < Spec.occurrences type results -> ~ In type (map fst top) ->
        length top = 5%nat
        /\ forall entry, In entry top -> Spec.occurrences type results <= snd entry)
  /\ (forall text,
        results <> [] -> ReportGenerator.generate_summary results = Ok text ->
        exists header,
          text = header +:+ PyStr.join EmptyString (map Spec.summary_line top)).
Proof.
  intros top.
  destruct (count_threats_invariant results [] (List.NoDup_nil _) (List.Forall_nil _))
    as (Hnodup & Hpos & Hcount).
  fold (ReportGenerator.count_threats results) in Hnodup, Hpos, Hcount.
  cbn [Spec.counted] in Hcount.
  set (counts := ReportGenerator.count_threats results) in *.
  pose proof (sorted_by_count_permutation counts) as Hperm.
  pose proof (sorted_by_count_descending counts) as Hsorted.
  set (sorted := ReportGenerator.sorted_by_count counts) in *.
  assert (top = firstn 5 sorted) as Htop by reflexivity.
  rewrite <- (firstn_skipn 5 sorted) in Hsorted.
  rewrite <- Htop in Hsorted. destruct (descending_app _ _ Hsorted) as [Hfirst Hcross].
  assert (forall entry, In entry top -> In entry counts) as Hin_counts.
  { intros entry Hin. apply (Permutation_in _ Hperm).
    rewrite <- (firstn_skipn 5 sorted), <- Htop. apply in_or_app. left. exact Hin. }
  split; [rewrite Htop; apply firstn_le_length|].
  split.
  { assert (List.NoDup (map fst sorted)) as Hkeys
      by (apply (Permutation_NoDup (Permutation_map fst (Permutation_sym Hperm))), Hnodup).
    rewrite <- (firstn_skipn 5 sorted), <- Htop, map_app in Hkeys.
    apply List.NoDup_app_remove_r in Hkeys. exact Hkeys. }
  split; [exact Hfirst|]. split; [|split].
  - intros type n Hin. specialize (Hin_counts _ Hin).
    rewrite List.Forall_forall in Hpos. split; [apply (Hpos _ Hin_counts)|].
    rewrite <- (counted_In type n counts Hnodup Hin_counts). rewrite Hcount. lia.
  - intros type Hoccurs Hmissing.
    assert (In type (map fst counts)) as Hkey
      by (apply counted_present; rewrite Hcount; lia).
    apply in_map_iff in Hkey as ([key n] & Hfst & Hin). cbn [fst] in Hfst. subst key.
    assert (n = Spec.occurrences type results) as Hn
      by (rewrite <- (counted_In type n counts Hnodup Hin), Hcount; lia).
    apply (Permutation_in _ (Permutation_sym Hperm)) in Hin.
    rewrite <- (firstn_skipn 5 sorted), <- Htop in Hin.
    apply in_app_or in Hin as [Hin|Hin].
    { exfalso. apply Hmissing. apply in_map_iff. exists (type, n). auto. }
    split.
    + assert (5 < length sorted)%nat as Hlong.
      { destruct (Nat.le_gt_cases (length sorted) 5) as [Hshort|]; [|assumption].
        rewrite skipn_all2 in Hin by exact Hshort. destruct Hin. }
      rewrite Htop, length_firstn. lia.
    + intros entry Hentry. rewrite <- Hn. apply (Hcross entry (type, n) Hentry Hin).
  - intros text Hne Hsum. unfold ReportGenerator.generate_summary in Hsum.
    destruct (Z.eqb_spec (Z.of_nat (length results)) 0) as [Hzero|_].
    { destruct results; [contradiction | cbn [length] in Hzero; lia]. }
    cbv zeta in Hsum.
    destruct (PyFloat.true_div _ _) as [avg_score|?];
      cbn [mbind result_bind] in Hsum; [|discriminate].
    destruct (ReportGenerator.distribution_line "CRITICAL" _ _) as [critical_line|?];
      cbn [mbind result_bind] in Hsum; [|discriminate].
    destruct (ReportGenerator.distribution_line "HIGH" _ _) as [high_line|?];
      cbn [mbind result_bind] in Hsum; [|discriminate].
    destruct (ReportGenerator.distribution_line "MEDIUM" _ _) as [medium_line|?];
      cbn [mbind result_bind] in Hsum; [|discriminate].
    destruct (ReportGenerator.distribution_line "LOW" _ _) as [low_line|?];
      cbn [mbind result_bind] in Hsum; [|discriminate].
    injection Hsum as <-. fold top. rewrite summary_lines. eexists. reflexivity.
Qed.

Lemma top_threats_of_summary_witness :
  Spec.occurrences "Suspicious phrase" [Spec.sample_detection] = 2.
Proof.
  pose proof (top_threats_of_summary [Spec.sample_detection]) as Htop.
  cbv zeta in Htop. destruct Htop as (_ & _ & _ & Hcount & _).
  symmetry. apply (Hcount "Suspicious phrase" 2). vm_compute. auto.
Defined.

(** ** The text report *)

Lemma fold_left_lines {A : Type} (f : A -> string) (xs : list A) (lines : list string) :
  fold_left (fun lines x => lines ++ [f x]) xs lines = lines ++ map f xs.
Proof.
  revert lines. induction xs as [|x xs IH]; intros lines; cbn [fold_left map].
  - rewrite app_nil_r. reflexivity.
  - rewrite IH, <- app_assoc. reflexivity.
Qed.

Lemma items_single (mark none : string) (xs : list string) :
  PyStr.count Regex.newline mark = 0 -> PyStr.count Regex.newline none = 0 ->
  Forall (fun x => PyStr.count Regex.newline x = 0) xs ->
  Forall (fun line => PyStr.count Regex.newline line = 0)
         (match xs with [] => [none] | _ :: _ => map (fun x => mark +:+ x) xs end).
Proof.
  intros Hmark Hnone Hxs.
  assert (Forall (fun line => PyStr.count Regex.newline line = 0)
                 (map (fun x => mark +:+ x) xs)) as Hall.
  { induction Hxs as [|x xs Hx _ IH]; cbn [map]; constructor; [|exact IH].
    rewrite count_app, Hmark, Hx. reflexivity. }
  destruct xs; [repeat constructor; exact Hnone | exact Hall].
Qed.

(** splitting a join gives the pieces of every part *)
Lemma split_join_parts (sep : ascii) (part : string) (parts : list string) :
  PyStr.split sep (PyStr.join (String sep EmptyString) (part :: parts))
  = flat_map (PyStr.split sep) (part :: parts).
Proof.
  revert part. induction parts as [|next parts IH]; intros part.
  - cbn [PyStr.join flat_map]. rewrite app_nil_r. reflexivity.
  - change (PyStr.join (String sep EmptyString) (part :: next :: parts))
      with (part +:+ String sep EmptyString
            +:+ PyStr.join (String sep EmptyString) (next :: parts)).
    rewrite append_cons, append_nil, split_append, IH. reflexivity.
Qed.

Lemma flat_map_single (sep : ascii) (lines : list string) :
  Forall (fun line => PyStr.count sep line = 0) lines ->
  flat_map (PyStr.split sep) lines = lines.
Proof.
  induction 1 as [|line lines Hline _ IH]; [reflexivity|].
  cbn [flat_map]. rewrite (split_without _ _ Hline), IH. reflexivity.
Qed.

(** X25: the lines of the text report.  When neither the time stamp, nor a
    threat, a URL or a recommendation holds a line break, splitting the text
    report at its line breaks gives the nine lines of the head, one bullet
    line for every threat (or the line that says that there is none), the
    three lines of the URL head, one bullet line for every suspicious URL (or
    the line that says that there is none), the three lines of the
    recommendation head, one arrow line for every recommendation, the three
    lines of the analysis head, the lines of the JSON text of the analysis,
    whatever they are, and the closing rule. *)
Theorem text_report_lines (json : Json) (result : DetectionResult.t) :
  let single (s : string) := PyStr.count Regex.newline s = 0 in
  let items (xs : list string) (none : string) :=
    match xs with [] => [none] | _ :: _ => map (fun x => "• " +:+ x) xs end in
  single (DetectionResult.timestamp result) ->
  Forall single (DetectionResult.threats result) ->
  Forall single (DetectionResult.suspicious_urls result) ->
  Forall single (DetectionResult.recommendations result) ->
  PyStr.split Regex.newline (ReportGenerator._generate_text json result)
  = [ ReportGenerator.times "=" 60;
      "PHISHING DETECTION REPORT";
      ReportGenerator.times "=" 60;
      "Timestamp: " +:+ DetectionResult.timestamp result;
      "Risk Score: " +:+ PyStr.str_of_Z (DetectionResult.score result) +:+ "/100";
      "Risk Level: " +:+ ReportGenerator.risk_name (DetectionResult.risk_level result);
      EmptyString;
      "THREATS DETECTED:";
      ReportGenerator.times "-" 40 ]
    ++ items (DetectionResult.threats result) "No specific threats identified"
    ++ [ EmptyString; "SUSPICIOUS URLS:"; ReportGenerator.times "-" 40 ]
    ++ items (DetectionResult.suspicious_urls result) "No suspicious URLs found"
    ++ [ EmptyString; "RECOMMENDATIONS:"; ReportGenerator.times "-" 40 ]
    ++ map (fun rec => "→ " +:+ rec) (DetectionResult.recommendations result)
    ++ [ EmptyString; "AI ANALYSIS:"; ReportGenerator.times "-" 40 ]
    ++ PyStr.split Regex.newline (dumps_analysis json (DetectionResult.analysis result))
    ++ [ ReportGenerator.times "=" 60 ].
Proof.
  intros single items Htimestamp Hthreats Hurls Hrecs.
  set (dump := dumps_analysis json (DetectionResult.analysis result)).
  set (head :=
         [ ReportGenerator.times "=" 60;
           "PHISHING DETECTION REPORT";
           ReportGenerator.times "=" 60;
           "Timestamp: " +:+ DetectionResult.timestamp result;
           "Risk Score: " +:+ PyStr.str_of_Z (DetectionResult.score result) +:+ "/100";
           "Risk Level: "
           +:+ ReportGenerator.risk_name (DetectionResult.risk_level result);
           EmptyString;
           "THREATS DETECTED:";
           ReportGenerator.times "-" 40 ]
         ++ items (DetectionResult.threats result) "No specific threats identified"
         ++ [ EmptyString; "SUSPICIOUS URLS:"; ReportGenerator.times "-" 40 ]
         ++ items (DetectionResult.suspicious_urls result) "No suspicious URLs found"
         ++ [ EmptyString; "RECOMMENDATIONS:"; ReportGenerator.times "-" 40 ]
         ++ map (fun rec => "→ " +:+ rec) (DetectionResult.recommendations result)
         ++ [ EmptyString; "AI ANALYSIS:"; ReportGenerator.times "-" 40 ]).
  assert (ReportGenerator._generate_text json result
          = PyStr.join (String Regex.newline EmptyString)
              (head ++ [dump; ReportGenerator.times "=" 60])) as ->.
  { unfold ReportGenerator._generate_text, head, items, dump. cbv zeta.
    rewrite fold_left_lines. f_equal.
    destruct (DetectionResult.threats result) as [|threat threats];
      destruct (DetectionResult.suspicious_urls result) as [|url urls];
      rewrite ?fold_left_lines;
      repeat first [rewrite <- app_assoc | progress cbn [app]]; reflexivity. }
  assert (Forall single head) as Hhead.
  { unfold head. repeat (apply List.Forall_app; split).
    - repeat constructor; unfold single; try reflexivity.
      + rewrite count_app, Htimestamp. reflexivity.
      + rewrite !count_app, str_of_Z_count by (reflexivity || discriminate). reflexivity.
      + destruct (DetectionResult.risk_level result); reflexivity.
    - apply items_single; [reflexivity | reflexivity | exact Hthreats].
    - repeat constructor; reflexivity.
    - apply items_single; [reflexivity | reflexivity | exact Hurls].
    - repeat constructor; reflexivity.
    - induction Hrecs as [|rec recs Hrec _ IH]; cbn [map]; constructor; [|exact IH].
      unfold single. rewrite count_app, Hrec. reflexivity.
    - repeat constructor; reflexivity. }
  assert (head ++ [dump; ReportGenerator.times "=" 60]
          = ReportGenerator.times "=" 60
            :: tl (head ++ [dump; ReportGenerator.times "=" 60])) as Hcons
    by reflexivity.
  rewrite Hcons, split_join_parts, <- Hcons, flat_map_app, (flat_map_single _ _ Hhead).
  cbn [flat_map]. rewrite app_nil_r.
  replace (PyStr.split Regex.newline (ReportGenerator.times "=" 60))
    with [ReportGenerator.times "=" 60] by reflexivity.
  unfold head. rewrite <- !app_assoc. reflexivity.
Qed.

Lemma text_report_lines_witness :
  length (PyStr.split Regex.newline
            (ReportGenerator._generate_text Spec.fallback_json Spec.sample_detection))
  = 32%nat.
Proof.
  rewrite (text_report_lines Spec.fallback_json Spec.sample_detection).
  - reflexivity.
  - reflexivity.
  - repeat constructor.
  - repeat constructor.
  - repeat constructor.
Defined.

(** ** Counting the indicators that are present *)

Section Counting.
Context {A : Type}.

Lemma count_fold (p : A -> bool) (xs : list A) (n : Z) :
  fold_left (fun acc x => if p x then acc + 1 else acc) xs n
  = n + Z.of_nat (length (List.filter p xs)).
Proof.
  revert n. induction xs as [|x xs IH]; intros n; cbn [fold_left List.filter].
  - cbn. lia.
  - rewrite IH. destruct (p x); cbn [length]; lia.
Qed.

Lemma two_present (p : A -> bool) (xs : list A) (x y : A) :
  x <> y -> In x xs -> In y xs -> p x = true -> p y = true ->
  (2 <= length (List.filter p xs))%nat.
Proof.
  intros Hne Hx Hy Hpx Hpy.
  assert (forall z zs, In z zs -> p z = true -> (1 <= length (List.filter p zs))%nat)
    as Hone.
  { intros z zs Hz Hpz.
    assert (In z (List.filter p zs)) as Hin by (apply filter_In; auto).
    destruct (List.filter p zs); [destruct Hin | cbn [length]; lia]. }
  induction xs as [|a xs IH]; [destruct Hx|].
  cbn [List.filter]. destruct Hx as [->|Hx], Hy as [->|Hy].
  - contradiction.
  - rewrite Hpx. cbn [length]. pose proof (Hone y xs Hy Hpy). lia.
  - rewrite Hpy. cbn [length]. pose proof (Hone x xs Hx Hpx). lia.
  - specialize (IH Hx Hy). destruct (p a); cbn [length]; lia.
Qed.

Lemma present_two (p : A -> bool) (xs : list A) :
  List.NoDup xs -> (2 <= length (List.filter p xs))%nat ->
  exists x y, x <> y /\ In x xs /\ In y xs /\ p x = true /\ p y = true.
Proof.
  intros Hnodup Hlen. pose proof (List.NoDup_filter p Hnodup) as Hfiltered.
  destruct (List.filter p xs) as [|x [|y rest]] eqn:E; cbn [length] in Hlen; try lia.
  assert (In x (List.filter p xs)) as Hx by (rewrite E; left; reflexivity).
  assert (In y (List.filter p xs)) as Hy by (rewrite E; right; left; reflexivity).
  apply filter_In in Hx as [Hx Hpx]. apply filter_In in Hy as [Hy Hpy].
  exists x, y. repeat split; try assumption.
  intros ->. inversion Hfiltered as [|? ? Hnotin _]. apply Hnotin. left. reflexivity.
Qed.
End Counting.

(** ** The path and the redirections of a URL *)

Lemma unquote_clean (s : string) :
  UrlLib.all_chars (fun c => negb (Ascii.eqb c "%")) s = true -> UrlLib.unquote s = s.
Proof.
  induction s as [|c s IH]; [reflexivity|].
  cbn [UrlLib.all_chars UrlLib.unquote]. intros H.
  apply andb_true_iff in H as [Hc Hs]. apply negb_true_iff in Hc.
  rewrite Hc, (IH Hs). reflexivity.
Qed.

Lemma remove_chars_clean (p : ascii -> bool) (s : string) :
  UrlLib.all_chars (fun c => negb (p c)) s = true -> UrlLib.remove_chars p s = s.
Proof.
  intros H. pose proof (remove_chars_plain p s EmptyString H) as E.
  cbn [UrlLib.remove_chars] in E. rewrite !append_empty_r in E. exact E.
Qed.

Lemma cut_absent (c : ascii) (s : string) :
  UrlLib.all_chars (fun a => negb (Ascii.eqb c a)) s = true -> UrlLib.cut c s = None.
Proof.
  intros H. unfold UrlLib.cut.
  pose proof (break_plain (Ascii.eqb c) s EmptyString H eq_refl) as E.
  rewrite append_empty_r in E. rewrite E. reflexivity.
Qed.

Lemma path_char_lower (c : ascii) :
  Spec.path_char (PyStr.lower_char c) = Spec.path_char c.
Proof. destruct c as [[] [] [] [] [] [] [] []]; reflexivity. Qed.

Lemma plain_path_lower (path : string) :
  Spec.plain_path (PyStr.lower path) = Spec.plain_path path.
Proof.
  unfold Spec.plain_path. rewrite (all_chars_lower _ path path_char_lower).
  f_equal. destruct path as [|c path]; [reflexivity|].
  cbn [PyStr.lower]. unfold PyStr.startswith. rewrite !prefix_char.
  destruct c as [[] [] [] [] [] [] [] []]; reflexivity.
Qed.

(** the parse of a URL with an http or https scheme, a plain host and a
    plain path *)
Lemma urlparse_path (secure : bool) (host path : string) :
  Spec.plain_host host = true -> Spec.plain_path path = true ->
  UrlLib.urlparse ((if secure then "https://" else "http://") +:+ host +:+ path)
  = Ok {| UrlLib.scheme := if secure then "https" else "http";
          UrlLib.netloc := host;
          UrlLib.path := path;
          UrlLib.params := EmptyString;
          UrlLib.query := EmptyString;
          UrlLib.fragment := EmptyString |}.
Proof.
  intros Hhost Hpath. unfold Spec.plain_path in Hpath.
  apply andb_true_iff in Hpath as [Hslash Hpath].
  set (blank := fun c => Ascii.eqb c (ascii_of_N 9) || Ascii.eqb c (ascii_of_N 10)
                         || Ascii.eqb c (ascii_of_N 13)).
  set (stop := fun c => Ascii.eqb c "/" || Ascii.eqb c "?" || Ascii.eqb c "#").
  assert (UrlLib.all_chars (fun c => negb (blank c)) host = true) as Hblank.
  { revert Hhost. apply all_chars_impl. intros c.
    destruct c as [[] [] [] [] [] [] [] []]; vm_compute; congruence. }
  assert (UrlLib.all_chars (fun c => negb (stop c)) host = true) as Hstop.
  { revert Hhost. apply all_chars_impl. intros c.
    destruct c as [[] [] [] [] [] [] [] []]; vm_compute; congruence. }
  assert (PyStr.contains "[" host = false) as Hopen.
  { apply not_contains_char. revert Hhost. apply all_chars_impl. intros c.
    destruct c as [[] [] [] [] [] [] [] []]; vm_compute; congruence. }
  assert (PyStr.contains "]" host = false) as Hclose.
  { apply not_contains_char. revert Hhost. apply all_chars_impl. intros c.
    destruct c as [[] [] [] [] [] [] [] []]; vm_compute; congruence. }
  assert (UrlLib.remove_chars blank path = path) as Hkept.
  { apply remove_chars_clean. revert Hpath. apply all_chars_impl. intros c.
    destruct c as [[] [] [] [] [] [] [] []]; vm_compute; congruence. }
  assert (UrlLib.cut "#" path = None) as Hfragment.
  { apply cut_absent. revert Hpath. apply all_chars_impl. intros c.
    destruct c as [[] [] [] [] [] [] [] []]; vm_compute; congruence. }
  assert (UrlLib.cut "?" path = None) as Hquery.
  { apply cut_absent. revert Hpath. apply all_chars_impl. intros c.
    destruct c as [[] [] [] [] [] [] [] []]; vm_compute; congruence. }
  assert (PyStr.contains ";" path = false) as Hparams.
  { apply not_contains_char. revert Hpath. apply all_chars_impl. intros c.
    destruct c as [[] [] [] [] [] [] [] []]; vm_compute; congruence. }
  assert (match path with EmptyString => true | String c _ => stop c end = true) as Hbreak.
  { destruct path as [|c path]; [reflexivity|].
    unfold PyStr.startswith in Hslash. rewrite prefix_char in Hslash.
    unfold stop. rewrite Hslash. reflexivity. }
  rewrite urlparse_scheme. cbv zeta. fold blank. fold stop.
  rewrite (remove_chars_plain blank host path Hblank), Hkept.
  rewrite (break_plain stop host path Hstop Hbreak), Hopen, Hclose. cbn [xorb].
  rewrite Hfragment, Hquery, Hparams. reflexivity.
Qed.

(** X26: the path check of a URL.  In an http(s) URL with a plain host and a
    plain path (one that starts with a slash and holds no question mark,
    hash, semicolon, percent sign, tab or line break) the path check reads
    the path as written, without regard to case: the URL is flagged whenever
    its path matches one of the suspicious patterns, and a path that
    contains the directory traversal [/../..] always does. *)
Theorem suspicious_path_is_flagged (secure : bool) (host path : string) :
  Spec.plain_host host = true -> Spec.plain_path path = true ->
  URLValidator._has_suspicious_path path = true
  \/ PyStr.contains "/../.." path = true ->
  URLValidator.is_suspicious ((if secure then "https://" else "http://") +:+ host +:+ path)
  = true.
Proof.
  intros Hhost Hpath Hbad.
  assert (URLValidator._has_suspicious_path path = true) as Hcheck.
  { destruct Hbad as [H|H]; [exact H|].
    unfold URLValidator._has_suspicious_path, URLValidator.suspicious_patterns.
    cbn [existsb].
    assert (Regex.search false (Regex.Str "/../..") (PyStr.lower path) = true) as ->.
    { apply (search_of_contains false _ "/../..").
      - intros rest. vm_compute. discriminate.
      - destruct (contains_inv _ _ H) as (pre & post & ->).
        rewrite !lower_app. apply contains_app. }
    rewrite !orb_true_r. reflexivity. }
  unfold URLValidator.is_suspicious.
  assert (UrlLib.unquote path = path) as Hunquote.
  { apply unquote_clean. unfold Spec.plain_path in Hpath.
    apply andb_true_iff in Hpath as [_ Hpath]. revert Hpath. apply all_chars_impl.
    intros c. destruct c as [[] [] [] [] [] [] [] []]; vm_compute; congruence. }
  rewrite unquote_scheme, (unquote_plain host path Hhost), Hunquote, !lower_app.
  replace (PyStr.lower (if secure then "https://" else "http://"))
    with (if secure then "https://" else "http://") by (destruct secure; reflexivity).
  rewrite (urlparse_path secure (PyStr.lower host) (PyStr.lower path))
    by (rewrite ?plain_host_lower, ?plain_path_lower; assumption).
  cbn [UrlLib.path UrlLib.netloc]. unfold URLValidator.any. cbn [existsb].
  assert (URLValidator._has_suspicious_path (PyStr.lower path) = true) as ->.
  { unfold URLValidator._has_suspicious_path in *. rewrite lower_idempotent. exact Hcheck. }
  rewrite !orb_true_r. reflexivity.
Qed.

Lemma suspicious_path_is_flagged_witness :
  URLValidator.is_suspicious "http://example.org/files/../../etc/passwd" = true.
Proof.
  apply (suspicious_path_is_flagged false "example.org" "/files/../../etc/passwd");
    [reflexivity | reflexivity | right; reflexivity].
Defined.

(** X27: the redirect check counts the distinct parameter names among
    [url=], [redirect=], [goto=], [dest=] and [target=] that occur in the
    lower-cased URL: it holds exactly when two different names occur, so
    that one name repeated does not count; and every URL whose unquoted text
    passes the check is flagged, whatever the rest of it is. *)
Theorem redirect_parameters (url : string) :
  (URLValidator._has_multiple_redirects url = true <->
   exists first second,
     first <> second
     /\ In first URLValidator.redirect_params /\ In second URLValidator.redirect_params
     /\ PyStr.contains first (PyStr.lower url) = true
     /\ PyStr.contains second (PyStr.lower url) = true)
  /\ (URLValidator._has_multiple_redirects (UrlLib.unquote url) = true ->
      URLValidator.is_suspicious url = true).
Proof.
  split.
  - unfold URLValidator._has_multiple_redirects. cbv zeta.
    rewrite (count_fold (fun param => PyStr.contains param (PyStr.lower url))).
    rewrite Z.leb_le. split.
    + intros Hcount.
      apply (present_two (fun param => PyStr.contains param (PyStr.lower url))
                         URLValidator.redirect_params).
      * unfold URLValidator.redirect_params.
        repeat (constructor; [cbn [In]; intuition discriminate|]). constructor.
      * lia.
    + intros (first & second & Hne & Hfirst & Hsecond & Hin1 & Hin2).
      pose proof (two_present (fun param => PyStr.contains param (PyStr.lower url))
                              _ _ _ Hne Hfirst Hsecond Hin1 Hin2).
      lia.
  - intros Hcount. unfold URLValidator.is_suspicious.
    destruct (UrlLib.urlparse _) as [parsed|?]; [|reflexivity].
    unfold URLValidator.any. cbn [existsb]. rewrite Hcount, !orb_true_r. reflexivity.
Qed.

Lemma redirect_parameters_witness :
  URLValidator.is_suspicious "http://example.org/out?url=a&goto=b" = true.
Proof.
  apply (redirect_parameters "http://example.org/out?url=a&goto=b"). reflexivity.
Defined.

(** ** Urgency *)

Lemma contains_left (sub a b : string) :
  PyStr.contains sub a = true -> PyStr.contains sub (a +:+ b) = true.
Proof.
  intros H. apply (contains_trans sub a); [exact H|].
  apply (contains_app EmptyString a b).
Qed.

Lemma contains_right (sub a b : string) :
  PyStr.contains sub b = true -> PyStr.contains sub (a +:+ b) = true.
Proof.
  intros H. apply (contains_trans sub b); [exact H|].
  pose proof (contains_app a b EmptyString) as E. rewrite append_empty_r in E. exact E.
Qed.

(** an urgency pattern that is a plain word matches wherever the word stands *)
Lemma keyword_pattern (keyword s : string) :
  In keyword Spec.urgency_keywords ->
  In (Regex.Str keyword) EmailParser.urgency_patterns
  /\ (PyStr.contains keyword s = true -> Regex.search false (Regex.Str keyword) s = true).
Proof.
  intros Hin. unfold Spec.urgency_keywords in Hin.
  repeat (destruct Hin as [<-|Hin];
          [split; [cbn; tauto
                  | apply search_of_contains; intros rest; vm_compute; discriminate]|]).
  destruct Hin.
Qed.

Lemma keyword_patterns_differ (first second : string) :
  In first Spec.urgency_keywords -> In second Spec.urgency_keywords ->
  first <> second -> Regex.Str first <> Regex.Str second.
Proof.
  intros Hfirst Hsecond Hne. unfold Spec.urgency_keywords in *.
  repeat (destruct Hfirst as [<-|Hfirst]; [|]); try destruct Hfirst;
    repeat (destruct Hsecond as [<-|Hsecond]; [|]); try destruct Hsecond;
    try (exfalso; apply Hne; reflexivity);
    intros H; vm_compute in H; discriminate H.
Qed.

(** X28: the urgency flag of a parsed e-mail is set as soon as two different
    words among urgent, immediate, expire, suspend, act now, deadline and
    asap occur in the subject and the body taken together, in any case: one
    word in the subject and another in the body are enough. *)
Theorem urgency_of_two_indicators
        (env : Env) (sender subject body first second : string)
        (headers : option (list (string * string))) (st : State) :
  In first Spec.urgency_keywords -> In second Spec.urgency_keywords ->
  first <> second ->
  PyStr.contains first (PyStr.lower subject) = true ->
  PyStr.contains second (PyStr.lower body) = true ->
  EmailParser._detect_urgency (subject +:+ " " +:+ body) = true
  /\ exists parsed,
       EmailParser.parse env sender subject body headers st = (Ok parsed, tick st)
       /\ urgency_detected parsed = true.
Proof.
  intros Hfirst Hsecond Hne Hsubject Hbody.
  assert (EmailParser._detect_urgency (subject +:+ " " +:+ body) = true) as Hdetect.
  { unfold EmailParser._detect_urgency. cbv zeta.
    set (text_lower := PyStr.lower (subject +:+ " " +:+ body)).
    rewrite (count_fold (fun pattern => Regex.search false pattern text_lower)).
    apply Z.leb_le.
    destruct (keyword_pattern first text_lower Hfirst) as [Hin1 Hsearch1].
    destruct (keyword_pattern second text_lower Hsecond) as [Hin2 Hsearch2].
    pose proof (keyword_patterns_differ first second Hfirst Hsecond Hne) as Hdiff.
    pose proof (two_present (fun pattern => Regex.search false pattern text_lower)
                            _ _ _ Hdiff Hin1 Hin2) as Htwo.
    unfold text_lower in *. rewrite !lower_app in *.
    specialize (Htwo (Hsearch1 (contains_left _ _ _ Hsubject))
                     (Hsearch2 (contains_right _ _ _ (contains_right _ _ _ Hbody)))).
    lia. }
  split; [exact Hdetect|].
  destruct (parse_sender_total sender) as (parts & Hparts & _).
  unfold EmailParser.parse, mbind, M_bind, now, lift, mret, M_ret.
  rewrite Hparts. eexists. split; [reflexivity|]. exact Hdetect.
Qed.

Lemma urgency_of_two_indicators_witness :
  EmailParser._detect_urgency ("URGENT notice" +:+ " " +:+ "The deadline is Friday.") = true.
Proof.
  apply (urgency_of_two_indicators Spec.offline "bank@example.org"
           "URGENT notice" "The deadline is Friday." "urgent" "deadline" None Spec.fresh);
    try reflexivity; [cbn; tauto | cbn; tauto | discriminate].
Defined.

(** ** The findings in a body *)






